(** * Viklyst ML: train/serve feature consistency

    A shallow embedding of [ml/train.py] and [ml/serve.py]: the feature
    derivation shared by the training CLI and the inference server, the
    walk-forward splitter, the file-name-versioned artifact store and the
    prediction path, with the properties the design document states about
    them.

    Numbers are IEEE-754 binary64 values (Rocq's primitive floats), so a
    missing value is a NaN exactly as in a pandas float64 column. *)

From Stdlib Require Import Floats ZArith Uint63 Ascii String.
From stdpp Require Import base option list strings gmap sorting pretty.

Local Open Scope Z_scope.
Local Set Warnings "-register-all".

(** ** Exceptions and fallible computations *)

(** The exceptions the two programs can raise.  [HTTPException] is FastAPI's;
    its [detail] keeps the data the message is formatted from. *)
Inductive exn :=
| KeyError (key : string)
| TypeError (msg : string)
| ValueError (msg : string)
| IndexError (msg : string)
| FileNotFoundError (msg : string)
| AttributeError (msg : string)
| HTTPError (status : Z)
| HTTPException (status_code : Z) (detail : http_detail)
with http_detail :=
| FailedToFetchBars (status : Z) (text : string)
| NoBarsReturned
| BarsMissingClose (cols : list string)
| FailedToLoadModelMeta (cause : exn)
| MetaMissingFeatureColumns
| NotEnoughBars
| FeatureMismatch (missing : list string).

Inductive result (A : Type) :=
| Ok (a : A)
| Raise (e : exn).
Arguments Ok {A} a.
Arguments Raise {A} e.

#[global] Instance result_ret : MRet result := @Ok.
#[global] Instance result_bind : MBind result := fun A B f m =>
  match m with Ok a => f a | Raise e => Raise e end.
#[global] Instance result_fmap : FMap result := fun A B f m =>
  match m with Ok a => Ok (f a) | Raise e => Raise e end.

(** ** Floating point helpers *)

Definition notna (x : float) : bool := negb (is_nan x).

(** int64 to float64, as numpy converts an integer column. *)
Definition float_of_Z (z : Z) : float :=
  if z <? 0 then PrimFloat.opp (PrimFloat.of_uint63 (Uint63.of_Z (- z)))
  else PrimFloat.of_uint63 (Uint63.of_Z z).

Definition fsum (xs : list float) : float := foldl PrimFloat.add 0%float xs.

(** Window aggregates of [Series.rolling(w).mean()] and [.std()] (sample
    standard deviation, ddof = 1) on a window that holds no NaN. *)
Definition mean (xs : list float) : float :=
  (fsum xs / float_of_Z (Z.of_nat (length xs)))%float.

Definition std (xs : list float) : float :=
  let m := mean xs in
  PrimFloat.sqrt
    (fsum ((fun x => ((x - m) * (x - m))%float) <$> xs)
     / float_of_Z (Z.of_nat (length xs) - 1))%float.

(** ** Series and data frames *)

(** A column with its dtype: float64, int64 or datetime64 (a day number,
    [None] for NaT). *)
Inductive Series :=
| FloatCol (xs : list float)
| IntCol (xs : list Z)
| DateCol (xs : list (option Z)).

(** One value of a column. *)
Inductive cell :=
| CFloat (x : float)
| CInt (n : Z)
| CDate (d : option Z).

Definition slen (s : Series) : nat :=
  match s with
  | FloatCol xs => length xs
  | IntCol xs => length xs
  | DateCol xs => length xs
  end.

Definition iloc (s : Series) (i : nat) : option cell :=
  match s with
  | FloatCol xs => CFloat <$> xs !! i
  | IntCol xs => CInt <$> xs !! i
  | DateCol xs => CDate <$> xs !! i
  end.

Definition cell_notna (c : cell) : bool :=
  match c with
  | CFloat x => notna x
  | CInt _ => true
  | CDate d => bool_decide (is_Some d)
  end.

(** [Series.notna()] at one position. *)
Definition notna_at (s : Series) (i : nat) : bool :=
  from_option cell_notna false (iloc s i).

(** Positional selection, [Series.take]. *)
Definition take_rows (idx : list nat) (s : Series) : Series :=
  match s with
  | FloatCol xs => FloatCol ((fun i => default nan (xs !! i)) <$> idx)
  | IntCol xs => IntCol ((fun i => default 0 (xs !! i)) <$> idx)
  | DateCol xs => DateCol ((fun i => default None (xs !! i)) <$> idx)
  end.

(** The columns of a frame, in order.  Rows are positions: every frame the
    programs build carries the default range index. *)
Definition DataFrame := list (string * Series).

Definition columns (df : DataFrame) : list string := df.*1.

(** [len(df)] *)
Definition nrows (df : DataFrame) : nat :=
  match df with
  | [] => 0%nat
  | (_, s) :: _ => slen s
  end.

Fixpoint lookup_col (df : DataFrame) (c : string) : option Series :=
  match df with
  | [] => None
  | (k, s) :: rest => if decide (k = c) then Some s else lookup_col rest c
  end.

(** [df[c]] *)
Definition getitem (df : DataFrame) (c : string) : result Series :=
  match lookup_col df c with
  | Some s => Ok s
  | None => Raise (KeyError c)
  end.

(** [df[c] = s]: replaces the column in place when it exists, appends it
    otherwise. *)
Fixpoint setitem (df : DataFrame) (c : string) (s : Series) : DataFrame :=
  match df with
  | [] => [(c, s)]
  | (k, s0) :: rest =>
      if decide (k = c) then (k, s) :: rest else (k, s0) :: setitem rest c s
  end.

(** [df.copy()] on values. *)
Definition copy (df : DataFrame) : DataFrame := df.

Definition take_frame (idx : list nat) (df : DataFrame) : DataFrame :=
  prod_map id (take_rows idx) <$> df.

(** Rows with no missing value in any column. *)
Definition complete_row (df : DataFrame) (i : nat) : bool :=
  forallb (fun kv => notna_at kv.2 i) df.

Definition complete_rows (df : DataFrame) : list nat :=
  filter (fun i => complete_row df i = true) (seq 0 (nrows df)).

(** [df.dropna()] *)
Definition dropna (df : DataFrame) : DataFrame :=
  take_frame (complete_rows df) df.

(** [df.reset_index(drop=True)]: rows are already addressed by position. *)
Definition reset_index (df : DataFrame) : DataFrame := df.

(** ** The pandas operations the feature builders use *)

(** Numeric view of a column; arithmetic on a datetime column is a
    [TypeError]. *)
Definition as_float (s : Series) : result (list float) :=
  match s with
  | FloatCol xs => Ok xs
  | IntCol xs => Ok (float_of_Z <$> xs)
  | DateCol _ => Raise (TypeError "unsupported operand type for datetime64")
  end.

(** [shift(1)] and [shift(-1)] on values: the vacated end is NaN. *)
Definition shift_fwd (xs : list float) : list float :=
  take (length xs) (nan :: xs).

Definition shift_back (xs : list float) : list float :=
  drop 1 (xs ++ [nan]).

(** [x / x.shift(1) - 1] *)
Definition pct_change_values (xs : list float) : list float :=
  zip_with (fun x p => (x / p - 1)%float) xs (shift_fwd xs).

Definition pct_change (s : Series) : result Series :=
  xs ← as_float s; Ok (FloatCol (pct_change_values xs)).

(** The trailing window of [w] observations that ends at position [i]. *)
Definition window (w i : nat) (xs : list float) : list float :=
  take w (drop (S i - w) xs).

(** [rolling(w)] with its default [min_periods = w]: the aggregate is
    defined at [i] once [w] observations end there and none is NaN. *)
Definition rolling_at (w : nat) (agg : list float -> float)
    (xs : list float) (i : nat) : float :=
  if decide (w ≤ S i)%nat
  then if forallb notna (window w i xs) then agg (window w i xs) else nan
  else nan.

Definition rolling_values (w : nat) (agg : list float -> float)
    (xs : list float) : list float :=
  rolling_at w agg xs <$> seq 0 (length xs).

Definition rolling_mean (w : nat) (s : Series) : result Series :=
  xs ← as_float s; Ok (FloatCol (rolling_values w mean xs)).

Definition rolling_std (w : nat) (s : Series) : result Series :=
  xs ← as_float s; Ok (FloatCol (rolling_values w std xs)).

(** [a / b - 1.0] *)
Definition ratio_minus_one (a b : Series) : result Series :=
  xs ← as_float a; ys ← as_float b;
  Ok (FloatCol (zip_with (fun x y => (x / y - 1)%float) xs ys)).

(** [(s.shift(-1) > s).astype(int)]: a comparison with NaN is [False], and
    [astype(int)] turns it into 0. *)
Definition up_tomorrow_values (xs : list float) : list Z :=
  zip_with (fun nxt x => if (x <? nxt)%float then 1 else 0) (shift_back xs) xs.

Definition up_tomorrow (s : Series) : result Series :=
  xs ← as_float s; Ok (IntCol (up_tomorrow_values xs)).

(** [pd.to_datetime] leaves a datetime64 column as it is.  The bar source
    sends ISO dates; the frames of this model hold them parsed.  Epoch
    numbers are outside the model. *)
Definition to_datetime (s : Series) : result Series :=
  match s with
  | DateCol xs => Ok (DateCol xs)
  | _ => Raise (TypeError "to_datetime: not a date column")
  end.

(** Order of sort keys, missing values last. *)
Definition cell_le (a b : cell) : bool :=
  match a, b with
  | CFloat x, CFloat y => is_nan y || (notna x && (x <=? y)%float)
  | CInt x, CInt y => bool_decide (x ≤ y)
  | CDate _, CDate None => true
  | CDate None, CDate (Some _) => false
  | CDate (Some x), CDate (Some y) => bool_decide (x ≤ y)
  | _, _ => true
  end.

Definition key_le (s : Series) (i j : nat) : Prop :=
  match iloc s i, iloc s j with
  | Some a, Some b => cell_le a b = true
  | None, Some _ => False
  | _, None => True
  end.

#[global] Instance key_le_dec s i j : Decision (key_le s i j).
Proof. unfold key_le. destruct (iloc s i), (iloc s j); apply _. Defined.

(** [df.sort_values(by)]: ascending, missing keys last. *)
Definition sort_values (df : DataFrame) (by_ : string) : result DataFrame :=
  s ← getitem df by_;
  Ok (take_frame (merge_sort (key_le s) (seq 0 (nrows df))) df).

(** ** ml/train.py: build_features *)

Definition build_features (df : DataFrame) : result DataFrame :=
  let out := copy df in
  (* Basic returns *)
  ret_1d ← getitem out "close" ≫= pct_change;
  let out := setitem out "ret_1d" ret_1d in
  (* Moving averages *)
  ma_5 ← getitem out "close" ≫= rolling_mean 5;
  let out := setitem out "ma_5" ma_5 in
  ma_10 ← getitem out "close" ≫= rolling_mean 10;
  let out := setitem out "ma_10" ma_10 in
  (* Price vs MA *)
  close ← getitem out "close"; ma ← getitem out "ma_5";
  close_over_ma5 ← ratio_minus_one close ma;
  let out := setitem out "close_over_ma5" close_over_ma5 in
  close ← getitem out "close"; ma ← getitem out "ma_10";
  close_over_ma10 ← ratio_minus_one close ma;
  let out := setitem out "close_over_ma10" close_over_ma10 in
  (* Volatility *)
  vol_5 ← getitem out "ret_1d" ≫= rolling_std 5;
  let out := setitem out "vol_5" vol_5 in
  vol_10 ← getitem out "ret_1d" ≫= rolling_std 10;
  let out := setitem out "vol_10" vol_10 in
  (* Volume change *)
  volchg_1d ← getitem out "volume" ≫= pct_change;
  let out := setitem out "volchg_1d" volchg_1d in
  (* TARGET: tomorrow up? *)
  target ← getitem out "close" ≫= up_tomorrow;
  let out := setitem out "target_up_tomorrow" target in
  (* Drop rows where rolling windows aren't ready / target missing *)
  let out := reset_index (dropna out) in
  Ok out.

(** ** ml/serve.py: engineer_features *)

Definition engineer_features (df : DataFrame) : result DataFrame :=
  let out := copy df in
  day ← getitem out "day" ≫= to_datetime;
  let out := setitem out "day" day in
  out ← reset_index <$> sort_values out "day";
  (* Same features as train.py *)
  ret_1d ← getitem out "close" ≫= pct_change;
  let out := setitem out "ret_1d" ret_1d in
  ma_5 ← getitem out "close" ≫= rolling_mean 5;
  let out := setitem out "ma_5" ma_5 in
  ma_10 ← getitem out "close" ≫= rolling_mean 10;
  let out := setitem out "ma_10" ma_10 in
  close ← getitem out "close"; ma ← getitem out "ma_5";
  close_over_ma5 ← ratio_minus_one close ma;
  let out := setitem out "close_over_ma5" close_over_ma5 in
  close ← getitem out "close"; ma ← getitem out "ma_10";
  close_over_ma10 ← ratio_minus_one close ma;
  let out := setitem out "close_over_ma10" close_over_ma10 in
  vol_5 ← getitem out "ret_1d" ≫= rolling_std 5;
  let out := setitem out "vol_5" vol_5 in
  vol_10 ← getitem out "ret_1d" ≫= rolling_std 10;
  let out := setitem out "vol_10" vol_10 in
  volchg_1d ← getitem out "volume" ≫= pct_change;
  let out := setitem out "volchg_1d" volchg_1d in
  (* Drop rows where rolling windows aren't ready *)
  let out := reset_index (dropna out) in
  Ok out.

(** ** Notions used to state the properties *)

(** Every column has as many values as the frame has rows. *)
Definition frame_wf (df : DataFrame) : Prop :=
  Forall (fun kv => slen kv.2 = nrows df) df.

(** [df[c]] read as numbers. *)
Definition numeric_col (df : DataFrame) (c : string) : result (list float) :=
  getitem df c ≫= as_float.

(** [df[c].iloc[i]] when the column and the row exist. *)
Definition value_at (df : DataFrame) (c : string) (i : nat) : option cell :=
  lookup_col df c ≫= fun s => iloc s i.

(** A column of numbers. *)
Definition is_numeric (s : Series) : Prop :=
  match s with
  | DateCol _ => False
  | _ => True
  end.

(** The eight derived feature columns. *)
Definition DERIVED : list string :=
  ["ret_1d"; "ma_5"; "ma_10"; "close_over_ma5"; "close_over_ma10";
   "vol_5"; "vol_10"; "volchg_1d"].

(** The frame after the eight feature assignments, from the close and
    volume values they read. *)
Definition feature_frame (df : DataFrame) (c v : list float) : DataFrame :=
  let ret_1d := pct_change_values c in
  let ma_5 := rolling_values 5 mean c in
  let ma_10 := rolling_values 10 mean c in
  let out := setitem df "ret_1d" (FloatCol ret_1d) in
  let out := setitem out "ma_5" (FloatCol ma_5) in
  let out := setitem out "ma_10" (FloatCol ma_10) in
  let out := setitem out "close_over_ma5"
               (FloatCol (zip_with (fun x y => (x / y - 1)%float) c ma_5)) in
  let out := setitem out "close_over_ma10"
               (FloatCol (zip_with (fun x y => (x / y - 1)%float) c ma_10)) in
  let out := setitem out "vol_5" (FloatCol (rolling_values 5 std ret_1d)) in
  let out := setitem out "vol_10" (FloatCol (rolling_values 10 std ret_1d)) in
  setitem out "volchg_1d" (FloatCol (pct_change_values v)).

(** ** Frames as Python objects

    A variable of the Python programs holds a reference to a frame object:
    [out[c] = s] changes the object in place, while [copy], [sort_values],
    [dropna] and [reset_index] build a new one.  The feature builders are
    embedded once more on a store of objects, to state what they do to the
    frame their caller passed in. *)
Module Store.

Abbreviation ref := nat.
Abbreviation heap := (list DataFrame).

Record M (A : Type) := Run { run : heap -> result A * heap }.
Arguments Run {A} _.
Arguments run {A} _ _.

#[global] Instance M_ret : MRet M := fun A a => Run (fun h => (Ok a, h)).
#[global] Instance M_bind : MBind M := fun A B f m =>
  Run (fun h => match run m h with
                | (Ok a, h') => run (f a) h'
                | (Raise e, h') => (Raise e, h')
                end).

(** A pure, fallible step. *)
Definition lift {A} (r : result A) : M A := Run (fun h => (r, h)).

Definition alloc (d : DataFrame) : M ref :=
  Run (fun h => (Ok (length h), h ++ [d])).

Definition deref (r : ref) : M DataFrame :=
  Run (fun h => match h !! r with
                | Some d => (Ok d, h)
                | None => (Raise (ValueError "invalid reference"), h)
                end).

(** [df.copy()] *)
Definition copy (r : ref) : M ref := d ← deref r; alloc d.

(** [df[c]] *)
Definition getitem (r : ref) (c : string) : M Series :=
  d ← deref r; lift (getitem d c).

(** [df[c] = s], in place. *)
Definition setitem (r : ref) (c : string) (s : Series) : M unit :=
  Run (fun h => (Ok (), alter (fun d => setitem d c s) r h)).

Definition sort_values (r : ref) (by_ : string) : M ref :=
  d ← deref r; d' ← lift (sort_values d by_); alloc d'.

Definition dropna (r : ref) : M ref := d ← deref r; alloc (dropna d).

Definition reset_index (r : ref) : M ref := d ← deref r; alloc (reset_index d).

Definition build_features (df : ref) : M ref :=
  out ← copy df;
  ret_1d ← getitem out "close" ≫= lift ∘ pct_change;
  _ ← setitem out "ret_1d" ret_1d;
  ma_5 ← getitem out "close" ≫= lift ∘ rolling_mean 5;
  _ ← setitem out "ma_5" ma_5;
  ma_10 ← getitem out "close" ≫= lift ∘ rolling_mean 10;
  _ ← setitem out "ma_10" ma_10;
  close ← getitem out "close"; ma ← getitem out "ma_5";
  close_over_ma5 ← lift (ratio_minus_one close ma);
  _ ← setitem out "close_over_ma5" close_over_ma5;
  close ← getitem out "close"; ma ← getitem out "ma_10";
  close_over_ma10 ← lift (ratio_minus_one close ma);
  _ ← setitem out "close_over_ma10" close_over_ma10;
  vol_5 ← getitem out "ret_1d" ≫= lift ∘ rolling_std 5;
  _ ← setitem out "vol_5" vol_5;
  vol_10 ← getitem out "ret_1d" ≫= lift ∘ rolling_std 10;
  _ ← setitem out "vol_10" vol_10;
  volchg_1d ← getitem out "volume" ≫= lift ∘ pct_change;
  _ ← setitem out "volchg_1d" volchg_1d;
  target ← getitem out "close" ≫= lift ∘ up_tomorrow;
  _ ← setitem out "target_up_tomorrow" target;
  out ← dropna out ≫= reset_index;
  mret out.

Definition engineer_features (df : ref) : M ref :=
  out ← copy df;
  day ← getitem out "day" ≫= lift ∘ to_datetime;
  _ ← setitem out "day" day;
  out ← sort_values out "day" ≫= reset_index;
  ret_1d ← getitem out "close" ≫= lift ∘ pct_change;
  _ ← setitem out "ret_1d" ret_1d;
  ma_5 ← getitem out "close" ≫= lift ∘ rolling_mean 5;
  _ ← setitem out "ma_5" ma_5;
  ma_10 ← getitem out "close" ≫= lift ∘ rolling_mean 10;
  _ ← setitem out "ma_10" ma_10;
  close ← getitem out "close"; ma ← getitem out "ma_5";
  close_over_ma5 ← lift (ratio_minus_one close ma);
  _ ← setitem out "close_over_ma5" close_over_ma5;
  close ← getitem out "close"; ma ← getitem out "ma_10";
  close_over_ma10 ← lift (ratio_minus_one close ma);
  _ ← setitem out "close_over_ma10" close_over_ma10;
  vol_5 ← getitem out "ret_1d" ≫= lift ∘ rolling_std 5;
  _ ← setitem out "vol_5" vol_5;
  vol_10 ← getitem out "ret_1d" ≫= lift ∘ rolling_std 10;
  _ ← setitem out "vol_10" vol_10;
  volchg_1d ← getitem out "volume" ≫= lift ∘ pct_change;
  _ ← setitem out "volchg_1d" volchg_1d;
  out ← dropna out ≫= reset_index;
  mret out.

(** [m] leaves the first [n] objects of the store as they are, whatever
    it returns or raises, and a value it returns satisfies [Q]. *)
Definition preserves {A} (n : nat) (m : M A) (Q : A -> Prop) : Prop :=
  forall h : heap, (n ≤ length h)%nat ->
    take n (snd (run m h)) = take n h /\
    (n ≤ length (snd (run m h)))%nat /\
    forall a, fst (run m h) = Ok a -> Q a.

End Store.

(** ** ml/serve.py: pick_latest_row_features *)

(** [df.iloc[i]]: the values of one row, by column name. *)
Definition iloc_row (df : DataFrame) (i : nat) : option (list (string * cell)) :=
  mapM (fun kv => pair kv.1 <$> iloc kv.2 i) df.

(** [df.iloc[-1]] *)
Definition iloc_last (df : DataFrame) : result (list (string * cell)) :=
  match nrows df with
  | O => Raise (IndexError "single positional indexer is out-of-bounds")
  | S i =>
      match iloc_row df i with
      | Some row => Ok row
      | None => Raise (IndexError "single positional indexer is out-of-bounds")
      end
  end.

Fixpoint row_get (row : list (string * cell)) (c : string) : result cell :=
  match row with
  | [] => Raise (KeyError c)
  | (k, v) :: rest => if decide (k = c) then Ok v else row_get rest c
  end.

(** [float(v)] *)
Definition to_float (v : cell) : result float :=
  match v with
  | CFloat x => Ok x
  | CInt n => Ok (float_of_Z n)
  | CDate _ => Raise (TypeError "float() argument must be a string or a real number")
  end.

(** The as-of stamp of a prediction: [str(last["day"].date())], kept as the
    date itself, or the literal ["latest"]. *)
Inductive as_of :=
| AsOfDate (d : option Z)
| AsOfLatest.

(** [v.date()] *)
Definition date_of (v : cell) : result as_of :=
  match v with
  | CDate d => Ok (AsOfDate d)
  | _ => Raise (TypeError "object has no attribute date")
  end.

Definition pick_latest_row_features (df_feat : DataFrame)
    (feature_cols : list string) : result (as_of * list float) :=
  let missing := filter (fun c => c ∉ columns df_feat) feature_cols in
  if bool_decide (missing ≠ []) then
    Raise (HTTPException 500 (FeatureMismatch missing))
  else
    last ← iloc_last df_feat;
    as_of ← (if bool_decide ("day" ∈ columns df_feat)
             then row_get last "day" ≫= date_of
             else Ok AsOfLatest);
    x ← mapM (fun c => row_get last c ≫= to_float) feature_cols;
    Ok (as_of, x).

(** ** sklearn.model_selection.TimeSeriesSplit *)

Definition fold : Type := list nat * list nat.

(** [TimeSeriesSplit(n_splits).split(X)] for [n_samples = len(X)], with the
    default [gap = 0], [test_size = None] and [max_train_size = None].  The
    generator raises at its first step, inside the caller's loop. *)
Definition TimeSeriesSplit_split (n_splits n_samples : nat) : result (list fold) :=
  let n_folds := (n_splits + 1)%nat in
  let test_size := (n_samples `div` n_folds)%nat in
  if decide (n_samples < n_folds)%nat then
    Raise (ValueError ("Cannot have number of folds=" +:+ pretty n_folds +:+
                       " greater than the number of samples=" +:+
                       pretty n_samples +:+ "."))
  else if decide (Z.of_nat n_samples - Z.of_nat test_size * Z.of_nat n_splits ≤ 0) then
    Raise (ValueError "Too many splits for number of samples")
  else
    Ok ((fun k =>
           let test_start := (n_samples - n_splits * test_size + k * test_size)%nat in
           (seq 0 test_start, seq test_start test_size))
        <$> seq 0 n_splits).

(** ** Strings and paths *)

Definition ascii_upper (c : ascii) : ascii :=
  let n := nat_of_ascii c in
  if ((97 <=? n) && (n <=? 122))%nat then ascii_of_nat (n - 32) else c.

(** [str.upper] on ASCII text. *)
Fixpoint upper (s : string) : string :=
  match s with
  | EmptyString => EmptyString
  | String c r => String (ascii_upper c) (upper r)
  end.

Fixpoint replace_from (old new : string) (skip : nat) (s : string) : string :=
  match s with
  | EmptyString => EmptyString
  | String c r =>
      match skip with
      | S k => replace_from old new k r
      | O =>
          if String.prefix old s
          then new +:+ replace_from old new (String.length old - 1) r
          else String c (replace_from old new 0 r)
      end
  end.

(** [s.replace(old, new)] for a non-empty [old]. *)
Definition replace (old new s : string) : string := replace_from old new 0 s.

Fixpoint basename_from (acc : string) (s : string) : string :=
  match s with
  | EmptyString => acc
  | String c r =>
      if decide (c = "/"%char) then basename_from r r else basename_from acc r
  end.

(** [os.path.basename] *)
Definition basename (p : string) : string := basename_from p p.

Fixpoint ends_with_slash (s : string) : bool :=
  match s with
  | EmptyString => false
  | String c EmptyString => bool_decide (c = "/"%char)
  | String _ r => ends_with_slash r
  end.

(** [os.path.join(a, b)] *)
Definition path_join (a b : string) : string :=
  if String.prefix "/" b then b
  else if bool_decide (a = "") || ends_with_slash a then a +:+ b
  else a +:+ "/" +:+ b.

(** ** JSON documents and the artifact directory *)

Inductive json :=
| JNull
| JBool (b : bool)
| JInt (n : Z)
| JFloat (x : float)
| JStr (s : string)
| JArr (items : list json)
| JObj (fields : list (string * json)).

(** [d.get(key)] on a dict, [None] when the key is absent. *)
Fixpoint dict_get (fields : list (string * json)) (key : string) : option json :=
  match fields with
  | [] => None
  | (k, v) :: rest => if decide (k = key) then Some v else dict_get rest key
  end.

(** Python truthiness of a loaded JSON value. *)
Definition truthy (v : json) : bool :=
  match v with
  | JNull => false
  | JBool b => b
  | JInt n => bool_decide (n ≠ 0)
  | JFloat x => negb (x =? 0)%float
  | JStr s => bool_decide (s ≠ "")
  | JArr items => bool_decide (items ≠ [])
  | JObj fields => bool_decide (fields ≠ [])
  end.

(** [json.load] of a schema entry as the list of column names it holds.
    Other truthy shapes are outside the model. *)
Definition column_names (v : json) : result (list string) :=
  match v with
  | JArr items =>
      mapM (fun j => match j with
                     | JStr s => Ok s
                     | _ => Raise (TypeError "feature_columns: not a column name")
                     end) items
  | _ => Raise (TypeError "feature_columns: not a list")
  end.

(** Lexicographic order of [str], by code point. *)
Definition str_le (a b : string) : Prop := String.leb a b = true.

#[global] Instance str_le_dec a b : Decision (str_le a b).
Proof. unfold str_le. apply _. Defined.

(** [sorted] on a list of strings. *)
Definition sorted (l : list string) : list string := merge_sort str_le l.

(** [datetime.utcnow()] as its calendar fields. *)
Record datetime := {
  year : nat; month : nat; day : nat;
  hour : nat; minute : nat; second : nat
}.

(** Zero-padded decimal of width [w], as [%02d]. *)
Definition zero_pad (w n : nat) : string :=
  let s := pretty n in
  String.concat "" (replicate (w - String.length s) "0") +:+ s.

(** [strftime("%Y%m%d_%H%M%S")] *)
Definition strftime (t : datetime) : string :=
  zero_pad 4 (year t) +:+ zero_pad 2 (month t) +:+ zero_pad 2 (day t) +:+ "_" +:+
  zero_pad 2 (hour t) +:+ zero_pad 2 (minute t) +:+ zero_pad 2 (second t).

(** The calendar fields of a time, most significant first. *)
Definition datetime_key (t : datetime) : list nat :=
  [year t; month t; day t; hour t; minute t; second t].

Fixpoint lex_lt (a b : list nat) : Prop :=
  match a, b with
  | x :: a', y :: b' => (x < y)%nat \/ (x = y /\ lex_lt a' b')
  | _, _ => False
  end.

(** [t1] is an earlier second than [t2]. *)
Definition datetime_lt (t1 t2 : datetime) : Prop :=
  lex_lt (datetime_key t1) (datetime_key t2).

(** A time whose fields fill their [strftime] widths: a four-digit year
    (some platforms print [%Y] of an earlier year without padding) and
    two-digit month, day, hour, minute and second. *)
Definition datetime_wf (t : datetime) : Prop :=
  (1000 ≤ year t < 100 * 100 /\ month t < 100 /\ day t < 100 /\
   hour t < 100 /\ minute t < 100 /\ second t < 100)%nat.

(** Strict lexicographic order of [str]. *)
Definition str_lt (a b : string) : Prop := String.compare a b = Lt.

(** Whether the [w]-digit decimals of 0, 1, ..., [n] have width [w] and
    increase as strings. *)
Definition pad_steps (w n : nat) : bool :=
  forallb (fun a => match String.compare (zero_pad w a) (zero_pad w (S a)) with
                    | Lt => true
                    | _ => false
                    end) (seq 0 n) &&
  forallb (fun a => Nat.eqb (String.length (zero_pad w a)) w) (seq 0 (S n)).

(** [zero_pad] on a binary number. *)
Definition zero_pad_N (w : nat) (x : N) : string :=
  let s := pretty x in
  String.concat "" (replicate (w - String.length s) "0") +:+ s.

(** [pad_steps] from [x] on, counting in binary. *)
Fixpoint pad_loop (w fuel : nat) (x : N) : bool :=
  match fuel with
  | O => Nat.eqb (String.length (zero_pad_N w x)) w
  | S f =>
      match String.compare (zero_pad_N w x) (zero_pad_N w (N.succ x)) with
      | Lt => Nat.eqb (String.length (zero_pad_N w x)) w && pad_loop w f (N.succ x)
      | _ => false
      end
  end.

(** The model path [main] builds at clock [t]:
    [f"ml/models/{symbol.upper()}_{ts}_logreg.joblib"], for any directory
    prefix [dir]. *)
Definition artifact_path (dir symbol : string) (t : datetime) : string :=
  dir +:+ upper symbol +:+ "_" +:+ strftime t +:+ "_logreg.joblib".

(** What the platform answers to [GET .../bars/daily]: the status, the raw
    text and the table its JSON records denote. *)
Record response := {
  status_code : Z;
  text : string;
  data : DataFrame
}.

(** [not data] *)
Definition no_records (d : DataFrame) : bool := bool_decide (nrows d = 0%nat).

(** [np.mean] and [np.std] of the fold scores. *)
Definition np_mean (xs : list float) : float := mean xs.

Definition np_std (xs : list float) : float :=
  let m := mean xs in
  PrimFloat.sqrt (mean ((fun x => ((x - m) * (x - m))%float) <$> xs)).

(** [accuracy_score(y_true, y_pred)] *)
Definition accuracy_score (y_true y_pred : list Z) : float :=
  (float_of_Z (Z.of_nat (length (filter (fun p => p.1 = p.2) (zip y_true y_pred))))
   / float_of_Z (Z.of_nat (length y_true)))%float.

(** [a[idx]] on a list. *)
Definition index_rows {A} (d : A) (a : list A) (idx : list nat) : list A :=
  (fun i => default d (a !! i)) <$> idx.

(** [df[cols].values] as its rows.  Columns are read as numbers. *)
Definition values (df : DataFrame) (cols : list string) : result (list (list float)) :=
  cs ← mapM (fun c => getitem df c ≫= as_float) cols;
  Ok ((fun i => (fun col => default nan (col !! i)) <$> cs) <$> seq 0 (nrows df)).

(** [df[c].values] for the label column. *)
Definition labels (s : Series) : result (list Z) :=
  match s with
  | IntCol ys => Ok ys
  | _ => Raise (TypeError "labels: not an integer column")
  end.

(** What a file of the artifact directory holds: a pickled pipeline or a
    JSON document. *)
Inductive file (Pipeline : Type) :=
| JoblibFile (model : Pipeline)
| JsonFile (doc : json).
Arguments JoblibFile {Pipeline} model.
Arguments JsonFile {Pipeline} doc.

(** ** Sample data *)

(** [n] daily bars, the close rising by one a day from 100. *)
Definition rising_bars (n : nat) : DataFrame :=
  [("day", DateCol ((fun i => Some (Z.of_nat i)) <$> seq 0 n));
   ("close", FloatCol ((fun i => float_of_Z (100 + Z.of_nat i)) <$> seq 0 n));
   ("volume", IntCol ((fun i => 1000 + 10 * Z.of_nat i) <$> seq 0 n))].

(** The training frame of [rising_bars n]. *)
Definition rising_features (n : nat) : DataFrame :=
  match build_features (rising_bars n) with
  | Ok out => out
  | Raise _ => []
  end.

(** A platform that answers every request with [n] rising bars. *)
Definition rising_platform (n : nat) (symbol from_ to_ : string) : response :=
  {| status_code := 200; text := ""; data := rising_bars n |}.

(** A stand-in for the scikit-learn pipeline: fitting always succeeds, and
    the fitted model calls every day an up day with probability 0.5. *)
Definition toy_fit (X : list (list float)) (y : list Z) : result unit := Ok tt.
Definition toy_predict_labels (m : unit) (X : list (list float)) : list Z :=
  (fun _ => 1) <$> X.
Definition toy_predict_proba_up (m : unit) (x : list float) : float := 0.5%float.
Definition toy_report (y_true y_pred : list Z) : string := "".
Definition toy_confusion_matrix (y_true y_pred : list Z) : list (list Z) := [].

(** Glob matching with [*] and [?] only. *)
Fixpoint wildcard (pattern name : string) : bool :=
  match pattern with
  | EmptyString => bool_decide (name = "")
  | String p pattern' =>
      if decide (p = "*"%char) then
        (fix star (name : string) : bool :=
           wildcard pattern' name ||
           match name with
           | EmptyString => false
           | String _ name' => star name'
           end) name
      else
        match name with
        | EmptyString => false
        | String c name' =>
            (bool_decide (p = "?"%char) || bool_decide (p = c)) && wildcard pattern' name'
        end
  end.

Definition toy_fnmatch (name pattern : string) : bool := wildcard pattern name.

(** A models directory with two artifacts of AAPL; the metadata of the
    later one names its schema under "feature_columns". *)
Definition toy_store : gmap string (file unit) :=
  <["models/AAPL_20240101_000000_logreg.joblib" := JoblibFile tt]>
  (<["models/AAPL_20250102_030405_logreg.joblib" := JoblibFile tt]>
   (<["models/AAPL_20250102_030405_meta.json" :=
        JsonFile (JObj [("symbol", JStr "AAPL");
                        ("feature_columns", JArr [JStr "ret_1d"; JStr "ma_5"])])]>
    ∅)).

(** ** Notions for the further properties *)

(** Bars that arrive newest first. *)
Definition falling_days_bars (n : nat) : DataFrame :=
  [("day", DateCol ((fun i => Some (Z.of_nat (n - i))) <$> seq 0 n));
   ("close", FloatCol ((fun i => float_of_Z (100 + Z.of_nat i)) <$> seq 0 n));
   ("volume", IntCol ((fun i => 1000 + 10 * Z.of_nat i) <$> seq 0 n))].

(** The label of a bar. *)
Definition label_of (c : list float) (r : nat) (x : float) : Z :=
  match c !! S r with
  | Some y => if (x <? y)%float then 1 else 0
  | None => 0
  end.

(** [s.head(n)] and [df.head(n)]: the first [n] rows. *)
Definition series_head (n : nat) (s : Series) : Series :=
  match s with
  | FloatCol xs => FloatCol (take n xs)
  | IntCol xs => IntCol (take n xs)
  | DateCol xs => DateCol (take n xs)
  end.

Definition frame_head (n : nat) (df : DataFrame) : DataFrame :=
  prod_map id (series_head n) <$> df.

(** Order of days, a missing day last. *)
Definition day_le (a b : option Z) : Prop := cell_le (CDate a) (CDate b) = true.

(** Whether every character of a string satisfies [P]. *)
Fixpoint all_chars (P : ascii -> bool) (s : string) : bool :=
  match s with
  | EmptyString => true
  | String c r => P c && all_chars P r
  end.

(** Whether no underscore of a string is followed by the letter l. *)
Fixpoint ul_free (s : string) : bool :=
  match s with
  | EmptyString => true
  | String c r => negb (Ascii.eqb c "_" && String.prefix "l" r) && ul_free r
  end.

Definition not_l (c : ascii) : bool := negb (Ascii.eqb c "l").
Definition not_underscore (c : ascii) : bool := negb (Ascii.eqb c "_").

(** [n] daily bars, the close falling and rising by turns. *)
Definition zigzag_bars (n : nat) : DataFrame :=
  [("day", DateCol ((fun i => Some (Z.of_nat i)) <$> seq 0 n));
   ("close", FloatCol ((fun i => float_of_Z (100 + Z.of_nat (i mod 2))) <$> seq 0 n));
   ("volume", IntCol ((fun i => 1000 + 10 * Z.of_nat i) <$> seq 0 n))].

(** The training frame of [zigzag_bars n]. *)
Definition zigzag_features (n : nat) : DataFrame :=
  match build_features (zigzag_bars n) with
  | Ok out => out
  | Raise _ => []
  end.

(** A stand-in for the pipeline's fit that, as the logistic regression
    does, refuses labels of one class only. *)
Definition two_class_fit (X : list (list float)) (y : list Z) : result unit :=
  if bool_decide (0 ∈ y) && bool_decide (1 ∈ y) then Ok tt
  else Raise (ValueError "This solver needs samples of at least 2 classes in the data").

(** A directory whose artifact names no schema. *)
Definition bare_store : gmap string (file unit) :=
  <["models/AAPL_20250102_030405_logreg.joblib" := JoblibFile tt]>
  (<["models/AAPL_20250102_030405_meta.json" :=
       JsonFile (JObj [("symbol", JStr "AAPL"); ("feature_columns", JArr [])])]> ∅).

Section Service.

Set Default Proof Using "Type".

(** The fitted scaler-plus-classifier pipeline and the scikit-learn calls
    made on it. *)
Variable Pipeline : Type.
Variable fit : list (list float) -> list Z -> result Pipeline.
Variable predict_labels : Pipeline -> list (list float) -> list Z.
Variable predict_proba_up : Pipeline -> list float -> float.
Variable classification_report : list Z -> list Z -> string.
Variable confusion_matrix : list Z -> list Z -> list (list Z).
(** [round(x, 6)] *)
Variable round6 : float -> float.
(** [fnmatch]: whether a path matches a glob pattern. *)
Variable fnmatch : string -> string -> bool.
(** The directory [serve.py] looks models up in. *)
Variable MODELS_DIR : string.
(** The platform's daily-bars endpoint, by symbol and date range. *)
Variable platform : string -> string -> string -> response.

(** The file system, by path. *)
Abbreviation files := (gmap string (file Pipeline)).

(** [glob.glob(pattern)]: the matching paths, in directory order. *)
Definition glob (fs : files) (pattern : string) : list string :=
  filter (fun p => fnmatch p pattern = true) (map_to_list fs).*1.

(** *** ml/train.py *)

Definition fetch_daily_bars (symbol start end_ : string) : result DataFrame :=
  let r := platform symbol start end_ in
  if bool_decide (400 ≤ status_code r < 600) then Raise (HTTPError (status_code r))
  else if no_records (data r) then Raise (ValueError "No data returned from API.")
  else
    let df := data r in
    day ← getitem df "day" ≫= to_datetime;
    let df := setitem df "day" day in
    reset_index <$> sort_values df "day".

Record cv_state := {
  fold_scores : list float;
  last_fold_report : option string;
  last_fold_cm : option (list (list Z))
}.

(** The body of the cross-validation loop, fold after fold. *)
Fixpoint cv_loop (X : list (list float)) (y : list Z) (folds : list fold)
    (st : cv_state) : result cv_state :=
  match folds with
  | [] => Ok st
  | (train_idx, test_idx) :: rest =>
      let X_train := index_rows [] X train_idx in
      let X_test := index_rows [] X test_idx in
      let y_train := index_rows 0 y train_idx in
      let y_test := index_rows 0 y test_idx in
      pipeline ← fit X_train y_train;
      let preds := predict_labels pipeline X_test in
      let acc := accuracy_score y_test preds in
      cv_loop X y rest
        {| fold_scores := fold_scores st ++ [acc];
           last_fold_report := Some (classification_report y_test preds);
           last_fold_cm := Some (confusion_matrix y_test preds) |}
  end.

Record train_result := {
  model : Pipeline;
  cv_accuracy_mean : float;
  cv_accuracy_std : float;
  last_report : option string;
  last_confusion_matrix : option (list (list Z))
}.

Definition train_timeseries_model (df_feat : DataFrame)
    (feature_cols : list string) : result train_result :=
  X ← values df_feat feature_cols;
  y ← getitem df_feat "target_up_tomorrow" ≫= labels;
  (* TimeSeriesSplit respects time ordering (no future leakage) *)
  folds ← TimeSeriesSplit_split 5 (length X);
  st ← cv_loop X y folds
         {| fold_scores := []; last_fold_report := None; last_fold_cm := None |};
  (* Fit on full dataset for final saved model *)
  pipeline ← fit X y;
  Ok {| model := pipeline;
        cv_accuracy_mean := np_mean (fold_scores st);
        cv_accuracy_std := np_std (fold_scores st);
        last_report := last_fold_report st;
        last_confusion_matrix := last_fold_cm st |}.

Record Args := {
  base_url : string;
  arg_symbol : string;
  from_date : string;
  to_date : string
}.

Definition FEATURE_COLS : list string :=
  ["ret_1d"; "close_over_ma5"; "close_over_ma10"; "vol_5"; "vol_10"; "volchg_1d"].

(** Save model + metadata: the two files of one artifact. *)
Definition save_artifact (fs : files) (symbol ts from_ to_ : string)
    (feature_cols : list string) (res : train_result) : files :=
  let model_path := "ml/models/" +:+ upper symbol +:+ "_" +:+ ts +:+ "_logreg.joblib" in
  let meta_path := "ml/models/" +:+ upper symbol +:+ "_" +:+ ts +:+ "_meta.json" in
  let fs := <[model_path := JoblibFile (model res)]> fs in
  let meta :=
    JObj [("symbol", JStr (upper symbol));
          ("from", JStr from_);
          ("to", JStr to_);
          ("feature_cols", JArr (JStr <$> feature_cols));
          ("cv_accuracy_mean", JFloat (cv_accuracy_mean res));
          ("cv_accuracy_std", JFloat (cv_accuracy_std res));
          ("notes", JStr "Predicts whether tomorrow close > today close using engineered OHLCV features. Trained via time-series CV.")] in
  <[meta_path := JsonFile meta]> fs.

(** [main], from the parsed arguments, the clock and the file system to
    the file system it leaves. *)
Definition main (args : Args) (utcnow : datetime) (fs : files) : result files :=
  raw ← fetch_daily_bars (arg_symbol args) (from_date args) (to_date args);
  feat ← build_features raw;
  let feature_cols := FEATURE_COLS in
  res ← train_timeseries_model feat feature_cols;
  let ts := strftime utcnow in
  Ok (save_artifact fs (arg_symbol args) ts (from_date args) (to_date args)
        feature_cols res).

(** *** ml/serve.py *)

Definition model_pattern (symbol : string) : string :=
  path_join MODELS_DIR (upper symbol +:+ "_*_logreg.joblib").

Definition latest_model_for_symbol (fs : files) (symbol : string) : result string :=
  let pattern := model_pattern symbol in
  let candidates := sorted (glob fs pattern) in
  match last candidates with
  | None =>
      Raise (FileNotFoundError ("No model found for " +:+ symbol +:+
                                ". Expected something like: " +:+ pattern))
  | Some p => Ok p
  end.

(** [joblib.load(path)] *)
Definition joblib_load (fs : files) (path : string) : result Pipeline :=
  match fs !! path with
  | Some (JoblibFile m) => Ok m
  | Some (JsonFile _) => Raise (ValueError "not a joblib file")
  | None => Raise (FileNotFoundError ("No such file or directory: " +:+ path))
  end.

Definition load_meta_for_model (fs : files) (model_path : string) : result json :=
  let meta_path := replace "_logreg.joblib" "_meta.json" model_path in
  match fs !! meta_path with
  | None => Raise (FileNotFoundError ("Meta file not found: " +:+ meta_path))
  | Some (JsonFile doc) => Ok doc
  | Some (JoblibFile _) => Raise (ValueError "not a JSON document")
  end.

Definition fetch_bars (symbol from_ to_ : string) : result DataFrame :=
  let r := platform (upper symbol) from_ to_ in
  if bool_decide (status_code r ≠ 200) then
    Raise (HTTPException 400 (FailedToFetchBars (status_code r) (text r)))
  else if no_records (data r) then
    Raise (HTTPException 400 NoBarsReturned)
  else
    let df := data r in
    if bool_decide ("close" ∉ columns df) then
      Raise (HTTPException 400 (BarsMissingClose (columns df)))
    else if bool_decide ("day" ∈ columns df) then
      day ← getitem df "day" ≫= to_datetime;
      let df := setitem df "day" day in
      reset_index <$> sort_values df "day"
    else Ok df.

Record PredictRequest := {
  req_symbol : string;
  req_from_date : string;
  req_to_date : string;
  req_model_path : option string
}.

Record PredictResponse := {
  resp_symbol : string;
  model_file : string;
  resp_as_of : as_of;
  prob_up : float;
  predicted : Z
}.

(** [meta.get("feature_columns")] *)
Definition meta_get (meta : json) (key : string) : result (option json) :=
  match meta with
  | JObj fields => Ok (dict_get fields key)
  | _ => Raise (AttributeError "object has no attribute get")
  end.

(** [try: ... except Exception as e: raise HTTPException(500, ...)] *)
Definition or_load_failure {A} (m : result A) : result A :=
  match m with
  | Ok a => Ok a
  | Raise e => Raise (HTTPException 500 (FailedToLoadModelMeta e))
  end.

(** [req.model_path or latest_model_for_symbol(symbol)] *)
Definition model_path_for (fs : files) (req : PredictRequest)
    (symbol : string) : result string :=
  match req_model_path req with
  | Some p => if bool_decide (p ≠ "") then Ok p else latest_model_for_symbol fs symbol
  | None => latest_model_for_symbol fs symbol
  end.

Definition predict (fs : files) (req : PredictRequest) : result PredictResponse :=
  let symbol := upper (req_symbol req) in
  model_path ← model_path_for fs req symbol;
  mm ← or_load_failure
         (model ← joblib_load fs model_path;
          meta ← load_meta_for_model fs model_path;
          Ok (model, meta));
  let '(model, meta) := mm in
  (* meta should contain the columns used during training *)
  feature_cols ← meta_get meta "feature_columns";
  match feature_cols with
  | Some cols_json =>
      if truthy cols_json then
        df ← fetch_bars symbol (req_from_date req) (req_to_date req);
        df_feat ← engineer_features df;
        if bool_decide (nrows df_feat < 1)%nat then
          Raise (HTTPException 400 NotEnoughBars)
        else
          feature_cols ← column_names cols_json;
          ax ← pick_latest_row_features df_feat feature_cols;
          let prob := predict_proba_up model ax.2 in
          let predicted := if (0.5 <=? prob)%float then 1 else 0 in
          Ok {| resp_symbol := symbol;
                model_file := basename model_path;
                resp_as_of := ax.1;
                prob_up := round6 prob;
                predicted := predicted |}
      else Raise (HTTPException 500 MetaMissingFeatureColumns)
  | None => Raise (HTTPException 500 MetaMissingFeatureColumns)
  end.


(** ** Properties *)

(** *** Missing values *)

Lemma is_nan_nan : is_nan nan = true.
Proof. reflexivity. Qed.

(** A quotient by NaN, less one, is NaN. *)
Lemma pct_of_nan x : is_nan (x / nan - 1)%float = true.
Proof.
  unfold is_nan.
  rewrite FloatAxioms.eqb_spec, FloatAxioms.sub_spec, FloatAxioms.div_spec.
  change (Prim2SF nan) with S754_nan.
  destruct (Prim2SF x) as [ | | |s m e]; try destruct s; reflexivity.
Qed.

(** *** Columns of a frame *)

Lemma lookup_col_setitem df k s k' :
  lookup_col (setitem df k s) k' =
  if decide (k = k') then Some s else lookup_col df k'.
Proof.
  induction df as [|[k0 s0] df IH]; simpl.
  - by destruct (decide (k = k')).
  - destruct (decide (k0 = k)) as [->|Hne]; simpl.
    + by destruct (decide (k = k')).
    + rewrite IH. destruct (decide (k0 = k')) as [->|]; [|done].
      by rewrite decide_False.
Qed.

Lemma getitem_lookup df k s : lookup_col df k = Some s -> getitem df k = Ok s.
Proof. unfold getitem. by intros ->. Qed.

Lemma getitem_setitem_eq df k s : getitem (setitem df k s) k = Ok s.
Proof. unfold getitem. by rewrite lookup_col_setitem, decide_True. Qed.

Lemma getitem_setitem_ne df k s k' :
  k ≠ k' -> getitem (setitem df k s) k' = getitem df k'.
Proof. intros. unfold getitem. by rewrite lookup_col_setitem, decide_False. Qed.

Lemma setitem_same df k s : lookup_col df k = Some s -> setitem df k s = df.
Proof.
  induction df as [|[k0 s0] df IH]; simpl; [done|].
  destruct (decide (k0 = k)) as [->|]; intros H.
  - by injection H as ->.
  - by rewrite IH.
Qed.

Lemma lookup_col_elem_of df k s : lookup_col df k = Some s -> (k, s) ∈ df.
Proof.
  induction df as [|[k0 s0] df IH]; simpl; [done|].
  destruct (decide (k0 = k)) as [->|]; intros H.
  - injection H as ->. left.
  - right. auto.
Qed.

Lemma lookup_col_is_Some df k : is_Some (lookup_col df k) <-> k ∈ columns df.
Proof.
  unfold columns. induction df as [|[k0 s0] df IH]; simpl.
  - split; [by intros [? ?]|by intros ?%elem_of_nil].
  - destruct (decide (k0 = k)) as [->|Hne].
    + split; [left|eauto].
    + rewrite IH. split; [by right|]. by intros [?|?]%elem_of_cons.
Qed.

Lemma lookup_col_take_frame idx df k :
  lookup_col (take_frame idx df) k = take_rows idx <$> lookup_col df k.
Proof.
  unfold take_frame. induction df as [|[k0 s0] df IH]; simpl; [done|].
  by destruct (decide (k0 = k)).
Qed.

Lemma slen_take_rows idx s : slen (take_rows idx s) = length idx.
Proof. destruct s; simpl; by rewrite length_fmap. Qed.

(** *** The feature assignments *)

Lemma numeric_col_setitem_ne df k s k' :
  k ≠ k' -> numeric_col (setitem df k s) k' = numeric_col df k'.
Proof. intros. unfold numeric_col. by rewrite getitem_setitem_ne. Qed.

Lemma numeric_col_inv df k xs :
  numeric_col df k = Ok xs ->
  exists s, getitem df k = Ok s /\ as_float s = Ok xs.
Proof.
  unfold numeric_col. destruct (getitem df k) as [s|e]; simpl; [eauto|done].
Qed.

Ltac step_features :=
  repeat first
    [ rewrite getitem_setitem_eq
    | rewrite getitem_setitem_ne by done
    | progress simpl ].

Lemma build_features_eq df c v :
  numeric_col df "close" = Ok c ->
  numeric_col df "volume" = Ok v ->
  build_features df =
  Ok (dropna (setitem (feature_frame df c v) "target_up_tomorrow"
                (IntCol (up_tomorrow_values c)))).
Proof.
  intros (sc & Hc & Hfc)%numeric_col_inv (sv & Hv & Hfv)%numeric_col_inv.
  unfold build_features, feature_frame, copy, reset_index.
  unfold pct_change, rolling_mean, rolling_std, ratio_minus_one, up_tomorrow.
  rewrite Hc. simpl. rewrite Hfc. step_features.
  rewrite Hc. simpl. rewrite Hfc. step_features.
  rewrite Hc. simpl. rewrite Hfc. step_features.
  rewrite Hc. simpl. rewrite Hfc. step_features.
  rewrite Hc. simpl. rewrite Hfc. step_features.
  rewrite Hv. simpl. rewrite Hfv. step_features.
  rewrite Hc. simpl. rewrite Hfc. step_features.
  done.
Qed.

Lemma build_features_close_err df e :
  numeric_col df "close" = Raise e -> build_features df = Raise e.
Proof.
  unfold numeric_col, build_features, copy, pct_change.
  destruct (getitem df "close") as [s|e']; simpl; [|congruence].
  destruct (as_float s); simpl; congruence.
Qed.

Lemma build_features_volume_err df c e :
  numeric_col df "close" = Ok c ->
  numeric_col df "volume" = Raise e -> build_features df = Raise e.
Proof.
  intros (sc & Hc & Hfc)%numeric_col_inv Hv.
  unfold build_features, copy, reset_index.
  unfold pct_change, rolling_mean, rolling_std, ratio_minus_one, up_tomorrow.
  rewrite Hc. simpl. rewrite Hfc. step_features.
  rewrite Hc. simpl. rewrite Hfc. step_features.
  rewrite Hc. simpl. rewrite Hfc. step_features.
  rewrite Hc. simpl. rewrite Hfc. step_features.
  rewrite Hc. simpl. rewrite Hfc. step_features.
  unfold numeric_col in Hv.
  destruct (getitem df "volume") as [s|e']; simpl in *; [|congruence].
  destruct (as_float s); simpl; congruence.
Qed.

Lemma build_features_inv df out :
  build_features df = Ok out ->
  exists c v,
    numeric_col df "close" = Ok c /\ numeric_col df "volume" = Ok v /\
    out = dropna (setitem (feature_frame df c v) "target_up_tomorrow"
                    (IntCol (up_tomorrow_values c))).
Proof.
  intros H.
  destruct (numeric_col df "close") as [c|e] eqn:Hc.
  2: { by rewrite (build_features_close_err _ _ Hc) in H. }
  destruct (numeric_col df "volume") as [v|e] eqn:Hv.
  2: { by rewrite (build_features_volume_err _ _ _ Hc Hv) in H. }
  rewrite (build_features_eq _ _ _ Hc Hv) in H. injection H as <-. eauto.
Qed.

(** The frame [engineer_features] derives its columns on: the rows in the
    order [sort_values("day")] puts them. *)
Lemma engineer_features_eq df ds c v :
  lookup_col df "day" = Some (DateCol ds) ->
  let df1 := take_frame (merge_sort (key_le (DateCol ds)) (seq 0 (nrows df))) df in
  numeric_col df1 "close" = Ok c ->
  numeric_col df1 "volume" = Ok v ->
  engineer_features df = Ok (dropna (feature_frame df1 c v)).
Proof.
  intros Hd df1 (sc & Hc & Hfc)%numeric_col_inv (sv & Hv & Hfv)%numeric_col_inv.
  unfold engineer_features, feature_frame, copy, reset_index, sort_values.
  unfold pct_change, rolling_mean, rolling_std, ratio_minus_one.
  rewrite (getitem_lookup _ _ _ Hd). simpl.
  rewrite (setitem_same _ _ _ Hd), (getitem_lookup _ _ _ Hd). simpl. fold df1.
  rewrite Hc. simpl. rewrite Hfc. step_features.
  rewrite Hc. simpl. rewrite Hfc. step_features.
  rewrite Hc. simpl. rewrite Hfc. step_features.
  rewrite Hc. simpl. rewrite Hfc. step_features.
  rewrite Hc. simpl. rewrite Hfc. step_features.
  rewrite Hv. simpl. rewrite Hfv. step_features.
  done.
Qed.

Lemma engineer_features_inv df out :
  engineer_features df = Ok out ->
  exists ds c v,
    lookup_col df "day" = Some (DateCol ds) /\
    let df1 := take_frame (merge_sort (key_le (DateCol ds)) (seq 0 (nrows df))) df in
    numeric_col df1 "close" = Ok c /\ numeric_col df1 "volume" = Ok v /\
    out = dropna (feature_frame df1 c v).
Proof.
  intros H.
  destruct (lookup_col df "day") as [sd|] eqn:Hd.
  2: { assert (Hg : getitem df "day" = Raise (KeyError "day"))
         by (unfold getitem; by rewrite Hd).
       unfold engineer_features, copy in H. by rewrite Hg in H. }
  destruct sd as [?|?|ds].
  1,2: unfold engineer_features, copy in H;
       by rewrite (getitem_lookup _ _ _ Hd) in H.
  exists ds.
  set (df1 := take_frame (merge_sort (key_le (DateCol ds)) (seq 0 (nrows df))) df).
  destruct (numeric_col df1 "close") as [c|e] eqn:Hc.
  2: { exfalso. revert H.
       unfold engineer_features, copy, reset_index, sort_values, pct_change.
       rewrite (getitem_lookup _ _ _ Hd). simpl.
       rewrite (setitem_same _ _ _ Hd), (getitem_lookup _ _ _ Hd). simpl. fold df1.
       unfold numeric_col in Hc.
       destruct (getitem df1 "close") as [s|e']; simpl in *; [|done].
       destruct (as_float s); simpl; done. }
  destruct (numeric_col df1 "volume") as [v|e] eqn:Hv.
  2: { exfalso. revert H.
       apply numeric_col_inv in Hc as (sc & Hc & Hfc).
       unfold engineer_features, copy, reset_index, sort_values.
       unfold pct_change, rolling_mean, rolling_std, ratio_minus_one.
       rewrite (getitem_lookup _ _ _ Hd). simpl.
       rewrite (setitem_same _ _ _ Hd), (getitem_lookup _ _ _ Hd). simpl. fold df1.
       rewrite Hc. simpl. rewrite Hfc. step_features.
       rewrite Hc. simpl. rewrite Hfc. step_features.
       rewrite Hc. simpl. rewrite Hfc. step_features.
       rewrite Hc. simpl. rewrite Hfc. step_features.
       rewrite Hc. simpl. rewrite Hfc. step_features.
       unfold numeric_col in Hv.
       destruct (getitem df1 "volume") as [s|e']; simpl in *; [|done].
       destruct (as_float s); simpl; done. }
  exists c, v. split; [done|]. simpl. split; [done|]. split; [done|].
  rewrite (engineer_features_eq _ _ _ _ Hd Hc Hv) in H. by injection H as <-.
Qed.

(** *** Rows that survive [dropna] *)

Lemma nrows_take_frame idx df : (nrows (take_frame idx df) ≤ length idx)%nat.
Proof.
  destruct df as [|[k s] df]; simpl; [lia|]. by rewrite slen_take_rows.
Qed.

Lemma nrows_take_frame_cons idx df :
  df ≠ [] -> nrows (take_frame idx df) = length idx.
Proof.
  destruct df as [|[k s] df]; simpl; [done|]. by rewrite slen_take_rows.
Qed.

Lemma complete_row_elem_of df i k s :
  complete_row df i = true -> (k, s) ∈ df -> notna_at s i = true.
Proof.
  unfold complete_row. rewrite forallb_forall. intros H Hin.
  by apply (H (k, s)), list_elem_of_In.
Qed.

Lemma complete_rows_spec df i :
  i ∈ complete_rows df <-> (i < nrows df)%nat /\ complete_row df i = true.
Proof.
  unfold complete_rows. rewrite list_elem_of_filter, elem_of_seq.
  split; intros [? ?]; split; auto; lia.
Qed.

Lemma complete_rows_NoDup df : NoDup (complete_rows df).
Proof. apply NoDup_filter, NoDup_seq. Qed.

Lemma shift_fwd_length xs : length (shift_fwd xs) = length xs.
Proof. unfold shift_fwd. rewrite length_take. simpl. lia. Qed.

Lemma pct_change_values_length xs : length (pct_change_values xs) = length xs.
Proof.
  unfold pct_change_values. rewrite length_zip_with, shift_fwd_length. lia.
Qed.

Lemma rolling_values_length w agg xs : length (rolling_values w agg xs) = length xs.
Proof. unfold rolling_values. by rewrite length_fmap, length_seq. Qed.

Lemma rolling_values_lookup w agg xs i :
  (i < length xs)%nat ->
  rolling_values w agg xs !! i = Some (rolling_at w agg xs i).
Proof.
  intros. unfold rolling_values.
  by rewrite list_lookup_fmap, lookup_seq_lt.
Qed.

(** The first return is missing: there is no previous close. *)
Lemma pct_change_values_head x xs :
  exists r rs, pct_change_values (x :: xs) = r :: rs /\ is_nan r = true.
Proof.
  unfold pct_change_values, shift_fwd. simpl.
  eexists _, _. split; [reflexivity|]. apply pct_of_nan.
Qed.

(** A rolling aggregate over [w] values of a column whose first value is
    missing is itself missing before position [w]. *)
Lemma rolling_at_notna w agg xs i :
  notna (rolling_at w agg xs i) = true ->
  (w ≤ S i)%nat /\ forallb notna (window w i xs) = true.
Proof.
  unfold rolling_at. destruct (decide (w ≤ S i)%nat); [|done].
  destruct (forallb notna (window w i xs)); [done|]. done.
Qed.

Lemma rolling_pct_notna w agg c i :
  (0 < w)%nat -> (i < length c)%nat ->
  notna (rolling_at w agg (pct_change_values c) i) = true -> (w ≤ i)%nat.
Proof.
  intros Hw Hi [Hle Hall]%rolling_at_notna.
  destruct (decide (S i = w)) as [<-|]; [|lia]. exfalso.
  unfold window in Hall. replace (S i - S i)%nat with 0%nat in Hall by lia.
  destruct c as [|x c]; [simpl in Hi; lia|].
  destruct (pct_change_values_head x c) as (r & rs & Heq & Hr).
  rewrite Heq in Hall. simpl in Hall. unfold notna at 1 in Hall. by rewrite Hr in Hall.
Qed.

Lemma notna_at_rolling_pct w agg c i :
  (0 < w)%nat ->
  notna_at (FloatCol (rolling_values w agg (pct_change_values c))) i = true ->
  (w ≤ i < length c)%nat.
Proof.
  intros Hw. unfold notna_at. simpl.
  destruct (decide (i < length c)%nat) as [Hi|Hi].
  - rewrite rolling_values_lookup by (by rewrite pct_change_values_length).
    simpl. intros H. split; [|done]. by eapply rolling_pct_notna.
  - rewrite lookup_ge_None_2; [done|].
    rewrite rolling_values_length, pct_change_values_length. lia.
Qed.

(** Rows of a frame that carries the 10-day volatility of the returns:
    the complete ones lie past the warm-up. *)
Lemma complete_rows_warmup df c :
  lookup_col df "vol_10" =
    Some (FloatCol (rolling_values 10 std (pct_change_values c))) ->
  (length (complete_rows df) ≤ length c - 10)%nat.
Proof.
  intros Hv%lookup_col_elem_of.
  trans (length (seq 10 (length c - 10))); [|by rewrite length_seq].
  apply submseteq_length, NoDup_submseteq; [apply complete_rows_NoDup|].
  intros i [_ Hi]%complete_rows_spec.
  pose proof (complete_row_elem_of _ _ _ _ Hi Hv) as Hn.
  apply notna_at_rolling_pct in Hn; [|lia].
  apply elem_of_seq. lia.
Qed.

Lemma lookup_feature_frame_vol_10 df c v :
  lookup_col (feature_frame df c v) "vol_10" =
    Some (FloatCol (rolling_values 10 std (pct_change_values c))).
Proof.
  unfold feature_frame. rewrite !lookup_col_setitem.
  by repeat (rewrite decide_False by done); rewrite decide_True.
Qed.

Lemma as_float_length s xs : as_float s = Ok xs -> length xs = slen s.
Proof.
  destruct s; simpl; intros [= <-]; [done|]. by rewrite length_fmap.
Qed.

Lemma numeric_col_length df k xs :
  frame_wf df -> numeric_col df k = Ok xs -> length xs = nrows df.
Proof.
  intros Hwf (s & Hs & Hf)%numeric_col_inv.
  rewrite (as_float_length _ _ Hf).
  unfold getitem in Hs. destruct (lookup_col df k) as [s'|] eqn:Hl; [|done].
  injection Hs as ->. apply lookup_col_elem_of in Hl.
  unfold frame_wf in Hwf. rewrite Forall_forall in Hwf. by apply (Hwf _ Hl).
Qed.

(** At least the ten warm-up rows are lost, in both modes. *)
Lemma build_features_rows df out :
  frame_wf df -> build_features df = Ok out ->
  (nrows out ≤ nrows df - 10)%nat.
Proof.
  intros Hwf (c & v & Hc & Hv & ->)%build_features_inv.
  unfold dropna. etrans; [apply nrows_take_frame|].
  rewrite <-(numeric_col_length _ _ _ Hwf Hc).
  apply complete_rows_warmup.
  rewrite lookup_col_setitem, decide_False by done.
  apply lookup_feature_frame_vol_10.
Qed.

Lemma take_frame_wf idx df : frame_wf (take_frame idx df).
Proof.
  unfold frame_wf. apply Forall_forall. intros [k s] Hin.
  unfold take_frame in Hin. apply list_elem_of_fmap in Hin as ([k' s'] & [= -> ->] & Hin).
  simpl. rewrite slen_take_rows.
  symmetry. apply nrows_take_frame_cons. by intros ->; apply elem_of_nil in Hin.
Qed.

Lemma merge_sort_length {A} (R : relation A) `{!forall x y, Decision (R x y)} l :
  length (merge_sort R l) = length l.
Proof. apply Permutation_length, merge_sort_Permutation. Qed.

Lemma engineer_features_rows df out :
  engineer_features df = Ok out -> (nrows out ≤ nrows df - 10)%nat.
Proof.
  intros (ds & c & v & Hd & Hc & Hv & ->)%engineer_features_inv.
  unfold dropna. etrans; [apply nrows_take_frame|].
  set (idx := merge_sort _ _) in *.
  assert (length c = nrows df) as <-.
  { rewrite (numeric_col_length _ _ _ (take_frame_wf _ _) Hc).
    rewrite nrows_take_frame_cons.
    - unfold idx. by rewrite merge_sort_length, length_seq.
    - intros ->. done. }
  apply complete_rows_warmup, lookup_feature_frame_vol_10.
Qed.

(** *** Sorting rows that are already in order *)

#[local] Instance key_le_date_trans ds : Transitive (key_le (DateCol ds)).
Proof.
  intros i j k. unfold key_le. simpl.
  destruct (ds !! i) as [[a|]|], (ds !! j) as [[b|]|], (ds !! k) as [[c|]|];
    simpl; try done.
  rewrite !bool_decide_eq_true. lia.
Qed.

#[local] Instance key_le_date_total ds : Total (key_le (DateCol ds)).
Proof.
  intros i j. unfold key_le. simpl.
  destruct (ds !! i) as [[a|]|], (ds !! j) as [[b|]|]; simpl; auto.
  rewrite !bool_decide_eq_true. lia.
Qed.

Lemma StronglySorted_lookup {A} (R : relation A) l i j x y :
  StronglySorted R l -> l !! i = Some x -> l !! j = Some y ->
  (i < j)%nat -> R x y.
Proof.
  intros Hs. revert i j. induction Hs as [|a l Hs IH Hall]; intros i j Hi Hj Hlt.
  - done.
  - destruct j as [|j]; [lia|]. destruct i as [|i]; simpl in *.
    + injection Hi as ->. rewrite Forall_forall in Hall.
      apply Hall. by eapply list_elem_of_lookup_2.
    + apply (IH i j); auto. lia.
Qed.

Lemma StronglySorted_seq (R : relation nat) a n :
  (forall i j, (a ≤ i)%nat -> (i < j)%nat -> (j < a + n)%nat -> R i j) ->
  StronglySorted R (seq a n).
Proof.
  revert a. induction n as [|n IH]; intros a H; simpl; constructor.
  - apply IH. intros i j ? ? ?. apply H; lia.
  - apply Forall_forall. intros j [? ?]%elem_of_seq. apply H; lia.
Qed.

(** Strictly ascending days leave [sort_values("day")] nothing to move,
    whichever sorting algorithm runs. *)
Lemma sort_ascending_days days :
  StronglySorted Z.lt days ->
  merge_sort (key_le (DateCol (Some <$> days))) (seq 0 (length days)) =
  seq 0 (length days).
Proof.
  intros Hs.
  assert (Hkey : forall i j x y,
             days !! i = Some x -> days !! j = Some y ->
             key_le (DateCol (Some <$> days)) i j <-> x ≤ y).
  { intros i j x y Hi Hj. unfold key_le. simpl.
    rewrite !list_lookup_fmap, Hi, Hj. simpl. by rewrite bool_decide_eq_true. }
  apply StronglySorted_unique_strong with (R := key_le (DateCol (Some <$> days))).
  - intros i j Hi Hj%elem_of_seq Hij Hji.
    rewrite merge_sort_Permutation in Hi. apply elem_of_seq in Hi.
    destruct (lookup_lt_is_Some_2 days i) as [x Hx]; [lia|].
    destruct (lookup_lt_is_Some_2 days j) as [y Hy]; [lia|].
    rewrite (Hkey _ _ _ _ Hx Hy) in Hij. rewrite (Hkey _ _ _ _ Hy Hx) in Hji.
    destruct (Nat.lt_trichotomy i j) as [Hlt|[->|Hlt]]; [|done|].
    + pose proof (StronglySorted_lookup _ _ _ _ _ _ Hs Hx Hy Hlt). lia.
    + pose proof (StronglySorted_lookup _ _ _ _ _ _ Hs Hy Hx Hlt). lia.
  - apply StronglySorted_merge_sort; apply _.
  - apply StronglySorted_seq. intros i j _ Hlt Hj.
    destruct (lookup_lt_is_Some_2 days i) as [x Hx]; [lia|].
    destruct (lookup_lt_is_Some_2 days j) as [y Hy]; [lia|].
    rewrite (Hkey _ _ _ _ Hx Hy).
    pose proof (StronglySorted_lookup _ _ _ _ _ _ Hs Hx Hy Hlt). lia.
  - apply merge_sort_Permutation.
Qed.

Lemma fmap_lookup_seq {A} (d : A) (xs : list A) :
  (fun i => default d (xs !! i)) <$> seq 0 (length xs) = xs.
Proof.
  apply list_eq. intros i. rewrite list_lookup_fmap.
  destruct (decide (i < length xs)%nat) as [Hi|Hi].
  - rewrite lookup_seq_lt by done. simpl.
    destruct (lookup_lt_is_Some_2 xs i Hi) as [x Hx]. by rewrite Hx.
  - rewrite lookup_seq_ge, lookup_ge_None_2 by lia. done.
Qed.

Lemma take_rows_all s : take_rows (seq 0 (slen s)) s = s.
Proof. destruct s; simpl; by rewrite fmap_lookup_seq. Qed.

Lemma take_frame_all df : frame_wf df -> take_frame (seq 0 (nrows df)) df = df.
Proof.
  unfold frame_wf, take_frame. generalize (nrows df). intros n.
  induction 1 as [|[k s] df Hs _ IH]; [done|].
  rewrite fmap_cons. f_equal; [|done].
  unfold prod_map. simpl in *. by rewrite <-Hs, take_rows_all.
Qed.

Lemma sorted_frame_ascending df days :
  frame_wf df ->
  lookup_col df "day" = Some (DateCol (Some <$> days)) ->
  StronglySorted Z.lt days ->
  take_frame (merge_sort (key_le (DateCol (Some <$> days))) (seq 0 (nrows df))) df = df.
Proof.
  intros Hwf Hd Hs.
  assert (nrows df = length days) as Hn.
  { apply lookup_col_elem_of in Hd. unfold frame_wf in Hwf.
    rewrite Forall_forall in Hwf. specialize (Hwf _ Hd). simpl in Hwf.
    by rewrite length_fmap in Hwf. }
  rewrite Hn, sort_ascending_days by done. rewrite <-Hn.
  by apply take_frame_all.
Qed.

(** *** Values of the rows that survive *)

Lemma notna_at_is_Some s i : notna_at s i = true -> is_Some (iloc s i).
Proof. unfold notna_at. destruct (iloc s i); [eauto|done]. Qed.

Lemma iloc_take_rows idx s i :
  (forall r, idx !! i = Some r -> is_Some (iloc s r)) ->
  iloc (take_rows idx s) i = idx !! i ≫= iloc s.
Proof.
  intros H. destruct s as [xs|xs|xs]; simpl in *; rewrite list_lookup_fmap;
    destruct (idx !! i) as [r|]; simpl; try done;
    destruct (H r eq_refl) as [y Hy];
    destruct (xs !! r); simpl in *; done.
Qed.

Lemma value_at_dropna df k i :
  value_at (dropna df) k i = complete_rows df !! i ≫= value_at df k.
Proof.
  unfold value_at, dropna. rewrite lookup_col_take_frame.
  destruct (lookup_col df k) as [s|] eqn:Hk; simpl.
  - apply iloc_take_rows. intros r Hr.
    apply list_elem_of_lookup_2, complete_rows_spec in Hr as [_ Hr].
    eapply notna_at_is_Some, complete_row_elem_of; [done|].
    by apply lookup_col_elem_of.
  - by destruct (complete_rows df !! i).
Qed.

Lemma lookup_feature_frame_other df c v k :
  k ∉ DERIVED -> lookup_col (feature_frame df c v) k = lookup_col df k.
Proof.
  unfold DERIVED. rewrite !not_elem_of_cons. intros (?&?&?&?&?&?&?&?&_).
  unfold feature_frame. rewrite !lookup_col_setitem.
  by repeat (rewrite decide_False by done).
Qed.

Lemma elem_of_setitem df k s k' s' :
  (k', s') ∈ setitem df k s -> (k', s') ∈ df \/ (k', s') = (k, s).
Proof.
  induction df as [|[k0 s0] df IH]; simpl.
  - intros ->%list_elem_of_singleton. by right.
  - destruct (decide (k0 = k)) as [->|].
    + intros [->|?]%elem_of_cons; [by right|]. left. by right.
    + intros [->|?]%elem_of_cons; [left; left|].
      destruct IH as [?|?]; auto. left. by right.
Qed.

Lemma nrows_setitem df k s :
  df ≠ [] -> slen s = nrows df -> nrows (setitem df k s) = nrows df.
Proof.
  destruct df as [|[k0 s0] df]; [done|]. simpl. intros _ Hs.
  by destruct (decide (k0 = k)).
Qed.

Lemma setitem_nonempty df k s : setitem df k s ≠ [].
Proof.
  destruct df as [|[k0 s0] df]; simpl; [done|]. by destruct (decide (k0 = k)).
Qed.

Lemma zip_with_length_same {A B C} (f : A -> B -> C) xs ys :
  length ys = length xs -> length (zip_with f xs ys) = length xs.
Proof. intros. rewrite length_zip_with. lia. Qed.

Lemma nrows_feature_frame df c v :
  df ≠ [] -> length c = nrows df -> length v = nrows df ->
  nrows (feature_frame df c v) = nrows df.
Proof.
  intros Hne Hc Hv. unfold feature_frame.
  repeat (rewrite nrows_setitem;
          [|first [apply setitem_nonempty|done]|]);
    simpl;
    rewrite ?zip_with_length_same, ?rolling_values_length,
      ?pct_change_values_length; try done;
    rewrite ?rolling_values_length; done.
Qed.

Lemma up_tomorrow_values_length xs : length (up_tomorrow_values xs) = length xs.
Proof.
  unfold up_tomorrow_values, shift_back.
  rewrite length_zip_with, length_drop, length_app. simpl. lia.
Qed.

(** The label column holds no missing value: adding it drops no row. *)
Lemma complete_row_with_target df xs i :
  (i < length xs)%nat -> complete_row df i = true ->
  complete_row (setitem df "target_up_tomorrow" (IntCol (up_tomorrow_values xs))) i
  = true.
Proof.
  intros Hi Hc. unfold complete_row. apply forallb_forall.
  intros [k s] [Hin|[= -> ->]]%list_elem_of_In%elem_of_setitem.
  - by eapply complete_row_elem_of.
  - unfold notna_at. simpl.
    destruct (lookup_lt_is_Some_2 (up_tomorrow_values xs) i) as [y ->]; [|done].
    by rewrite up_tomorrow_values_length.
Qed.

Ltac not_in_list :=
  let H := fresh in
  unfold DERIVED; intros H;
  repeat (apply elem_of_cons in H as [H|H]; [discriminate H|]);
  by apply elem_of_nil in H.

Lemma value_at_with_target df s k i :
  k ≠ "target_up_tomorrow" ->
  value_at (setitem df "target_up_tomorrow" s) k i = value_at df k i.
Proof. intros. unfold value_at. by rewrite lookup_col_setitem, decide_False. Qed.

Lemma value_at_feature_frame_day df c v days i :
  lookup_col df "day" = Some (DateCol (Some <$> days)) ->
  value_at (feature_frame df c v) "day" i = (fun d => CDate (Some d)) <$> days !! i.
Proof.
  intros Hd. unfold value_at.
  rewrite lookup_feature_frame_other, Hd by not_in_list. simpl.
  rewrite list_lookup_fmap. by destruct (days !! i).
Qed.

Lemma ascending_lookup_inj days i j d :
  StronglySorted Z.lt days -> days !! i = Some d -> days !! j = Some d -> i = j.
Proof.
  intros Hs Hi Hj. destruct (Nat.lt_trichotomy i j) as [Hlt|[->|Hlt]]; [|done|].
  - pose proof (StronglySorted_lookup _ _ _ _ _ _ Hs Hi Hj Hlt). lia.
  - pose proof (StronglySorted_lookup _ _ _ _ _ _ Hs Hj Hi Hlt). lia.
Qed.

(** C2.  On bars in strictly ascending day order (days are unique per
    symbol) with numeric close and volume columns, both feature builders
    return a frame; a row of the training frame and a row of the inference
    frame for the same day carry the same eight derived features; and every
    row of the inference frame has its day in the training frame. *)
Theorem feature_builders_agree df days c v :
  frame_wf df ->
  lookup_col df "day" = Some (DateCol (Some <$> days)) ->
  StronglySorted Z.lt days ->
  numeric_col df "close" = Ok c ->
  numeric_col df "volume" = Ok v ->
  exists out_b out_e,
    build_features df = Ok out_b /\
    engineer_features df = Ok out_e /\
    (forall i j,
        is_Some (value_at out_b "day" i) ->
        value_at out_b "day" i = value_at out_e "day" j ->
        forall k, k ∈ DERIVED -> value_at out_b k i = value_at out_e k j) /\
    (forall j, (j < nrows out_e)%nat ->
        exists i, (i < nrows out_b)%nat /\
                  value_at out_b "day" i = value_at out_e "day" j).
Proof.
  intros Hwf Hd Hs Hc Hv.
  pose proof (sorted_frame_ascending _ _ Hwf Hd Hs) as Hsort.
  pose proof (engineer_features_eq df (Some <$> days) c v Hd) as He.
  simpl in He. rewrite Hsort in He. specialize (He Hc Hv).
  rewrite (build_features_eq _ _ _ Hc Hv), He.
  assert (Hne : df ≠ []) by (intros ->; done).
  pose proof (numeric_col_length _ _ _ Hwf Hc) as Hlc.
  pose proof (numeric_col_length _ _ _ Hwf Hv) as Hlv.
  pose proof (nrows_feature_frame _ _ _ Hne Hlc Hlv) as HnF.
  eexists _, _. split; [done|]. split; [done|]. split.
  - intros i j Hsome Heq k Hk.
    rewrite !value_at_dropna in *.
    destruct (complete_rows (setitem _ _ _) !! i) as [r1|];
      simpl in *; [|by destruct Hsome].
    rewrite value_at_with_target in Hsome, Heq by done.
    rewrite (value_at_feature_frame_day _ _ _ _ _ Hd) in Hsome, Heq.
    destruct (days !! r1) as [d1|] eqn:Hr1; simpl in *; [|by destruct Hsome].
    destruct (complete_rows (feature_frame df c v) !! j) as [r2|]; simpl in *; [|done].
    rewrite (value_at_feature_frame_day _ _ _ _ _ Hd) in Heq.
    destruct (days !! r2) as [d2|] eqn:Hr2; simpl in *; [|done].
    injection Heq as <-.
    rewrite (ascending_lookup_inj _ _ _ _ Hs Hr1 Hr2).
    apply value_at_with_target.
    intros ->. revert Hk. not_in_list.
  - intros j Hj. unfold dropna in Hj. rewrite nrows_take_frame_cons in Hj.
    2: { unfold feature_frame. apply setitem_nonempty. }
    destruct (lookup_lt_is_Some_2 _ _ Hj) as [r Hr].
    pose proof (list_elem_of_lookup_2 _ _ _ Hr) as Hin.
    apply complete_rows_spec in Hin as [Hlt Hcr].
    assert (r ∈ complete_rows (setitem (feature_frame df c v) "target_up_tomorrow"
                                 (IntCol (up_tomorrow_values c)))) as Hin.
    { apply complete_rows_spec. split.
      - rewrite nrows_setitem; [done| |].
        + unfold feature_frame. apply setitem_nonempty.
        + simpl. rewrite up_tomorrow_values_length. lia.
      - apply complete_row_with_target; [lia|done]. }
    apply list_elem_of_lookup_1 in Hin as [i Hi].
    exists i. split.
    + unfold dropna. rewrite nrows_take_frame_cons by apply setitem_nonempty.
      by eapply lookup_lt_Some.
    + rewrite !value_at_dropna, Hi, Hr. simpl.
      by apply value_at_with_target.
Qed.

(** *** The unlabeled last row *)

(** The label of the last input row compares its close with a missing
    value, which yields 0, never a missing label. *)
Lemma up_tomorrow_values_last xs x :
  up_tomorrow_values (xs ++ [x]) !! length xs = Some 0.
Proof.
  unfold up_tomorrow_values, shift_back.
  assert (((xs ++ [x]) ++ [nan]) !! (1 + length xs)%nat = Some nan) as H1.
  { rewrite lookup_app_r; rewrite length_app; simpl; [|lia].
    by replace (S (length xs) - (length xs + 1))%nat with 0%nat by lia. }
  assert ((xs ++ [x]) !! length xs = Some x) as H2.
  { rewrite lookup_app_r by lia. by rewrite Nat.sub_diag. }
  rewrite lookup_zip_with, lookup_drop, H1, H2. simpl.
  f_equal. destruct (x <? nan)%float eqn:E; [|done].
  rewrite FloatAxioms.ltb_spec in E. change (Prim2SF nan) with S754_nan in E.
  unfold SFltb, SFcompare in E. by destruct (Prim2SF x) as [[]| [] | |[]].
Qed.

(** C3.  Eleven bars leave one training row, the last and unlabeled one,
    where the row-count law allows none (11 - 11 = 0). *)
Theorem build_features_keeps_unlabeled_row :
  exists out,
    build_features (rising_bars 11) = Ok out /\
    nrows (rising_bars 11) = 11%nat /\ nrows out = 1%nat /\
    value_at out "day" 0 = Some (CDate (Some 10)).
Proof. eexists. by vm_compute. Qed.

(** C4.  The closes of [rising_bars 11] rise every day, and the one row
    the training frame retains is labelled 0. *)
Theorem rising_closes_last_label_zero :
  exists out closes,
    build_features (rising_bars 11) = Ok out /\
    numeric_col (rising_bars 11) "close" = Ok closes /\
    (forall i x y, closes !! i = Some x -> closes !! S i = Some y ->
                   (x <? y)%float = true) /\
    value_at out "target_up_tomorrow" 0 = Some (CInt 0).
Proof.
  eexists _, _. split; [by vm_compute|]. split; [by vm_compute|]. split; [|done].
  intros i x y Hx Hy.
  do 11 (destruct i as [|i]; [vm_compute in Hx, Hy; by simplify_eq|]).
  by vm_compute in Hy.
Qed.

(** *** Walk-forward folds *)

Lemma TimeSeriesSplit_split_inv n_splits n_samples folds :
  TimeSeriesSplit_split n_splits n_samples = Ok folds ->
  let test_size := (n_samples `div` (n_splits + 1))%nat in
  (n_splits + 1 ≤ n_samples)%nat /\
  folds =
    (fun k => let test_start :=
                (n_samples - n_splits * test_size + k * test_size)%nat in
              (seq 0 test_start, seq test_start test_size))
    <$> seq 0 n_splits.
Proof.
  unfold TimeSeriesSplit_split.
  destruct (decide (n_samples < n_splits + 1)%nat); [done|].
  destruct (decide _); [done|]. intros [= <-]. split; [lia|done].
Qed.

Lemma TimeSeriesSplit_ordered n_splits n_samples folds :
  TimeSeriesSplit_split n_splits n_samples = Ok folds ->
  length folds = n_splits /\
  forall train_idx test_idx, (train_idx, test_idx) ∈ folds ->
    forall i j, i ∈ train_idx -> j ∈ test_idx -> (i < j)%nat.
Proof.
  intros [Hn ->]%TimeSeriesSplit_split_inv. split.
  - by rewrite length_fmap, length_seq.
  - intros tr te (k & [= -> ->] & _)%list_elem_of_fmap i j.
    rewrite !elem_of_seq. lia.
Qed.

(** With enough samples the splitter does return its folds. *)
Lemma TimeSeriesSplit_total n_splits n_samples :
  (n_splits + 1 ≤ n_samples)%nat ->
  exists folds, TimeSeriesSplit_split n_splits n_samples = Ok folds.
Proof.
  intros Hn. unfold TimeSeriesSplit_split.
  destruct (decide (n_samples < n_splits + 1)%nat); [lia|].
  destruct (decide _) as [Hle|]; [|eauto]. exfalso.
  pose proof (Nat.Div0.mul_div_le n_samples (n_splits + 1)) as Hd.
  assert (0 < n_samples `div` (n_splits + 1))%nat
    by (apply Nat.div_str_pos; lia).
  nia.
Qed.

(** C5.  Whenever [train_timeseries_model] accepts a labeled feature
    matrix, the splitter it runs yields 5 folds, and in each of them every
    test row index is greater than every training row index. *)
Theorem folds_leakage_free df_feat feature_cols res :
  train_timeseries_model df_feat feature_cols = Ok res ->
  exists X folds,
    values df_feat feature_cols = Ok X /\
    TimeSeriesSplit_split 5 (length X) = Ok folds /\
    length folds = 5%nat /\
    forall train_idx test_idx, (train_idx, test_idx) ∈ folds ->
      forall i j, i ∈ train_idx -> j ∈ test_idx -> (i < j)%nat.
Proof.
  unfold train_timeseries_model. intros H.
  destruct (values df_feat feature_cols) as [X|] eqn:HX; simpl in H; [|done].
  destruct (getitem df_feat "target_up_tomorrow" ≫= labels) as [y|]; simpl in H; [|done].
  destruct (TimeSeriesSplit_split 5 (length X)) as [folds|] eqn:Hf; simpl in H; [|done].
  exists X, folds. split; [done|]. split; [done|].
  exact (TimeSeriesSplit_ordered _ _ _ Hf).
Qed.

(** *** The latest feature row *)

Lemma iloc_row_cons k s df i :
  iloc_row ((k, s) :: df) i =
  v ← iloc s i; row ← iloc_row df i; Some ((k, v) :: row).
Proof.
  unfold iloc_row. simpl. destruct (iloc s i); simpl; [|done].
  by destruct (mapM _ df).
Qed.

Lemma iloc_row_get df i row c s :
  iloc_row df i = Some row -> lookup_col df c = Some s ->
  exists v, iloc s i = Some v /\ row_get row c = Ok v.
Proof.
  revert row. induction df as [|[k0 s0] df IH]; intros row; [done|].
  rewrite iloc_row_cons. simpl.
  destruct (iloc s0 i) as [v0|] eqn:Hv0; simpl; [|done].
  destruct (iloc_row df i) as [row0|]; simpl; [|done].
  intros [= <-]. simpl. destruct (decide (k0 = c)) as [->|].
  - intros [= <-]. eauto.
  - intros Hs. by apply IH.
Qed.

Lemma iloc_row_get_None df i row c :
  iloc_row df i = Some row -> lookup_col df c = None ->
  row_get row c = Raise (KeyError c).
Proof.
  revert row. induction df as [|[k0 s0] df IH]; intros row.
  - by intros [= <-].
  - rewrite iloc_row_cons. simpl.
    destruct (iloc s0 i) as [v0|]; simpl; [|done].
    destruct (iloc_row df i) as [row0|]; simpl; [|done].
    intros [= <-]. simpl. destruct (decide (k0 = c)); [done|]. by apply IH.
Qed.

Lemma iloc_in_range s i : (i < slen s)%nat -> is_Some (iloc s i).
Proof.
  destruct s as [xs|xs|xs]; simpl; intros Hi;
    destruct (lookup_lt_is_Some_2 xs i Hi) as [x ->]; simpl; eauto.
Qed.

Lemma iloc_row_in_range df i :
  Forall (fun kv => i < slen kv.2)%nat df -> is_Some (iloc_row df i).
Proof.
  induction 1 as [|[k s] df Hs _ IH]; [by eexists|].
  rewrite iloc_row_cons. simpl in Hs.
  destruct (iloc_in_range s i Hs) as [v ->]. destruct IH as [row ->].
  simpl. eauto.
Qed.

Lemma iloc_last_wf df :
  frame_wf df -> (0 < nrows df)%nat ->
  exists row, iloc_last df = Ok row /\ iloc_row df (nrows df - 1) = Some row.
Proof.
  intros Hwf Hn. unfold iloc_last.
  destruct (nrows df) as [|i] eqn:E; [lia|].
  replace (S i - 1)%nat with i by lia.
  destruct (iloc_row_in_range df i) as [row Hrow].
  { eapply Forall_impl; [exact Hwf|]. simpl. intros kv ->. lia. }
  rewrite Hrow. eauto.
Qed.

Lemma mapM_result_Forall2 {A B} (f : A -> result B) (P : A -> B -> Prop) l :
  Forall (fun a => exists b, f a = Ok b /\ P a b) l ->
  exists bs, mapM f l = Ok bs /\ Forall2 P l bs.
Proof.
  induction 1 as [|a l (b & Hb & HP) _ (bs & Hbs & HF)]; simpl.
  - exists []. split; [done|constructor].
  - rewrite Hb. simpl. rewrite Hbs. simpl. exists (b :: bs).
    split; [done|]. by constructor.
Qed.

Lemma mapM_result_Raise {A B} (f : A -> result B) l e :
  mapM f l = Raise e -> exists a, a ∈ l /\ f a = Raise e.
Proof.
  induction l as [|a l IH]; simpl; [done|].
  destruct (f a) as [b|e'] eqn:Hfa; simpl.
  - destruct (mapM f l) as [bs|e'']; simpl; [done|].
    intros [= ->]. destruct IH as (a' & ? & ?); [done|].
    exists a'. split; [by right|done].
  - intros [= ->]. exists a. split; [left|done].
Qed.

Lemma row_get_not_http row c code d :
  row_get row c ≠ Raise (HTTPException code d).
Proof.
  induction row as [|[k v] row IH]; simpl; [done|].
  by destruct (decide (k = c)).
Qed.

Lemma filter_missing_nil df (cols : list string) :
  filter (fun c => c ∉ columns df) cols = [] <-> Forall (fun c => c ∈ columns df) cols.
Proof.
  induction cols as [|c cols IH]; [by rewrite filter_nil|].
  rewrite filter_cons, Forall_cons. destruct (decide (c ∉ columns df)) as [Hc|Hc].
  - split; [done|]. by intros [? _].
  - rewrite IH. split; [|by intros [_ ?]]. intros; split; [|done].
    by apply dec_stable.
Qed.

(** C6.  [pick_latest_row_features] raises the feature mismatch, naming
    exactly the schema columns the frame lacks, if and only if one is
    lacking.  Otherwise, on a frame with at least one row whose schema
    columns are numeric, it returns the day of the last row (or "latest"
    without a day column) and the last row's values in schema order. *)
Theorem pick_latest_row_features_spec df_feat feature_cols :
  let missing := filter (fun c => c ∉ columns df_feat) feature_cols in
  (missing ≠ [] ->
     pick_latest_row_features df_feat feature_cols
     = Raise (HTTPException 500 (FeatureMismatch missing))) /\
  (forall code m,
     pick_latest_row_features df_feat feature_cols
     = Raise (HTTPException code (FeatureMismatch m)) ->
     missing ≠ [] /\ m = missing) /\
  (missing = [] ->
   frame_wf df_feat -> (0 < nrows df_feat)%nat ->
   (forall c s, c ∈ feature_cols -> lookup_col df_feat c = Some s -> is_numeric s) ->
   (forall s, lookup_col df_feat "day" = Some s -> exists ds, s = DateCol ds) ->
   exists stamp x,
     pick_latest_row_features df_feat feature_cols = Ok (stamp, x) /\
     (forall ds, lookup_col df_feat "day" = Some (DateCol ds) ->
        exists d, ds !! (nrows df_feat - 1)%nat = Some d /\ stamp = AsOfDate d) /\
     (lookup_col df_feat "day" = None -> stamp = AsOfLatest) /\
     Forall2 (fun c y => exists v, value_at df_feat c (nrows df_feat - 1) = Some v /\
                                   to_float v = Ok y)
       feature_cols x).
Proof.
  intros missing. unfold pick_latest_row_features. fold missing.
  split; [|split].
  - intros Hm. by rewrite bool_decide_true.
  - intros code m. destruct (decide (missing ≠ [])) as [Hm|Hm].
    + rewrite bool_decide_true by done. by intros [= _ <-].
    + rewrite bool_decide_false by done. intros H. exfalso.
      destruct (iloc_last df_feat) as [row|e] eqn:Hl; simpl in H.
      2: { unfold iloc_last in Hl. destruct (nrows df_feat); [by simplify_eq|].
           destruct (iloc_row df_feat _); by simplify_eq. }
      destruct (if bool_decide _ then _ else _) as [stamp|e] eqn:Hs; simpl in H.
      2: { case_bool_decide; [|done]. injection H as ->.
           destruct (row_get row "day") as [v|e'] eqn:Hg; simpl in Hs.
           - by destruct v.
           - injection Hs as ->. by eapply row_get_not_http. }
      destruct (mapM _ feature_cols) as [x|e] eqn:Hx; simpl in H; [done|].
      injection H as ->.
      apply mapM_result_Raise in Hx as (c & _ & Hc).
      destruct (row_get row c) as [v|e'] eqn:Hg; simpl in Hc.
      * by destruct v.
      * injection Hc as ->. by eapply row_get_not_http.
  - intros Hm Hwf Hn Hnum Hday.
    rewrite bool_decide_false by (by rewrite Hm; intros ?).
    destruct (iloc_last_wf _ Hwf Hn) as (row & -> & Hrow). simpl.
    assert (exists stamp,
               (if bool_decide ("day" ∈ columns df_feat)
                then row_get row "day" ≫= date_of else Ok AsOfLatest) = Ok stamp /\
               (forall ds, lookup_col df_feat "day" = Some (DateCol ds) ->
                  exists d, ds !! (nrows df_feat - 1)%nat = Some d /\ stamp = AsOfDate d) /\
               (lookup_col df_feat "day" = None -> stamp = AsOfLatest))
      as (stamp & -> & Hs1 & Hs2).
    { destruct (lookup_col df_feat "day") as [s|] eqn:Hd.
      - rewrite bool_decide_true by (apply lookup_col_is_Some; by rewrite Hd).
        destruct (Hday s eq_refl) as [ds ->].
        destruct (iloc_row_get _ _ _ _ _ Hrow Hd) as (v & Hv & ->). simpl in *.
        destruct (ds !! (nrows df_feat - 1)%nat) as [d|] eqn:E; [|done].
        injection Hv as <-. simpl. eexists. split; [done|]. split; [|done].
        intros ds' [= <-]. eauto.
      - rewrite bool_decide_false.
        2: { rewrite <-lookup_col_is_Some, Hd. by intros [? ?]. }
        eexists. split; [done|]. split; [done|]. done. }
    simpl.
    destruct (mapM_result_Forall2
                (fun c => row_get row c ≫= to_float)
                (fun c y => exists v, value_at df_feat c (nrows df_feat - 1) = Some v /\
                                      to_float v = Ok y)
                feature_cols) as (x & -> & HF).
    { apply filter_missing_nil in Hm. apply Forall_forall. intros c Hc.
      rewrite Forall_forall in Hm. specialize (Hm c Hc).
      apply lookup_col_is_Some in Hm as [s Hs].
      destruct (iloc_row_get _ _ _ _ _ Hrow Hs) as (v & Hv & ->). simpl.
      specialize (Hnum c s Hc Hs).
      assert (exists y, to_float v = Ok y) as [y Hy].
      { destruct s; simpl in *; [..|done];
          destruct (_ !! _); simplify_eq/=; eauto. }
      exists y. split; [done|]. exists v. split; [|done].
      unfold value_at. by rewrite Hs. }
    simpl. by exists stamp, x.
Qed.

(** *** Order of file names *)

Lemma ascii_compare_lt a b :
  Ascii.compare a b = Lt <-> (N_of_ascii a < N_of_ascii b)%N.
Proof. unfold Ascii.compare. apply N.compare_lt_iff. Qed.

Lemma ascii_compare_gt a b :
  Ascii.compare a b = Gt <-> (N_of_ascii b < N_of_ascii a)%N.
Proof. unfold Ascii.compare. apply N.compare_gt_iff. Qed.

Lemma ascii_compare_eq a b : Ascii.compare a b = Eq <-> a = b.
Proof.
  unfold Ascii.compare. rewrite N.compare_eq_iff. split; [|by intros ->].
  intros H. by rewrite <-(ascii_N_embedding a), <-(ascii_N_embedding b), H.
Qed.

Lemma string_compare_trans_le a b c :
  String.compare a b ≠ Gt -> String.compare b c ≠ Gt -> String.compare a c ≠ Gt.
Proof.
  revert b c. induction a as [|x a IH]; intros [|y b] [|z c]; simpl; try done.
  destruct (Ascii.compare x y) eqn:Hxy; [| |done];
    destruct (Ascii.compare y z) eqn:Hyz; try done; intros Hab Hbc.
  - apply ascii_compare_eq in Hxy as ->, Hyz as ->.
    rewrite (proj2 (ascii_compare_eq z z) eq_refl). by eapply IH.
  - apply ascii_compare_eq in Hxy as ->. by rewrite Hyz.
  - apply ascii_compare_eq in Hyz as ->. by rewrite Hxy.
  - apply ascii_compare_lt in Hxy. apply ascii_compare_lt in Hyz.
    by rewrite (proj2 (ascii_compare_lt x z)) by (etrans; eauto).
Qed.

#[local] Instance str_le_trans : Transitive str_le.
Proof.
  intros a b c. unfold str_le, String.leb.
  pose proof (string_compare_trans_le a b c).
  destruct (String.compare a b), (String.compare b c), (String.compare a c);
    intros; first [done | by exfalso; apply H].
Qed.

#[local] Instance str_le_total : Total str_le.
Proof. intros a b. apply String.leb_total. Qed.

#[local] Instance str_le_refl : Reflexive str_le.
Proof. intros a. by destruct (str_le_total a a). Qed.

Lemma StronglySorted_last {A} (R : relation A) `{!Reflexive R} l x :
  StronglySorted R l -> last l = Some x -> forall y, y ∈ l -> R y x.
Proof.
  induction 1 as [|a l Hs IH Hall]; [done|].
  destruct l as [|b l]; simpl.
  - intros [= ->] y ->%list_elem_of_singleton. done.
  - intros Hl y [->|Hy]%elem_of_cons; [|by apply IH].
    rewrite Forall_forall in Hall. apply Hall.
    eapply list_elem_of_lookup_2. rewrite <-last_lookup. exact Hl.
Qed.

(** [sorted(names)[-1]] is a greatest name of the list. *)
Lemma sorted_last_greatest (l : list string) p :
  last (sorted l) = Some p -> p ∈ l /\ forall q, q ∈ l -> str_le q p.
Proof.
  unfold sorted. intros Hl. split.
  - rewrite <-(merge_sort_Permutation str_le l).
    eapply list_elem_of_lookup_2. rewrite <-last_lookup. exact Hl.
  - intros q Hq. rewrite <-(merge_sort_Permutation str_le l) in Hq.
    eapply StronglySorted_last; [apply _| |done..].
    apply StronglySorted_merge_sort; apply _.
Qed.

Lemma sorted_nil_iff (l : list string) : sorted l = [] <-> l = [].
Proof.
  unfold sorted. split; [|by intros ->].
  intros H. apply Permutation_nil_r. by rewrite <-H, merge_sort_Permutation.
Qed.

Lemma ascii_upper_idemp c : ascii_upper (ascii_upper c) = ascii_upper c.
Proof. destruct c as [[] [] [] [] [] [] [] []]; reflexivity. Qed.

Lemma upper_idemp s : upper (upper s) = upper s.
Proof. induction s as [|c s IH]; simpl; [done|]. by rewrite ascii_upper_idemp, IH. Qed.

(** *** Latest artifact of a symbol *)

(** When no file matches the symbol's pattern, a request that pins no
    model path is answered with the "No model found" [FileNotFoundError]
    of the latest-artifact lookup. *)
Lemma predict_without_match fs req :
  (req_model_path req = None \/ req_model_path req = Some "") ->
  glob fs (model_pattern (req_symbol req)) = [] ->
  latest_model_for_symbol fs (req_symbol req)
  = Raise (FileNotFoundError
             ("No model found for " +:+ req_symbol req +:+
              ". Expected something like: " +:+ model_pattern (req_symbol req))) /\
  predict fs req
  = Raise (FileNotFoundError
             ("No model found for " +:+ upper (req_symbol req) +:+
              ". Expected something like: " +:+ model_pattern (req_symbol req))).
Proof.
  intros Hp Hg.
  assert (Hpat : model_pattern (upper (req_symbol req)) = model_pattern (req_symbol req)).
  { unfold model_pattern. by rewrite upper_idemp. }
  split.
  - unfold latest_model_for_symbol. by rewrite Hg.
  - unfold predict, model_path_for, latest_model_for_symbol. rewrite Hpat, Hg.
    by destruct Hp as [-> | ->].
Qed.

(** *** Version tags and creation time *)

Lemma string_compare_refl a : String.compare a a = Eq.
Proof.
  induction a as [|x a IH]; simpl; [done|].
  by rewrite (proj2 (ascii_compare_eq x x) eq_refl).
Qed.

Lemma string_compare_lt_trans a b c :
  String.compare a b = Lt -> String.compare b c = Lt -> String.compare a c = Lt.
Proof.
  revert b c. induction a as [|x a IH]; intros [|y b] [|z c]; simpl; try done.
  destruct (Ascii.compare x y) eqn:Hxy; [| |done];
    destruct (Ascii.compare y z) eqn:Hyz; try done; intros Hab Hbc.
  - apply ascii_compare_eq in Hxy as ->. apply ascii_compare_eq in Hyz as ->.
    rewrite (proj2 (ascii_compare_eq z z) eq_refl). by eapply IH.
  - apply ascii_compare_eq in Hxy as ->. by rewrite Hyz.
  - apply ascii_compare_eq in Hyz as ->. by rewrite Hxy.
  - apply ascii_compare_lt in Hxy. apply ascii_compare_lt in Hyz.
    by rewrite (proj2 (ascii_compare_lt x z)) by (etrans; eauto).
Qed.

(** Comparison of two strings that start with blocks of one length. *)
Lemma string_compare_app a a' b b' :
  String.length a = String.length a' ->
  String.compare (a +:+ b) (a' +:+ b') =
  match String.compare a a' with
  | Eq => String.compare b b'
  | r => r
  end.
Proof.
  revert a'. induction a as [|x a IH]; intros [|y a']; simpl; try done.
  intros [= Hl]. destruct (Ascii.compare x y); [|done..]. by apply IH.
Qed.

Lemma string_length_app a b :
  String.length (a +:+ b) = (String.length a + String.length b)%nat.
Proof. induction a as [|x a IH]; simpl; [done|]. by rewrite IH. Qed.

Lemma pad_steps_length w n a :
  pad_steps w n = true -> (a ≤ n)%nat -> String.length (zero_pad w a) = w.
Proof.
  unfold pad_steps. rewrite andb_true_iff, !forallb_forall. intros [_ H] Ha.
  apply Nat.eqb_eq, H, in_seq. lia.
Qed.

Lemma pad_steps_lt w n a b :
  pad_steps w n = true -> (a < b)%nat -> (b ≤ n)%nat ->
  String.compare (zero_pad w a) (zero_pad w b) = Lt.
Proof.
  unfold pad_steps. rewrite andb_true_iff, !forallb_forall. intros [H _] Hab Hb.
  assert (Hstep : forall i, (i < n)%nat ->
            String.compare (zero_pad w i) (zero_pad w (S i)) = Lt).
  { intros i Hi. specialize (H i).
    destruct (String.compare (zero_pad w i) (zero_pad w (S i))); [|done|];
      discriminate H; apply in_seq; lia. }
  induction Hab as [|b Hab IH].
  - apply Hstep. lia.
  - eapply string_compare_lt_trans; [apply IH; lia|]. apply Hstep. lia.
Qed.

(** Two strings that start with the [w]-digit decimals of [a] and [b]. *)
Lemma compare_padded_lt w n a b r1 r2 :
  pad_steps w n = true -> (a < b)%nat -> (b ≤ n)%nat ->
  String.compare (zero_pad w a +:+ r1) (zero_pad w b +:+ r2) = Lt.
Proof.
  intros Hs Hab Hb.
  rewrite string_compare_app
    by (rewrite !(pad_steps_length w n) by (done || lia); done).
  by rewrite (pad_steps_lt w n a b).
Qed.

Lemma compare_padded_eq w n a r1 r2 :
  pad_steps w n = true -> (a ≤ n)%nat ->
  String.compare (zero_pad w a +:+ r1) (zero_pad w a +:+ r2) = String.compare r1 r2.
Proof.
  intros Hs Ha. rewrite string_compare_app by done.
  by rewrite string_compare_refl.
Qed.

Lemma zero_pad_of_nat w a : zero_pad w a = zero_pad_N w (N.of_nat a).
Proof. reflexivity. Qed.

Lemma pad_loop_spec w fuel x :
  pad_loop w fuel x = true ->
  forall k, (k ≤ fuel)%nat ->
    String.length (zero_pad_N w (x + N.of_nat k)) = w /\
    ((k < fuel)%nat ->
     String.compare (zero_pad_N w (x + N.of_nat k))
       (zero_pad_N w (N.succ (x + N.of_nat k))) = Lt).
Proof.
  revert x. induction fuel as [|fuel IH]; intros x H k Hk.
  - replace k with 0%nat by lia. rewrite N.add_0_r. simpl in H.
    split; [by apply Nat.eqb_eq|lia].
  - simpl in H.
    destruct (String.compare (zero_pad_N w x) (zero_pad_N w (N.succ x))) eqn:E;
      try done.
    apply andb_true_iff in H as [Hlen Hrest].
    destruct k as [|k].
    + rewrite N.add_0_r. split; [by apply Nat.eqb_eq|done].
    + replace (x + N.of_nat (S k))%N with (N.succ x + N.of_nat k)%N by lia.
      destruct (IH _ Hrest k) as [H1 H2]; [lia|]. split; [done|].
      intros ?. apply H2. lia.
Qed.

Lemma pad_loop_steps w n : pad_loop w n 0 = true -> pad_steps w n = true.
Proof.
  intros H. unfold pad_steps. apply andb_true_iff. split; apply forallb_forall.
  - intros a [_ Ha]%in_seq. rewrite !zero_pad_of_nat.
    destruct (pad_loop_spec _ _ _ H a) as [_ Hlt]; [lia|].
    rewrite N.add_0_l in Hlt. rewrite Nat2N.inj_succ, Hlt; [done|lia].
  - intros a [_ Ha]%in_seq. rewrite zero_pad_of_nat.
    destruct (pad_loop_spec _ _ _ H a) as [Hlen _]; [lia|].
    rewrite N.add_0_l in Hlen. by apply Nat.eqb_eq.
Qed.

Lemma pad4_steps : pad_steps 4 (100 * 100 - 1) = true.
Proof. apply pad_loop_steps. vm_compute. reflexivity. Qed.

Lemma pad2_steps : pad_steps 2 99 = true.
Proof. vm_compute. reflexivity. Qed.

(** The version tag of a later second is a greater string. *)
Lemma strftime_lt t1 t2 :
  datetime_wf t1 -> datetime_wf t2 -> datetime_lt t1 t2 ->
  str_lt (strftime t1) (strftime t2).
Proof.
  intros ([_ HY1] & HM1 & HD1 & Hh1 & Hm1 & Hs1) ([_ HY2] & HM2 & HD2 & Hh2 & Hm2 & Hs2).
  unfold datetime_lt, datetime_key, str_lt, strftime. cbn [lex_lt].
  intros [HY|[HY [HM|[HM [HD|[HD [Hh|[Hh [Hm|[Hm [Hs|[_ []]]]]]]]]]]]].
  all: repeat match goal with H : _ = _ |- _ => rewrite <- H in *; clear H end.
  all: rewrite ?(compare_padded_eq 4 (100 * 100 - 1)) by (apply pad4_steps || lia).
  all: rewrite ?(compare_padded_eq 2 99) by (apply pad2_steps || lia).
  all: rewrite ?(string_compare_app "_" "_") by done.
  all: cbn [String.compare Ascii.compare]; rewrite ?(compare_padded_eq 2 99) by (apply pad2_steps || lia).
  all: first
    [ apply (compare_padded_lt 4 (100 * 100 - 1)); [apply pad4_steps|lia..]
    | apply (compare_padded_lt 2 99); [apply pad2_steps|lia..]
    | apply (pad_steps_lt 2 99); [apply pad2_steps|lia..]
    | idtac ].
Qed.

Lemma strftime_length t : datetime_wf t -> String.length (strftime t) = 15%nat.
Proof.
  intros ([_ HY] & HM & HD & Hh & Hm & Hs). unfold strftime.
  rewrite !string_length_app.
  rewrite (pad_steps_length 4 (100 * 100 - 1)) by (apply pad4_steps || lia).
  by rewrite !(pad_steps_length 2 99) by (apply pad2_steps || lia).
Qed.

Lemma str_lt_le a b : str_lt a b -> str_le a b /\ ¬ str_le b a.
Proof.
  unfold str_lt, str_le, String.leb. intros H.
  rewrite (String.compare_antisym b a), H. by split.
Qed.

(** Of two artifacts of one symbol in one directory, the one saved at the
    later second has the greater path. *)
Lemma artifact_path_lt dir symbol t1 t2 :
  datetime_wf t1 -> datetime_wf t2 -> datetime_lt t1 t2 ->
  str_lt (artifact_path dir symbol t1) (artifact_path dir symbol t2).
Proof.
  intros H1 H2 Hlt. unfold str_lt, artifact_path.
  rewrite !(string_compare_app _ _ _ _ eq_refl), !string_compare_refl.
  rewrite string_compare_app by (by rewrite !strftime_length).
  by rewrite (strftime_lt t1 t2).
Qed.

Lemma str_le_antisym a b : str_le a b -> str_le b a -> a = b.
Proof. unfold str_le. intros Hab Hba. by apply String.leb_antisym. Qed.

(** When some file matches the symbol's pattern, the lookup returns one
    of the matching paths; no matching path is lexicographically greater,
    and it is the only such path.  The paths of two artifacts of the
    symbol saved at different seconds are ordered as the seconds are. *)
Lemma latest_match_is_greatest fs symbol :
  glob fs (model_pattern symbol) ≠ [] ->
  (exists p,
    latest_model_for_symbol fs symbol = Ok p /\
    p ∈ glob fs (model_pattern symbol) /\
    (forall q, q ∈ glob fs (model_pattern symbol) -> str_le q p) /\
    (forall q, q ∈ glob fs (model_pattern symbol) -> str_le p q -> q = p)) /\
  (forall dir t1 t2,
    datetime_wf t1 -> datetime_wf t2 -> datetime_lt t1 t2 ->
    str_le (artifact_path dir symbol t1) (artifact_path dir symbol t2) /\
    ¬ str_le (artifact_path dir symbol t2) (artifact_path dir symbol t1)).
Proof.
  intros Hg. split.
  - unfold latest_model_for_symbol.
    destruct (last (sorted (glob fs (model_pattern symbol)))) as [p|] eqn:Hl.
    + exists p. split; [done|]. apply sorted_last_greatest in Hl as [Hp Hmax].
      repeat split; [done..|]. intros q Hq Hpq. apply str_le_antisym; [|done].
      by apply Hmax.
    + apply last_None in Hl. apply (proj1 (sorted_nil_iff _)) in Hl. by destruct Hg.
  - intros dir t1 t2 H1 H2 Hlt. by apply str_lt_le, artifact_path_lt.
Qed.

(** X16.  When the symbol's matching paths are the artifacts saved at
    [times], the lookup returns the one saved last. *)
Theorem latest_model_is_most_recent fs symbol dir times p :
  Forall datetime_wf times ->
  (forall q, q ∈ glob fs (model_pattern symbol)
             <-> q ∈ artifact_path dir symbol <$> times) ->
  latest_model_for_symbol fs symbol = Ok p ->
  exists t, t ∈ times /\ p = artifact_path dir symbol t /\
            forall t', t' ∈ times -> ¬ datetime_lt t t'.
Proof.
  intros Hwf Hnames. unfold latest_model_for_symbol.
  destruct (last _) as [p'|] eqn:Hl; [|done]. intros [= ->].
  apply sorted_last_greatest in Hl as [Hp Hmax].
  apply Hnames, list_elem_of_fmap in Hp as (t & -> & Ht).
  exists t. repeat split; [done|]. intros t' Ht' Hlt.
  rewrite Forall_forall in Hwf.
  destruct (str_lt_le _ _ (artifact_path_lt dir symbol t t' (Hwf _ Ht) (Hwf _ Ht') Hlt))
    as [_ Hn].
  apply Hn, Hmax, Hnames, list_elem_of_fmap. by exists t'.
Qed.

(** [main] at clock [t] leaves the model under [artifact_path]. *)
Lemma main_saves_artifact_path args t fs fs' :
  main args t fs = Ok fs' ->
  is_Some (fs' !! artifact_path "ml/models/" (arg_symbol args) t).
Proof.
  unfold main. intros H.
  destruct (fetch_daily_bars _ _ _) as [raw|]; [|done]. simpl in H.
  destruct (build_features raw) as [feat|]; [|done]. simpl in H.
  destruct (train_timeseries_model _ _) as [res|]; [|done].
  simpl in H. injection H as <-. unfold save_artifact. cbv zeta.
  apply lookup_insert_is_Some'. right. apply lookup_insert_is_Some'. by left.
Qed.

(** *** The schema of a saved artifact *)

Lemma save_artifact_files fs symbol ts from_ to_ cols res :
  let model_path := "ml/models/" +:+ upper symbol +:+ "_" +:+ ts +:+ "_logreg.joblib" in
  let meta_path := "ml/models/" +:+ upper symbol +:+ "_" +:+ ts +:+ "_meta.json" in
  model_path ≠ meta_path ->
  let fs' := save_artifact fs symbol ts from_ to_ cols res in
  fs' !! model_path = Some (JoblibFile (model res)) /\
  exists fields,
    fs' !! meta_path = Some (JsonFile (JObj fields)) /\
    dict_get fields "feature_cols" = Some (JArr (JStr <$> cols)) /\
    dict_get fields "feature_columns" = None.
Proof.
  intros model_path meta_path Hne fs'. unfold fs', save_artifact.
  cbv zeta. fold model_path meta_path. split.
  - by rewrite lookup_insert_ne, lookup_insert_eq.
  - eexists. rewrite lookup_insert_eq. split; [done|]. done.
Qed.

(** C1.  After the training CLI saved an artifact with schema [S], its
    metadata holds [S] under the key "feature_cols"; the serving side reads
    "feature_columns", finds nothing, and answers a request pinned to
    that artifact with the "Meta JSON missing" error. *)
Theorem saved_schema_is_not_loaded fs from_ to_ S res symbol :
  let fs' := save_artifact fs "aapl" "20250102_030405" from_ to_ S res in
  let model_path := "ml/models/AAPL_20250102_030405_logreg.joblib" in
  let req := {| req_symbol := symbol; req_from_date := from_; req_to_date := to_;
                req_model_path := Some model_path |} in
  (exists meta,
      load_meta_for_model fs' model_path = Ok meta /\
      meta_get meta "feature_cols" = Ok (Some (JArr (JStr <$> S))) /\
      meta_get meta "feature_columns" = Ok None) /\
  predict fs' req = Raise (HTTPException 500 MetaMissingFeatureColumns).
Proof.
  intros fs' model_path req.
  assert (Hreq : req_model_path req = Some model_path) by done.
  destruct (save_artifact_files fs "aapl" "20250102_030405" from_ to_ S res)
    as (Hmodel & fields & Hmeta & Hcols & Hnone); [done|].
  fold fs' in Hmodel, Hmeta.
  change ("ml/models/" +:+ upper "aapl" +:+ "_" +:+ "20250102_030405" +:+ "_logreg.joblib")
    with model_path in Hmodel.
  change ("ml/models/" +:+ upper "aapl" +:+ "_" +:+ "20250102_030405" +:+ "_meta.json")
    with (replace "_logreg.joblib" "_meta.json" model_path) in Hmeta.
  assert (Hload : load_meta_for_model fs' model_path = Ok (JObj fields)).
  { unfold load_meta_for_model. by rewrite Hmeta. }
  split.
  - exists (JObj fields). split; [done|]. simpl. by rewrite Hcols, Hnone.
  - unfold predict, model_path_for. rewrite Hreq. rewrite bool_decide_true by done.
    simpl. unfold joblib_load. rewrite Hmodel. simpl. rewrite Hload. simpl.
    by rewrite Hnone.
Qed.

(** *** The caller's frame *)

Lemma preserves_ret {A} n (a : A) (Q : A -> Prop) : Q a -> Store.preserves n (mret a) Q.
Proof. intros HQ h Hn. simpl. split; [done|]. split; [done|]. by intros ? [= <-]. Qed.

Lemma preserves_bind {A B} n (m : Store.M A) (f : A -> Store.M B) Q Q' :
  Store.preserves n m Q -> (forall a, Q a -> Store.preserves n (f a) Q') ->
  Store.preserves n (m ≫= f) Q'.
Proof.
  intros Hm Hf h Hn. destruct (Hm h Hn) as (Ht & Hl & HQ).
  unfold mbind, Store.M_bind. simpl. destruct (Store.run m h) as [[a|e] h']; simpl in *.
  - destruct (Hf a (HQ a eq_refl) h' Hl) as (Ht' & Hl' & HQ').
    split; [congruence|]. done.
  - split; [done|]. split; [done|]. done.
Qed.

Lemma preserves_lift {A} n (r : result A) : Store.preserves n (Store.lift r) (fun _ => True).
Proof. intros h Hn. simpl. done. Qed.

Lemma preserves_alloc n d : Store.preserves n (Store.alloc d) (fun r => n ≤ r)%nat.
Proof.
  intros h Hn. simpl. split; [by rewrite take_app_le|].
  split; [rewrite length_app; lia|]. by intros ? [= <-].
Qed.

Lemma preserves_deref n r : Store.preserves n (Store.deref r) (fun _ => True).
Proof. intros h Hn. simpl. by destruct (h !! r). Qed.

(** An assignment to an object allocated past [n]. *)
Lemma preserves_setitem n r c s :
  (n ≤ r)%nat -> Store.preserves n (Store.setitem r c s) (fun _ => True).
Proof.
  intros Hr h Hn. unfold Store.setitem. cbn [Store.run fst snd].
  rewrite length_alter. split; [|done].
  apply list_eq. intros i. rewrite !lookup_take.
  destruct (decide (i < n)%nat); [|done].
  rewrite list_lookup_alter_ne; [done|lia].
Qed.

Lemma preserves_copy n r : Store.preserves n (Store.copy r) (fun r' => n ≤ r')%nat.
Proof.
  eapply preserves_bind; [apply preserves_deref|]. intros d _. apply preserves_alloc.
Qed.

Lemma preserves_getitem n r c : Store.preserves n (Store.getitem r c) (fun _ => True).
Proof.
  eapply preserves_bind; [apply preserves_deref|]. intros d _. apply preserves_lift.
Qed.

Lemma preserves_sort_values n r c :
  Store.preserves n (Store.sort_values r c) (fun r' => n ≤ r')%nat.
Proof.
  eapply preserves_bind; [apply preserves_deref|]. intros d _.
  eapply preserves_bind; [apply preserves_lift|]. intros d' _. apply preserves_alloc.
Qed.

Lemma preserves_dropna n r : Store.preserves n (Store.dropna r) (fun r' => n ≤ r')%nat.
Proof.
  eapply preserves_bind; [apply preserves_deref|]. intros d _. apply preserves_alloc.
Qed.

Lemma preserves_reset_index n r :
  Store.preserves n (Store.reset_index r) (fun r' => n ≤ r')%nat.
Proof.
  eapply preserves_bind; [apply preserves_deref|]. intros d _. apply preserves_alloc.
Qed.

Ltac frame :=
  lazymatch goal with
  | |- Store.preserves _ (_ ≫= _) _ =>
      eapply preserves_bind; [frame | intros ? ?; frame]
  | |- Store.preserves _ (mret _) _ => by apply preserves_ret
  | |- Store.preserves _ (Store.copy _) _ => apply preserves_copy
  | |- Store.preserves _ (Store.getitem _ _) _ => apply preserves_getitem
  | |- Store.preserves _ (Store.setitem _ _ _) _ => by apply preserves_setitem
  | |- Store.preserves _ (Store.sort_values _ _) _ => apply preserves_sort_values
  | |- Store.preserves _ (Store.dropna _) _ => apply preserves_dropna
  | |- Store.preserves _ (Store.reset_index _) _ => apply preserves_reset_index
  | |- Store.preserves _ (Store.lift _) _ => apply preserves_lift
  | |- Store.preserves _ ((Store.lift ∘ _) _) _ => apply preserves_lift
  end.

Lemma build_features_preserves n df :
  Store.preserves n (Store.build_features df) (fun _ => True).
Proof. unfold Store.build_features. frame. Qed.

Lemma engineer_features_preserves n df :
  Store.preserves n (Store.engineer_features df) (fun _ => True).
Proof. unfold Store.engineer_features. frame. Qed.

(** *** The object version computes the same frames *)

Lemma run_bind {A B} (m : Store.M A) (f : A -> Store.M B) h :
  Store.run (m ≫= f) h =
  match Store.run m h with
  | (Ok a, h') => Store.run (f a) h'
  | (Raise e, h') => (Raise e, h')
  end.
Proof. reflexivity. Qed.

Lemma run_lift {A} (r : result A) h : Store.run (Store.lift r) h = (r, h).
Proof. reflexivity. Qed.

Lemma run_deref_last h d : Store.run (Store.deref (length h)) (h ++ [d]) = (Ok d, h ++ [d]).
Proof. unfold Store.deref. cbn [Store.run]. by rewrite list_lookup_middle. Qed.

Lemma run_getitem_last h d c :
  Store.run (Store.getitem (length h) c) (h ++ [d]) = (getitem d c, h ++ [d]).
Proof. unfold Store.getitem. by rewrite run_bind, run_deref_last, run_lift. Qed.

Lemma run_setitem_last h d c s :
  Store.run (Store.setitem (length h) c s) (h ++ [d]) = (Ok (), h ++ [setitem d c s]).
Proof.
  unfold Store.setitem. cbn [Store.run]. f_equal.
  rewrite alter_app_r_alt by lia. by rewrite Nat.sub_diag.
Qed.

Lemma run_copy h l df :
  h !! l = Some df -> Store.run (Store.copy l) h = (Ok (length h), h ++ [df]).
Proof. intros Hl. unfold Store.copy, Store.deref. rewrite run_bind. cbn [Store.run]. by rewrite Hl. Qed.

Lemma run_dropna_last h d :
  Store.run (Store.dropna (length h)) (h ++ [d]) =
  (Ok (length (h ++ [d])), (h ++ [d]) ++ [dropna d]).
Proof. unfold Store.dropna. by rewrite run_bind, run_deref_last. Qed.

Lemma run_reset_index_last h d :
  Store.run (Store.reset_index (length h)) (h ++ [d]) =
  (Ok (length (h ++ [d])), (h ++ [d]) ++ [reset_index d]).
Proof. unfold Store.reset_index. by rewrite run_bind, run_deref_last. Qed.

Lemma run_sort_values_last h d c :
  Store.run (Store.sort_values (length h) c) (h ++ [d]) =
  match sort_values d c with
  | Ok d' => (Ok (length (h ++ [d])), (h ++ [d]) ++ [d'])
  | Raise e => (Raise e, h ++ [d])
  end.
Proof.
  unfold Store.sort_values. rewrite run_bind, run_deref_last, run_bind, run_lift.
  by destruct (sort_values d c).
Qed.

Lemma run_M_bind {A B} (m : Store.M A) (f : A -> Store.M B) h :
  Store.run (Store.M_bind A B f m) h =
  match Store.run m h with
  | (Ok a, h') => Store.run (f a) h'
  | (Raise e, h') => (Raise e, h')
  end.
Proof. reflexivity. Qed.

Lemma run_M_ret {A} (a : A) h : Store.run (Store.M_ret A a) h = (Ok a, h).
Proof. reflexivity. Qed.

Lemma as_float_FloatCol xs : as_float (FloatCol xs) = Ok xs.
Proof. reflexivity. Qed.

Ltac store_step :=
  repeat first
    [ rewrite run_M_bind
    | rewrite as_float_FloatCol
    | rewrite run_M_ret
    | rewrite run_getitem_last
    | rewrite run_setitem_last
    | rewrite run_lift
    | rewrite run_dropna_last
    | rewrite run_reset_index_last
    | rewrite getitem_setitem_eq
    | rewrite getitem_setitem_ne by done
    | progress (unfold compose, result_bind; cbv beta iota) ].

Ltac store_run Hs :=
  repeat (store_step; first [rewrite Hs]).

(** Run on a store where [l] holds [df], the object version of
    [build_features] raises what the value version raises, or returns a
    reference to the frame the value version returns. *)
Lemma store_build_features_refines h l df :
  h !! l = Some df ->
  match build_features df with
  | Ok out =>
      exists l', fst (Store.run (Store.build_features l) h) = Ok l' /\
                 snd (Store.run (Store.build_features l) h) !! l' = Some out
  | Raise e => fst (Store.run (Store.build_features l) h) = Raise e
  end.
Proof.
  intros Hl.
  assert (Hstart : forall k : nat -> Store.M nat,
             Store.run (Store.M_bind _ _ k (Store.copy l)) h
             = Store.run (k (length h)) (h ++ [df])).
  { intros k. by rewrite run_M_bind, (run_copy _ _ _ Hl). }
  destruct (numeric_col df "close") as [c|e] eqn:Hc.
  2: { rewrite (build_features_close_err _ _ Hc).
       unfold Store.build_features, pct_change. unfold mbind, mret. rewrite Hstart.
       unfold numeric_col in Hc. store_step.
       destruct (getitem df "close") as [sc|e']; simpl in Hc; store_step.
       - destruct (as_float sc); simpl in Hc; store_step; by simplify_eq.
       - by simplify_eq. }
  destruct (numeric_col df "volume") as [v|e] eqn:Hv.
  2: { rewrite (build_features_volume_err _ _ _ Hc Hv).
       apply numeric_col_inv in Hc as (sc & Hc & Hfc).
       unfold Store.build_features.
       unfold pct_change, rolling_mean, rolling_std, ratio_minus_one, up_tomorrow.
       unfold mbind, mret. rewrite Hstart.
       repeat (store_step; first [rewrite Hc | rewrite Hfc]).
       unfold numeric_col in Hv. store_step.
       destruct (getitem df "volume") as [sv|e']; simpl in Hv; store_step.
       - destruct (as_float sv); simpl in Hv; store_step; by simplify_eq.
       - by simplify_eq. }
  rewrite (build_features_eq _ _ _ Hc Hv).
  apply numeric_col_inv in Hc as (sc & Hc & Hfc).
  apply numeric_col_inv in Hv as (sv & Hv & Hfv).
  unfold Store.build_features.
  unfold pct_change, rolling_mean, rolling_std, ratio_minus_one, up_tomorrow.
  unfold mbind, mret. rewrite Hstart.
  repeat (store_step; first [rewrite Hc | rewrite Hfc | rewrite Hv | rewrite Hfv]).
  store_step. eexists. split; [reflexivity|]. cbn [fst snd].
  rewrite list_lookup_middle by done. reflexivity.
Qed.

Lemma engineer_features_day_missing df :
  lookup_col df "day" = None -> engineer_features df = Raise (KeyError "day").
Proof.
  intros Hd. unfold engineer_features, copy, getitem. by rewrite Hd.
Qed.

Lemma engineer_features_day_not_date df s :
  lookup_col df "day" = Some s -> (forall ds, s ≠ DateCol ds) ->
  engineer_features df = Raise (TypeError "to_datetime: not a date column").
Proof.
  intros Hd Hs. unfold engineer_features, copy.
  rewrite (getitem_lookup _ _ _ Hd). destruct s; try done. by destruct (Hs xs).
Qed.

Lemma engineer_features_close_err df ds e :
  lookup_col df "day" = Some (DateCol ds) ->
  numeric_col (take_frame (merge_sort (key_le (DateCol ds)) (seq 0 (nrows df))) df)
    "close" = Raise e ->
  engineer_features df = Raise e.
Proof.
  intros Hd Hc.
  unfold engineer_features, copy, reset_index, sort_values, pct_change.
  rewrite (getitem_lookup _ _ _ Hd). simpl.
  rewrite (setitem_same _ _ _ Hd), (getitem_lookup _ _ _ Hd). simpl.
  unfold numeric_col in Hc.
  destruct (getitem _ "close") as [s|e']; simpl in *; [|congruence].
  destruct (as_float s); simpl; congruence.
Qed.

Lemma engineer_features_volume_err df ds c e :
  lookup_col df "day" = Some (DateCol ds) ->
  let df1 := take_frame (merge_sort (key_le (DateCol ds)) (seq 0 (nrows df))) df in
  numeric_col df1 "close" = Ok c ->
  numeric_col df1 "volume" = Raise e ->
  engineer_features df = Raise e.
Proof.
  intros Hd df1 (sc & Hc & Hfc)%numeric_col_inv Hv.
  unfold engineer_features, copy, reset_index, sort_values.
  unfold pct_change, rolling_mean, rolling_std, ratio_minus_one.
  rewrite (getitem_lookup _ _ _ Hd). simpl.
  rewrite (setitem_same _ _ _ Hd), (getitem_lookup _ _ _ Hd). simpl. fold df1.
  repeat (repeat first [ rewrite getitem_setitem_eq
                       | rewrite getitem_setitem_ne by done
                       | progress simpl ];
          first [rewrite Hc | rewrite Hfc]).
  repeat first [ rewrite getitem_setitem_eq
               | rewrite getitem_setitem_ne by done
               | progress simpl ].
  unfold numeric_col in Hv.
  destruct (getitem df1 "volume") as [s|e']; simpl in *; [|congruence].
  destruct (as_float s); simpl; congruence.
Qed.

Lemma store_engineer_features_refines h l df :
  h !! l = Some df ->
  match engineer_features df with
  | Ok out =>
      exists l', fst (Store.run (Store.engineer_features l) h) = Ok l' /\
                 snd (Store.run (Store.engineer_features l) h) !! l' = Some out
  | Raise e => fst (Store.run (Store.engineer_features l) h) = Raise e
  end.
Proof.
  intros Hl.
  assert (Hstart : forall k : nat -> Store.M nat,
             Store.run (Store.M_bind _ _ k (Store.copy l)) h
             = Store.run (k (length h)) (h ++ [df])).
  { intros k. by rewrite run_M_bind, (run_copy _ _ _ Hl). }
  destruct (lookup_col df "day") as [sd|] eqn:Hd.
  2: { rewrite (engineer_features_day_missing _ Hd).
       unfold Store.engineer_features. unfold mbind, mret. rewrite Hstart.
       store_step. unfold getitem. rewrite Hd. by store_step. }
  destruct sd as [xs|xs|ds].
  1,2: rewrite (engineer_features_day_not_date _ _ Hd) by done;
       unfold Store.engineer_features; unfold mbind, mret; rewrite Hstart;
       store_step; rewrite (getitem_lookup _ _ _ Hd); by store_step.
  set (df1 := take_frame (merge_sort (key_le (DateCol ds)) (seq 0 (nrows df))) df).
  assert (Hsort : sort_values df "day" = Ok df1).
  { unfold sort_values. by rewrite (getitem_lookup _ _ _ Hd). }
  assert (Htd : to_datetime (DateCol ds) = Ok (DateCol ds)) by done.
  destruct (numeric_col df1 "close") as [c|e] eqn:Hc.
  2: { rewrite (engineer_features_close_err _ _ _ Hd Hc).
       unfold Store.engineer_features, pct_change. unfold mbind, mret. rewrite Hstart.
       store_step. rewrite (getitem_lookup _ _ _ Hd). store_step.
       rewrite Htd. store_step. rewrite (setitem_same _ _ _ Hd).
       rewrite run_sort_values_last, Hsort. store_step. unfold reset_index.
       unfold numeric_col in Hc. store_step.
       destruct (getitem df1 "close") as [sc|e']; simpl in Hc; store_step.
       - destruct (as_float sc); simpl in Hc; store_step; by simplify_eq.
       - by simplify_eq. }
  destruct (numeric_col df1 "volume") as [v|e] eqn:Hv.
  2: { rewrite (engineer_features_volume_err _ _ _ _ Hd Hc Hv).
       apply numeric_col_inv in Hc as (sc & Hc & Hfc).
       unfold Store.engineer_features.
       unfold pct_change, rolling_mean, rolling_std, ratio_minus_one.
       unfold mbind, mret. rewrite Hstart.
       store_step. rewrite (getitem_lookup _ _ _ Hd). store_step.
       rewrite Htd. store_step. rewrite (setitem_same _ _ _ Hd).
       rewrite run_sort_values_last, Hsort. store_step. unfold reset_index.
       repeat (store_step; first [rewrite Hc | rewrite Hfc]).
       unfold numeric_col in Hv. store_step.
       destruct (getitem df1 "volume") as [sv|e']; simpl in Hv; store_step.
       - destruct (as_float sv); simpl in Hv; store_step; by simplify_eq.
       - by simplify_eq. }
  rewrite (engineer_features_eq _ _ _ _ Hd Hc Hv). fold df1.
  apply numeric_col_inv in Hc as (sc & Hc & Hfc).
  apply numeric_col_inv in Hv as (sv & Hv & Hfv).
  unfold Store.engineer_features.
  unfold pct_change, rolling_mean, rolling_std, ratio_minus_one.
  unfold mbind, mret. rewrite Hstart.
  store_step. rewrite (getitem_lookup _ _ _ Hd). store_step.
  rewrite Htd. store_step. rewrite (setitem_same _ _ _ Hd).
  rewrite run_sort_values_last, Hsort. store_step. unfold reset_index.
  repeat (store_step; first [rewrite Hc | rewrite Hfc | rewrite Hv | rewrite Hfv]).
  store_step. eexists. split; [reflexivity|]. cbn [fst snd].
  rewrite list_lookup_middle by done. reflexivity.
Qed.

(** C10.  Whatever the store holds, after either feature builder has Store.run
    on the caller's frame, returned or raised, every frame that existed
    before, the caller's among them, is as it was. *)
Theorem feature_builders_leave_input h l df :
  h !! l = Some df ->
  (Store.run (Store.build_features l) h).2 !! l = Some df /\
  (Store.run (Store.engineer_features l) h).2 !! l = Some df /\
  h `prefix_of` (Store.run (Store.build_features l) h).2 /\
  h `prefix_of` (Store.run (Store.engineer_features l) h).2.
Proof.
  intros Hl.
  destruct (build_features_preserves (length h) l h) as (Hb & Hlb & _); [done|].
  destruct (engineer_features_preserves (length h) l h) as (He & Hle & _); [done|].
  rewrite firstn_all in Hb, He.
  pose proof (prefix_take (Store.run (Store.build_features l) h).2 (length h)) as Hpb.
  pose proof (prefix_take (Store.run (Store.engineer_features l) h).2 (length h)) as Hpe.
  rewrite Hb in Hpb. rewrite He in Hpe.
  repeat split; try done.
  - by eapply prefix_lookup_Some.
  - by eapply prefix_lookup_Some.
Qed.

(** *** Too few bars *)

Lemma numeric_col_take_frame idx df k xs :
  numeric_col df k = Ok xs -> exists ys, numeric_col (take_frame idx df) k = Ok ys.
Proof.
  intros (s & Hs & Hf)%numeric_col_inv. unfold numeric_col, getitem in *.
  rewrite lookup_col_take_frame. destruct (lookup_col df k) as [s'|]; [|done].
  injection Hs as ->. simpl. destruct s; simpl in *; [eauto..|done].
Qed.

Lemma lookup_day_take_frame idx df ds :
  lookup_col df "day" = Some (DateCol ds) ->
  exists ds', lookup_col (take_frame idx df) "day" = Some (DateCol ds').
Proof. intros H. rewrite lookup_col_take_frame, H. simpl. eauto. Qed.

Lemma build_features_total df c v :
  numeric_col df "close" = Ok c -> numeric_col df "volume" = Ok v ->
  exists out, build_features df = Ok out.
Proof. intros Hc Hv. rewrite (build_features_eq _ _ _ Hc Hv). eauto. Qed.

Lemma engineer_features_total df ds c v :
  lookup_col df "day" = Some (DateCol ds) ->
  numeric_col df "close" = Ok c -> numeric_col df "volume" = Ok v ->
  exists out, engineer_features df = Ok out.
Proof.
  intros Hd Hc Hv.
  destruct (numeric_col_take_frame
              (merge_sort (key_le (DateCol ds)) (seq 0 (nrows df))) _ _ _ Hc) as [c' Hc'].
  destruct (numeric_col_take_frame
              (merge_sort (key_le (DateCol ds)) (seq 0 (nrows df))) _ _ _ Hv) as [v' Hv'].
  rewrite (engineer_features_eq _ _ _ _ Hd Hc' Hv'). eauto.
Qed.

(** The frame both fetchers hand on: the day column parsed, the rows
    sorted by day. *)
Lemma sort_by_day df ds :
  lookup_col df "day" = Some (DateCol ds) ->
  (day ← getitem df "day" ≫= to_datetime;
   reset_index <$> sort_values (setitem df "day" day) "day")
  = Ok (take_frame (merge_sort (key_le (DateCol ds)) (seq 0 (nrows df))) df).
Proof.
  intros Hd. rewrite (getitem_lookup _ _ _ Hd). simpl.
  rewrite (setitem_same _ _ _ Hd). unfold sort_values.
  by rewrite (getitem_lookup _ _ _ Hd).
Qed.

Lemma nrows_sorted df (R : relation nat) `{!forall x y, Decision (R x y)} :
  df ≠ [] -> nrows (take_frame (merge_sort R (seq 0 (nrows df))) df) = nrows df.
Proof.
  intros. by rewrite nrows_take_frame_cons, merge_sort_length, length_seq.
Qed.

Lemma getitem_dropna_derived df c v T k :
  k ∈ DERIVED ->
  exists xs,
    getitem (dropna (setitem (feature_frame df c v) "target_up_tomorrow" T)) k
    = Ok (FloatCol xs).
Proof.
  intros Hk. unfold getitem, dropna. rewrite lookup_col_take_frame.
  rewrite lookup_col_setitem.
  unfold DERIVED in Hk. unfold feature_frame.
  repeat (apply elem_of_cons in Hk as [->|Hk];
          [rewrite decide_False by done; rewrite !lookup_col_setitem;
           repeat (rewrite decide_False by done); rewrite decide_True by done;
           simpl; eauto|]).
  by apply elem_of_nil in Hk.
Qed.

Lemma values_length df cols X : values df cols = Ok X -> length X = nrows df.
Proof.
  unfold values. destruct (mapM _ cols); simpl; [|done].
  intros [= <-]. by rewrite length_fmap, length_seq.
Qed.

(** Training on a frame [build_features] returned without rows stops at
    the splitter. *)
Lemma train_on_no_rows df c v feat :
  numeric_col df "close" = Ok c -> numeric_col df "volume" = Ok v ->
  build_features df = Ok feat -> nrows feat = 0%nat ->
  train_timeseries_model feat FEATURE_COLS
  = Raise (ValueError
             "Cannot have number of folds=6 greater than the number of samples=0.").
Proof.
  intros Hc Hv Hb Hn. rewrite (build_features_eq _ _ _ Hc Hv) in Hb.
  injection Hb as <-. unfold train_timeseries_model.
  destruct (mapM_result_Forall2
              (fun k => getitem (dropna (setitem (feature_frame df c v)
                                           "target_up_tomorrow"
                                           (IntCol (up_tomorrow_values c)))) k
                        ≫= as_float)
              (fun _ _ => True) FEATURE_COLS) as (cs & Hcs & _).
  { apply Forall_forall. intros k Hk.
    destruct (getitem_dropna_derived df c v (IntCol (up_tomorrow_values c)) k)
      as [xs ->].
    - unfold FEATURE_COLS in Hk. unfold DERIVED.
      repeat (apply elem_of_cons in Hk as [->|Hk];
              [rewrite !elem_of_cons; repeat (first [by left | right])|]).
      by apply elem_of_nil in Hk.
    - simpl. by eexists. }
  destruct (values _ FEATURE_COLS) as [X|] eqn:HX.
  2: { unfold values in HX. by rewrite Hcs in HX. }
  apply values_length in HX. rewrite Hn in HX. simpl.
  unfold getitem, dropna. rewrite lookup_col_take_frame, lookup_col_setitem.
  rewrite decide_True by done. simpl. by rewrite HX.
Qed.

(** C7 (amended).  On exactly 5 bars with a day, a close and a volume
    column, the training entry point fails with the splitter's error on
    zero samples; and the prediction endpoint, once it has loaded an
    artifact whose metadata holds a non-empty "feature_columns" entry
    (which it does before it fetches any bar), fails with the
    not-enough-bars error. *)
Theorem five_bars_insufficient raw ds c v :
  nrows raw = 5%nat ->
  lookup_col raw "day" = Some (DateCol ds) ->
  numeric_col raw "close" = Ok c ->
  numeric_col raw "volume" = Ok v ->
  (forall args utcnow fs,
      status_code (platform (arg_symbol args) (from_date args) (to_date args)) = 200 ->
      data (platform (arg_symbol args) (from_date args) (to_date args)) = raw ->
      main args utcnow fs
      = Raise (ValueError
                 "Cannot have number of folds=6 greater than the number of samples=0.")) /\
  (forall fs req model_path m meta cols_json,
      model_path_for fs req (upper (req_symbol req)) = Ok model_path ->
      joblib_load fs model_path = Ok m ->
      load_meta_for_model fs model_path = Ok meta ->
      meta_get meta "feature_columns" = Ok (Some cols_json) ->
      truthy cols_json = true ->
      status_code (platform (upper (req_symbol req)) (req_from_date req) (req_to_date req))
      = 200 ->
      data (platform (upper (req_symbol req)) (req_from_date req) (req_to_date req))
      = raw ->
      predict fs req = Raise (HTTPException 400 NotEnoughBars)).
Proof.
  intros Hn Hd Hc Hv.
  assert (Hne : raw ≠ []) by (intros ->; done).
  set (df1 := take_frame (merge_sort (key_le (DateCol ds)) (seq 0 (nrows raw))) raw).
  assert (Hn1 : nrows df1 = 5%nat) by (unfold df1; by rewrite nrows_sorted).
  destruct (numeric_col_take_frame
              (merge_sort (key_le (DateCol ds)) (seq 0 (nrows raw))) _ _ _ Hc) as [c1 Hc1].
  destruct (numeric_col_take_frame
              (merge_sort (key_le (DateCol ds)) (seq 0 (nrows raw))) _ _ _ Hv) as [v1 Hv1].
  destruct (lookup_day_take_frame
              (merge_sort (key_le (DateCol ds)) (seq 0 (nrows raw))) _ _ Hd) as [ds1 Hd1].
  fold df1 in Hc1, Hv1, Hd1.
  split.
  - intros args utcnow fs Hst Hdata. unfold main, fetch_daily_bars. cbv zeta.
    rewrite Hst, Hdata. rewrite bool_decide_false by (intros [? ?]; lia).
    unfold no_records. rewrite bool_decide_false by (rewrite Hn; lia).
    rewrite (sort_by_day _ _ Hd). fold df1. simpl.
    destruct (build_features_total _ _ _ Hc1 Hv1) as [feat Hfeat].
    rewrite Hfeat. simpl.
    pose proof (build_features_rows _ _ (take_frame_wf _ _) Hfeat) as Hrows.
    fold df1 in Hrows. rewrite Hn1 in Hrows.
    rewrite (train_on_no_rows _ _ _ _ Hc1 Hv1 Hfeat); [done|]. lia.
  - intros fs req model_path m meta cols_json Hpath Hm Hmeta Hget Htruthy Hst Hdata.
    unfold predict. rewrite Hpath. simpl. rewrite Hm. simpl. rewrite Hmeta. simpl.
    rewrite Hget. simpl. rewrite Htruthy.
    unfold fetch_bars. cbv zeta. rewrite upper_idemp, Hst, Hdata.
    rewrite bool_decide_false by (intros ?; lia).
    unfold no_records. rewrite bool_decide_false by (rewrite Hn; lia).
    rewrite bool_decide_false.
    2: { intros Hnot. apply Hnot, lookup_col_is_Some.
         apply numeric_col_inv in Hc as (s & Hs & _). unfold getitem in Hs.
         destruct (lookup_col raw "close"); [eauto|done]. }
    rewrite bool_decide_true by (apply lookup_col_is_Some; eauto).
    rewrite (sort_by_day _ _ Hd). fold df1. simpl.
    destruct (engineer_features_total _ _ _ _ Hd1 Hc1 Hv1) as [out Hout].
    rewrite Hout. simpl.
    pose proof (engineer_features_rows _ _ Hout) as Hrows.
    rewrite Hn1 in Hrows. rewrite bool_decide_true by lia. done.
Qed.

(** ** Further properties of the two programs *)

(** *** What [dropna] leaves *)

Lemma elem_of_take_frame idx df k s :
  (k, s) ∈ take_frame idx df -> exists s0, (k, s0) ∈ df /\ s = take_rows idx s0.
Proof.
  unfold take_frame. intros ([k0 s0] & [= -> ->] & Hin)%list_elem_of_fmap. eauto.
Qed.

Lemma dropna_notna df k s i :
  (k, s) ∈ dropna df -> (i < nrows (dropna df))%nat -> notna_at s i = true.
Proof.
  unfold dropna. intros (s0 & Hin & ->)%elem_of_take_frame Hi.
  pose proof (nrows_take_frame (complete_rows df) df) as Hle.
  destruct (lookup_lt_is_Some_2 (complete_rows df) i) as [r Hr]; [lia|].
  pose proof Hr as Hr'.
  apply list_elem_of_lookup_2, complete_rows_spec in Hr' as [_ Hc].
  pose proof (complete_row_elem_of _ _ _ _ Hc Hin) as Hn.
  unfold notna_at. rewrite iloc_take_rows, Hr; [exact Hn|].
  intros r' Hr2. rewrite Hr in Hr2. injection Hr2 as <-. by apply notna_at_is_Some.
Qed.

(** X2.  No cell of a frame a feature builder returns is missing: every
    column holds a value, not NaN or NaT, at every row. *)
Theorem features_have_no_missing_value df out :
  build_features df = Ok out \/ engineer_features df = Ok out ->
  forall k s i, (k, s) ∈ out -> (i < nrows out)%nat -> notna_at s i = true.
Proof.
  intros [(c & v & _ & _ & ->)%build_features_inv
         |(ds & c & v & _ & _ & _ & ->)%engineer_features_inv];
    intros k s i; apply dropna_notna.
Qed.

(** X1.  Both feature builders lose at least the ten warm-up rows. *)
Theorem feature_rows_bound df out :
  frame_wf df ->
  build_features df = Ok out \/ engineer_features df = Ok out ->
  (nrows out ≤ nrows df - 10)%nat.
Proof.
  intros Hwf [H|H]; [by eapply build_features_rows|by eapply engineer_features_rows].
Qed.

(** *** Columns and order of the rows that survive *)

Lemma StronglySorted_filter {A} (R : relation A) (P : A -> Prop)
    `{!forall x, Decision (P x)} l :
  StronglySorted R l -> StronglySorted R (filter P l).
Proof.
  induction 1 as [|a l Hs IH Hall]; [constructor|].
  rewrite filter_cons. destruct (decide (P a)); [|done].
  constructor; [done|]. apply Forall_forall. intros x [_ Hx]%list_elem_of_filter.
  rewrite Forall_forall in Hall. by apply Hall.
Qed.

Lemma complete_rows_sorted df : StronglySorted lt (complete_rows df).
Proof.
  unfold complete_rows. apply StronglySorted_filter, StronglySorted_seq. auto.
Qed.

Lemma columns_setitem df k s :
  columns (setitem df k s) = columns df ++ filter (fun c => c ∉ columns df) [k].
Proof.
  unfold columns. induction df as [|[k0 s0] df IH]; csimpl.
  - rewrite filter_cons, decide_True by apply not_elem_of_nil. done.
  - destruct (decide (k0 = k)) as [->|Hne]; csimpl.
    + rewrite filter_cons, decide_False; [by rewrite filter_nil, app_nil_r|].
      intros H. apply H. left.
    + rewrite IH. f_equal. f_equal. rewrite !filter_cons, !filter_nil.
      destruct (decide (k ∉ df.*1)) as [H1|H1].
      * rewrite decide_True; [done|]. by intros [?|?]%elem_of_cons.
      * rewrite decide_False; [done|]. intros H2. apply H1. intros ?. apply H2. by right.
Qed.

Lemma columns_extend (L ks : list string) k :
  k ∉ ks ->
  (L ++ filter (fun c => c ∉ L) ks)
    ++ filter (fun c => c ∉ L ++ filter (fun c => c ∉ L) ks) [k]
  = L ++ filter (fun c => c ∉ L) (ks ++ [k]).
Proof.
  intros Hk. rewrite <-(assoc_L (++)), filter_app. do 2 f_equal.
  rewrite !filter_cons, !filter_nil.
  destruct (decide (k ∉ L)) as [H1|H1].
  - rewrite decide_True; [done|].
    intros [?|[_ ?]%list_elem_of_filter]%elem_of_app; done.
  - rewrite decide_False; [done|]. intros H2. apply H1. intros ?. apply H2.
    apply elem_of_app. by left.
Qed.

Lemma columns_setitem_extend df0 (L ks : list string) k s :
  columns df0 = L ++ filter (fun c => c ∉ L) ks -> k ∉ ks ->
  columns (setitem df0 k s) = L ++ filter (fun c => c ∉ L) (ks ++ [k]).
Proof. intros H Hk. rewrite columns_setitem, H. by apply columns_extend. Qed.

Lemma columns_take_frame idx df : columns (take_frame idx df) = columns df.
Proof.
  unfold columns, take_frame. rewrite <-list_fmap_compose.
  apply list_fmap_ext. by intros ? [? ?].
Qed.

Ltac not_among :=
  let H := fresh in
  intros H; repeat (apply elem_of_cons in H as [H|H]; [discriminate H|]);
  by apply elem_of_nil in H.

Lemma columns_feature_frame df c v :
  columns (feature_frame df c v)
  = columns df ++ filter (fun k => k ∉ columns df) DERIVED.
Proof.
  unfold feature_frame, DERIVED. cbv zeta.
  change ["ret_1d"; "ma_5"; "ma_10"; "close_over_ma5"; "close_over_ma10";
          "vol_5"; "vol_10"; "volchg_1d"]
    with ((((((((([] ++ ["ret_1d"]) ++ ["ma_5"]) ++ ["ma_10"]) ++ ["close_over_ma5"])
               ++ ["close_over_ma10"]) ++ ["vol_5"]) ++ ["vol_10"]) ++ ["volchg_1d"])
          : list string).
  repeat (apply columns_setitem_extend; [|simpl; not_among]).
  by rewrite filter_nil, app_nil_r.
Qed.

Lemma lookup_col_dropna_with_target df c v T k :
  k ∉ DERIVED -> k ≠ "target_up_tomorrow" ->
  lookup_col (dropna (setitem (feature_frame df c v) "target_up_tomorrow" T)) k
  = take_rows (complete_rows (setitem (feature_frame df c v) "target_up_tomorrow" T))
      <$> lookup_col df k.
Proof.
  intros Hk Ht. unfold dropna.
  by rewrite lookup_col_take_frame, lookup_col_setitem, decide_False,
    lookup_feature_frame_other.
Qed.

(** X3.  The training frame carries the input's columns in their order,
    followed by the derived columns and the label the input did not have;
    a column that is not derived holds the input's values at the surviving
    rows, which keep their input order. *)
Theorem build_features_keeps_input_columns df out :
  build_features df = Ok out ->
  columns out
  = (columns df
     ++ filter (fun k => k ∉ columns df) (DERIVED ++ ["target_up_tomorrow"]))%list /\
  exists idx,
    StronglySorted lt idx /\
    forall k, k ∉ DERIVED -> k ≠ "target_up_tomorrow" ->
      lookup_col out k = take_rows idx <$> lookup_col df k.
Proof.
  intros (c & v & _ & _ & ->)%build_features_inv. split.
  - unfold dropna. rewrite columns_take_frame.
    apply columns_setitem_extend; [apply columns_feature_frame|].
    unfold DERIVED. not_among.
  - eexists. split; [apply complete_rows_sorted|].
    intros k Hk Ht. by apply lookup_col_dropna_with_target.
Qed.

(** *** The inference frame is in day order *)

Lemma StronglySorted_by_lookup {A} (R : relation A) l :
  (forall i j x y, l !! i = Some x -> l !! j = Some y -> (i < j)%nat -> R x y) ->
  StronglySorted R l.
Proof.
  induction l as [|a l IH]; intros H; constructor.
  - apply IH. intros i j x y Hi Hj Hlt. apply (H (S i) (S j)); auto. lia.
  - apply Forall_forall. intros y [j Hj]%list_elem_of_lookup_1.
    apply (H 0%nat (S j)); auto. lia.
Qed.

Lemma sorted_rows_by_day ds n :
  StronglySorted (key_le (DateCol ds)) (merge_sort (key_le (DateCol ds)) (seq 0 n)).
Proof. apply StronglySorted_merge_sort; apply _. Qed.

(** The days of the rows [idx] of a column sorted by [sidx], when none is
    missing. *)
Lemma sorted_days_ascending ds sidx idx :
  StronglySorted (key_le (DateCol ds)) sidx ->
  StronglySorted lt idx ->
  let l1 := (fun r => default None (ds !! r)) <$> sidx in
  let l2 := (fun i => default None (l1 !! i)) <$> idx in
  Forall is_Some l2 ->
  exists days, l2 = Some <$> days /\ StronglySorted Z.le days.
Proof.
  intros Hs Hidx l1 l2 Hall.
  exists ((fun o => default 0 o) <$> l2). split.
  - rewrite <-list_fmap_compose. symmetry.
    rewrite <-(list_fmap_id l2) at 2. apply Forall_fmap_ext.
    eapply Forall_impl; [exact Hall|]. by intros ? [? ->].
  - apply StronglySorted_by_lookup. intros a b x y Ha Hb Hab.
    rewrite list_lookup_fmap in Ha, Hb.
    destruct (l2 !! a) as [oa|] eqn:Hla; [|done].
    destruct (l2 !! b) as [ob|] eqn:Hlb; [|done].
    simpl in Ha, Hb. injection Ha as <-. injection Hb as <-.
    rewrite Forall_forall in Hall.
    destruct (Hall oa) as [da ->]; [by eapply list_elem_of_lookup_2|].
    destruct (Hall ob) as [db ->]; [by eapply list_elem_of_lookup_2|].
    simpl. unfold l2 in Hla, Hlb. rewrite list_lookup_fmap in Hla, Hlb.
    destruct (idx !! a) as [ia|] eqn:Hia; [|done].
    destruct (idx !! b) as [ib|] eqn:Hib; [|done].
    simpl in Hla, Hlb.
    pose proof (StronglySorted_lookup _ _ _ _ _ _ Hidx Hia Hib Hab) as Hlt.
    unfold l1 in Hla, Hlb. rewrite list_lookup_fmap in Hla, Hlb.
    destruct (sidx !! ia) as [ra|] eqn:Hra; [|done].
    destruct (sidx !! ib) as [rb|] eqn:Hrb; [|done].
    simpl in Hla, Hlb.
    pose proof (StronglySorted_lookup _ _ _ _ _ _ Hs Hra Hrb Hlt) as Hkey.
    unfold key_le in Hkey. simpl in Hkey.
    destruct (ds !! ra) as [xa|]; [|done]. destruct (ds !! rb) as [xb|]; [|done].
    simpl in *. simplify_eq. simpl in Hkey. by apply bool_decide_eq_true in Hkey.
Qed.

(** The columns and the day column of the inference frame. *)
Lemma engineer_features_day_column df out :
  engineer_features df = Ok out ->
  exists days,
    lookup_col out "day" = Some (DateCol (Some <$> days)) /\
    StronglySorted Z.le days.
Proof.
  intros (ds & c & v & Hd & Hc & Hv & ->)%engineer_features_inv.
  set (sidx := merge_sort (key_le (DateCol ds)) (seq 0 (nrows df))) in *.
  set (F := feature_frame (take_frame sidx df) c v).
  assert (HF : lookup_col F "day" = Some (take_rows sidx (DateCol ds))).
  { unfold F. rewrite lookup_feature_frame_other by (unfold DERIVED; not_among).
    by rewrite lookup_col_take_frame, Hd. }
  destruct (sorted_days_ascending ds sidx (complete_rows F)) as (days & Hdays & Hsorted).
  - apply sorted_rows_by_day.
  - apply complete_rows_sorted.
  - apply Forall_forall. intros o (i & -> & Hi)%list_elem_of_fmap.
    apply complete_rows_spec in Hi as [_ Hi].
    pose proof (complete_row_elem_of _ _ _ _ Hi (lookup_col_elem_of _ _ _ HF)) as Hn.
    unfold notna_at in Hn. simpl in Hn.
    destruct (_ !! i) as [o|]; simpl in *; [|done]. by apply bool_decide_eq_true in Hn.
  - exists days. split; [|done].
    unfold dropna. rewrite lookup_col_take_frame, HF. simpl. by rewrite <-Hdays.
Qed.

(** X5.  The inference frame carries the input's columns followed by the
    derived ones it did not have, and its rows are in ascending day order
    with no day missing, whatever the order of the input rows. *)
Theorem engineer_features_days_ascending df out :
  engineer_features df = Ok out ->
  columns out = (columns df ++ filter (fun k => k ∉ columns df) DERIVED)%list /\
  exists days,
    lookup_col out "day" = Some (DateCol (Some <$> days)) /\
    StronglySorted Z.le days.
Proof.
  intros H. split; [|by apply (engineer_features_day_column df)].
  apply engineer_features_inv in H as (ds & c & v & _ & _ & _ & ->).
  unfold dropna.
  by rewrite columns_take_frame, columns_feature_frame, columns_take_frame.
Qed.

(** *** The label *)

(** No number is less than a missing value. *)
Lemma ltb_nan_r x : (x <? nan)%float = false.
Proof.
  destruct (x <? nan)%float eqn:E; [|done].
  rewrite FloatAxioms.ltb_spec in E. change (Prim2SF nan) with S754_nan in E.
  unfold SFltb, SFcompare in E. by destruct (Prim2SF x) as [[]| [] | |[]].
Qed.

Lemma up_tomorrow_values_lookup xs i x :
  xs !! i = Some x -> up_tomorrow_values xs !! i = Some (label_of xs i x).
Proof.
  intros Hx. unfold up_tomorrow_values, shift_back, label_of.
  rewrite lookup_zip_with, lookup_drop, Hx.
  pose proof (lookup_lt_Some _ _ _ Hx) as Hlt.
  destruct (xs !! S i) as [y|] eqn:Hy.
  - rewrite lookup_app_l by (by eapply lookup_lt_Some). simpl. by rewrite Hy.
  - apply lookup_ge_None_1 in Hy.
    rewrite lookup_app_r by (simpl; lia).
    replace (1 + i - length xs)%nat with 0%nat by lia. simpl.
    by rewrite ltb_nan_r.
Qed.

(** X4.  Every row of the training frame comes from an input bar, in input
    order, and its label is 1 exactly when the close of the bar that
    follows it in the input is greater; the label of the last input bar,
    which no bar follows, is 0. *)
Theorem build_features_labels df c out :
  numeric_col df "close" = Ok c ->
  build_features df = Ok out ->
  exists idx,
    StronglySorted lt idx /\
    forall j, (j < nrows out)%nat ->
      exists r x, idx !! j = Some r /\ c !! r = Some x /\
        value_at out "target_up_tomorrow" j = Some (CInt (label_of c r x)) /\
        forall k, k ∉ DERIVED -> k ≠ "target_up_tomorrow" ->
          value_at out k j = value_at df k r.
Proof.
  intros Hc H. pose proof H as (c' & v & Hc' & _ & ->)%build_features_inv.
  rewrite Hc in Hc'. injection Hc' as <-.
  set (G := setitem (feature_frame df c v) "target_up_tomorrow"
              (IntCol (up_tomorrow_values c))).
  exists (complete_rows G). split; [apply complete_rows_sorted|].
  intros j Hj.
  pose proof (nrows_take_frame (complete_rows G) G) as Hle. fold (dropna G) in Hle.
  destruct (lookup_lt_is_Some_2 (complete_rows G) j) as [r Hr]; [lia|].
  assert (HG : lookup_col G "target_up_tomorrow" = Some (IntCol (up_tomorrow_values c))).
  { unfold G. by rewrite lookup_col_setitem, decide_True. }
  pose proof Hr as Hr'.
  apply list_elem_of_lookup_2, complete_rows_spec in Hr' as [_ Hrow].
  pose proof (complete_row_elem_of _ _ _ _ Hrow (lookup_col_elem_of _ _ _ HG)) as Hn.
  apply notna_at_is_Some in Hn as [y Hy]. simpl in Hy.
  destruct (up_tomorrow_values c !! r) as [z|] eqn:Hz; [|done].
  apply lookup_lt_Some in Hz as Hlt. rewrite up_tomorrow_values_length in Hlt.
  destruct (lookup_lt_is_Some_2 c r Hlt) as [x Hx].
  exists r, x. split; [done|]. split; [done|]. split.
  - rewrite value_at_dropna, Hr. simpl. unfold value_at. rewrite HG. simpl.
    by rewrite (up_tomorrow_values_lookup _ _ _ Hx).
  - intros k Hk Ht. rewrite value_at_dropna, Hr. simpl. unfold G.
    rewrite value_at_with_target by done. unfold value_at.
    by rewrite lookup_feature_frame_other.
Qed.

(** *** Later bars do not change earlier rows *)

Lemma slen_series_head n s : slen (series_head n s) = (n `min` slen s)%nat.
Proof. destruct s; simpl; by rewrite length_take. Qed.

Lemma lookup_col_head n df k :
  lookup_col (frame_head n df) k = series_head n <$> lookup_col df k.
Proof.
  unfold frame_head. induction df as [|[k0 s0] df IH]; simpl; [done|].
  by destruct (decide (k0 = k)).
Qed.

Lemma head_setitem n df k s :
  frame_head n (setitem df k s) = setitem (frame_head n df) k (series_head n s).
Proof.
  unfold frame_head. induction df as [|[k0 s0] df IH]; csimpl; [done|].
  destruct (decide (k0 = k)); csimpl; [done|]. by rewrite IH.
Qed.

Lemma nrows_head n df : nrows (frame_head n df) = (n `min` nrows df)%nat.
Proof. destruct df as [|[k s] df]; simpl; [lia|]. apply slen_series_head. Qed.

Lemma frame_wf_head n df : frame_wf df -> frame_wf (frame_head n df).
Proof.
  unfold frame_wf. rewrite nrows_head. intros H. unfold frame_head.
  apply Forall_fmap. eapply Forall_impl; [exact H|].
  intros [k s] Hs. simpl in *. by rewrite slen_series_head, Hs.
Qed.

Lemma as_float_series_head n s :
  as_float (series_head n s) = take n <$> as_float s.
Proof. destruct s; simpl; [done| |done]. by rewrite fmap_take. Qed.

Lemma numeric_col_head n df k xs :
  numeric_col df k = Ok xs -> numeric_col (frame_head n df) k = Ok (take n xs).
Proof.
  intros (s & Hs & Hf)%numeric_col_inv. unfold numeric_col, getitem in *.
  rewrite lookup_col_head. destruct (lookup_col df k) as [s'|]; [|done].
  injection Hs as ->. simpl. by rewrite as_float_series_head, Hf.
Qed.

Lemma shift_fwd_lookup xs i :
  (i < length xs)%nat -> shift_fwd xs !! i = (nan :: xs) !! i.
Proof. intros. unfold shift_fwd. by rewrite lookup_take_lt. Qed.

Lemma shift_fwd_take n xs : shift_fwd (take n xs) = take n (shift_fwd xs).
Proof.
  apply list_eq. intros i.
  destruct (decide (i < n `min` length xs)%nat) as [Hi|Hi].
  - rewrite shift_fwd_lookup by (rewrite length_take; lia).
    rewrite lookup_take_lt, shift_fwd_lookup by lia.
    destruct i as [|i]; [done|]. simpl. apply lookup_take_lt. lia.
  - rewrite !lookup_ge_None_2; [done| |].
    + rewrite length_take, shift_fwd_length. lia.
    + rewrite shift_fwd_length, length_take. lia.
Qed.

Lemma pct_change_values_take n xs :
  pct_change_values (take n xs) = take n (pct_change_values xs).
Proof.
  unfold pct_change_values. by rewrite zip_with_take, shift_fwd_take.
Qed.

Lemma window_take w i n xs :
  (i < n)%nat -> (w ≤ S i)%nat -> window w i (take n xs) = window w i xs.
Proof.
  intros Hi Hw. unfold window.
  rewrite skipn_firstn_comm, take_take. f_equal. lia.
Qed.

Lemma rolling_at_take w agg n xs i :
  (i < n)%nat -> rolling_at w agg (take n xs) i = rolling_at w agg xs i.
Proof.
  intros Hi. unfold rolling_at. destruct (decide (w ≤ S i)%nat); [|done].
  by rewrite window_take.
Qed.

Lemma rolling_values_take w agg n xs :
  rolling_values w agg (take n xs) = take n (rolling_values w agg xs).
Proof.
  unfold rolling_values. rewrite <-fmap_take, take_seq, length_take.
  apply list_fmap_ext. intros j i [-> Hi]%lookup_seq. simpl.
  apply rolling_at_take. lia.
Qed.

Lemma head_feature_frame n df c v :
  frame_head n (feature_frame df c v) = feature_frame (frame_head n df) (take n c) (take n v).
Proof.
  unfold feature_frame. cbv zeta. rewrite !head_setitem. simpl.
  by rewrite !zip_with_take, !rolling_values_take, !pct_change_values_take,
    !rolling_values_take.
Qed.

Lemma notna_at_series_head n s i :
  (i < n)%nat -> notna_at (series_head n s) i = notna_at s i.
Proof.
  intros Hi. unfold notna_at. destruct s; simpl; by rewrite lookup_take_lt.
Qed.

Lemma complete_row_head n df i :
  (i < n)%nat -> complete_row (frame_head n df) i = complete_row df i.
Proof.
  intros Hi. unfold complete_row, frame_head.
  induction df as [|[k s] df IH]; csimpl; [done|].
  by rewrite IH, notna_at_series_head.
Qed.

Lemma filter_ext_elem_of {A} (P Q : A -> Prop) `{!forall x, Decision (P x)}
    `{!forall x, Decision (Q x)} (l : list A) :
  (forall x, x ∈ l -> P x <-> Q x) -> filter P l = filter Q l.
Proof.
  induction l as [|a l IH]; intros Hext; [done|].
  rewrite !filter_cons, IH by (intros x Hx; apply Hext; by right).
  destruct (decide (P a)) as [HP|HP]; destruct (decide (Q a)) as [HQ|HQ]; try done.
  - destruct HQ. apply Hext; [left|done].
  - destruct HP. apply Hext; [left|done].
Qed.

Lemma complete_rows_head n df :
  complete_rows (frame_head n df)
  = filter (fun i => complete_row df i = true) (take n (seq 0 (nrows df))).
Proof.
  unfold complete_rows. rewrite nrows_head, take_seq.
  apply filter_ext_elem_of. intros i [_ Hi]%elem_of_seq.
  rewrite complete_row_head; [done|lia].
Qed.

Lemma take_rows_series_head idx n s :
  Forall (fun r => r < n)%nat idx -> take_rows idx (series_head n s) = take_rows idx s.
Proof.
  intros H. destruct s; simpl; f_equal; apply Forall_fmap_ext;
    (eapply Forall_impl; [exact H|]); intros r Hr; simpl; by rewrite lookup_take_lt.
Qed.

Lemma series_head_take_rows m idx s :
  series_head m (take_rows idx s) = take_rows (take m idx) s.
Proof. destruct s; simpl; by rewrite fmap_take. Qed.

(** Dropping incomplete rows of the first [n] rows gives the first rows
    of what it gives on all rows. *)
Lemma dropna_head n df :
  dropna (frame_head n df) = frame_head (length (complete_rows (frame_head n df))) (dropna df).
Proof.
  unfold dropna. rewrite complete_rows_head.
  set (Q := fun i => complete_row df i = true).
  set (crn := filter Q (take n (seq 0 (nrows df)))).
  assert (Hlt : Forall (fun r => r < n)%nat crn).
  { apply Forall_forall. intros r [_ Hr]%list_elem_of_filter.
    rewrite take_seq in Hr. apply elem_of_seq in Hr. lia. }
  assert (Hcr : take (length crn) (complete_rows df) = crn).
  { unfold complete_rows. fold Q.
    rewrite <-(take_drop n (seq 0 (nrows df))) at 1.
    rewrite filter_app. fold crn. by rewrite take_app_length. }
  unfold frame_head, take_frame. rewrite <-!list_fmap_compose.
  apply list_fmap_ext. intros _ [k s] _. unfold prod_map. simpl. f_equal.
  by rewrite take_rows_series_head, series_head_take_rows, Hcr.
Qed.

Lemma StronglySorted_take {A} (R : relation A) n l :
  StronglySorted R l -> StronglySorted R (take n l).
Proof.
  intros Hs. apply StronglySorted_by_lookup. intros i j x y Hi Hj Hlt.
  apply lookup_take_Some in Hi as [Hi _]. apply lookup_take_Some in Hj as [Hj _].
  by eapply StronglySorted_lookup.
Qed.

Lemma engineer_features_ascending df days c v :
  frame_wf df ->
  lookup_col df "day" = Some (DateCol (Some <$> days)) ->
  StronglySorted Z.lt days ->
  numeric_col df "close" = Ok c -> numeric_col df "volume" = Ok v ->
  engineer_features df = Ok (dropna (feature_frame df c v)).
Proof.
  intros Hwf Hd Hs Hc Hv.
  pose proof (sorted_frame_ascending _ _ Hwf Hd Hs) as Hsort.
  rewrite (engineer_features_eq df _ c v Hd); by rewrite Hsort.
Qed.

(** X6.  On bars in strictly ascending day order, the inference rows of the
    first [n] bars are the first rows of the inference frame of all bars:
    bars that come later change no earlier feature row. *)
Theorem engineer_features_prefix df days n out :
  frame_wf df ->
  lookup_col df "day" = Some (DateCol (Some <$> days)) ->
  StronglySorted Z.lt days ->
  engineer_features df = Ok out ->
  exists out_n,
    engineer_features (frame_head n df) = Ok out_n /\
    out_n = frame_head (nrows out_n) out.
Proof.
  intros Hwf Hd Hs H.
  pose proof H as (ds & c & v & Hd' & Hc & Hv & _)%engineer_features_inv.
  rewrite Hd in Hd'. injection Hd' as <-.
  rewrite (sorted_frame_ascending _ _ Hwf Hd Hs) in Hc, Hv.
  rewrite (engineer_features_ascending _ _ _ _ Hwf Hd Hs Hc Hv) in H.
  injection H as <-.
  eexists. split.
  - apply (engineer_features_ascending (frame_head n df) (take n days)).
    + by apply frame_wf_head.
    + rewrite lookup_col_head, Hd. simpl. by rewrite fmap_take.
    + by apply StronglySorted_take.
    + by apply numeric_col_head.
    + by apply numeric_col_head.
  - rewrite <-head_feature_frame.
    set (F := feature_frame df c v).
    assert (Hn : nrows (dropna (frame_head n F)) = length (complete_rows (frame_head n F))).
    { unfold dropna. apply nrows_take_frame_cons.
      unfold frame_head, F, feature_frame. intros E%fmap_nil_inv.
      by eapply setitem_nonempty. }
    rewrite Hn. apply dropna_head.
Qed.

(** *** What the fetchers hand on *)

(** The day column of a frame sorted by day. *)
Lemma sorted_frame_days df ds :
  lookup_col df "day" = Some (DateCol ds) ->
  let out := take_frame (merge_sort (key_le (DateCol ds)) (seq 0 (nrows df))) df in
  columns out = columns df /\ nrows out = nrows df /\
  exists ds', lookup_col out "day" = Some (DateCol ds') /\ StronglySorted day_le ds'.
Proof.
  intros Hd out. split; [apply columns_take_frame|]. split.
  { apply nrows_sorted. intros ->. done. }
  eexists. split.
  { unfold out. rewrite lookup_col_take_frame, Hd. reflexivity. }
  apply StronglySorted_fmap with (R1 := key_le (DateCol ds));
    [|apply sorted_rows_by_day].
  intros r1 r2. unfold key_le, day_le. simpl.
  destruct (ds !! r1) as [a|], (ds !! r2) as [b|]; simpl; try done.
  by destruct a.
Qed.

(** X7.  A frame the training fetcher returns has the columns of the
    platform's table and as many rows, at least one, ordered by day with
    missing days last; the platform did not answer with a 4xx or 5xx
    status. *)
Theorem fetch_daily_bars_sorted symbol start end_ df :
  fetch_daily_bars symbol start end_ = Ok df ->
  let r := platform symbol start end_ in
  ¬ (400 ≤ status_code r < 600) /\
  columns df = columns (data r) /\
  nrows df = nrows (data r) /\ (0 < nrows df)%nat /\
  exists ds, lookup_col df "day" = Some (DateCol ds) /\ StronglySorted day_le ds.
Proof.
  unfold fetch_daily_bars. cbv zeta.
  case_bool_decide as Hst; [done|].
  unfold no_records. case_bool_decide as Hn; [done|]. intros H.
  destruct (lookup_col (data (platform symbol start end_)) "day") as [s|] eqn:Hd.
  2: { unfold getitem in H. by rewrite Hd in H. }
  rewrite (getitem_lookup _ _ _ Hd) in H.
  destruct s as [?|?|ds]; [done..|].
  pose proof (sort_by_day _ _ Hd) as Hsort.
  rewrite (getitem_lookup _ _ _ Hd) in Hsort. rewrite Hsort in H. injection H as <-.
  destruct (sorted_frame_days _ _ Hd) as (Hcols & Hrows & Hdays).
  split; [done|]. split; [done|]. split; [done|]. split; [lia|done].
Qed.

(** X8.  A frame the serving fetcher returns has the columns of the
    platform's table, a close column among them, and as many rows, at
    least one; the platform answered with status 200.  Without a day
    column the table is handed on as it is; with one, the rows are ordered
    by day. *)
Theorem fetch_bars_sorted symbol from_ to_ df :
  fetch_bars symbol from_ to_ = Ok df ->
  let r := platform (upper symbol) from_ to_ in
  status_code r = 200 /\
  columns df = columns (data r) /\
  nrows df = nrows (data r) /\ (0 < nrows df)%nat /\
  "close" ∈ columns df /\
  ((("day" ∉ columns (data r)) /\ df = data r) \/
   (exists ds, lookup_col df "day" = Some (DateCol ds) /\ StronglySorted day_le ds)).
Proof.
  unfold fetch_bars. cbv zeta.
  case_bool_decide as Hst; [done|].
  unfold no_records. case_bool_decide as Hn; [done|].
  case_bool_decide as Hclose; [done|].
  case_bool_decide as Hday.
  - intros H. apply lookup_col_is_Some in Hday as [s Hd].
    rewrite (getitem_lookup _ _ _ Hd) in H.
    destruct s as [?|?|ds]; [done..|].
    pose proof (sort_by_day _ _ Hd) as Hsort.
    rewrite (getitem_lookup _ _ _ Hd) in Hsort. rewrite Hsort in H. injection H as <-.
    destruct (sorted_frame_days _ _ Hd) as (Hcols & Hrows & Hdays).
    split; [done|]. split; [done|]. split; [done|]. split; [lia|].
    split; [by rewrite Hcols|]. by right.
  - intros [= <-]. split; [done|]. split; [done|]. split; [done|]. split; [lia|].
    split; [done|]. by left.
Qed.

(** [engineer_features] needs the day column [fetch_bars] does without. *)
Lemma engineer_features_needs_day df :
  "day" ∉ columns df -> engineer_features df = Raise (KeyError "day").
Proof.
  intros Hd. unfold engineer_features, copy, getitem.
  destruct (lookup_col df "day") eqn:E; [|done].
  destruct Hd. apply lookup_col_is_Some. by rewrite E.
Qed.

(** *** The response of the prediction endpoint *)

Lemma predict_inv fs req resp :
  predict fs req = Ok resp ->
  exists path m meta cols_json df df_feat cols ax,
    model_path_for fs req (upper (req_symbol req)) = Ok path /\
    joblib_load fs path = Ok m /\
    load_meta_for_model fs path = Ok meta /\
    meta_get meta "feature_columns" = Ok (Some cols_json) /\
    truthy cols_json = true /\
    fetch_bars (upper (req_symbol req)) (req_from_date req) (req_to_date req) = Ok df /\
    engineer_features df = Ok df_feat /\
    (1 ≤ nrows df_feat)%nat /\
    column_names cols_json = Ok cols /\
    pick_latest_row_features df_feat cols = Ok ax /\
    resp = {| resp_symbol := upper (req_symbol req);
              model_file := basename path;
              resp_as_of := ax.1;
              prob_up := round6 (predict_proba_up m ax.2);
              predicted := if (0.5 <=? predict_proba_up m ax.2)%float then 1 else 0 |}.
Proof.
  unfold predict. cbv zeta. intros H.
  destruct (model_path_for fs req _) as [path|] eqn:Hpath; simpl in H; [|done].
  destruct (joblib_load fs path) as [m|] eqn:Hm; simpl in H; [|done].
  destruct (load_meta_for_model fs path) as [meta|] eqn:Hmeta; simpl in H; [|done].
  destruct (meta_get meta "feature_columns") as [[cols_json|]|] eqn:Hget;
    simpl in H; [|done..].
  destruct (truthy cols_json) eqn:Ht; [|done].
  destruct (fetch_bars _ _ _) as [df|] eqn:Hdf; simpl in H; [|done].
  destruct (engineer_features df) as [df_feat|] eqn:Hfeat; simpl in H; [|done].
  case_bool_decide as Hn; [done|].
  destruct (column_names cols_json) as [cols|] eqn:Hcols; simpl in H; [|done].
  destruct (pick_latest_row_features df_feat cols) as [ax|] eqn:Hpick; simpl in H; [|done].
  injection H as <-.
  exists path, m, meta, cols_json, df, df_feat, cols, ax.
  repeat split; try done. lia.
Qed.

Lemma mapM_result_length {A B} (f : A -> result B) l bs :
  mapM f l = Ok bs -> length bs = length l.
Proof.
  revert bs. induction l as [|a l IH]; intros bs; simpl.
  - by intros [= <-].
  - destruct (f a) as [b|]; simpl; [|done].
    destruct (mapM f l) as [bs'|]; simpl; [|done].
    intros [= <-]. simpl. by rewrite (IH bs').
Qed.

Lemma engineer_features_wf df out : engineer_features df = Ok out -> frame_wf out.
Proof.
  intros (ds & c & v & _ & _ & _ & ->)%engineer_features_inv. apply take_frame_wf.
Qed.

(** The stamp of a frame whose day column holds no missing day. *)
Lemma pick_latest_row_features_stamp df_feat days cols ax :
  frame_wf df_feat ->
  lookup_col df_feat "day" = Some (DateCol (Some <$> days)) ->
  pick_latest_row_features df_feat cols = Ok ax ->
  exists d, last days = Some d /\ ax.1 = AsOfDate (Some d) /\
            length ax.2 = length cols.
Proof.
  intros Hwf Hd. unfold pick_latest_row_features.
  case_bool_decide as Hm; [done|].
  unfold iloc_last. destruct (nrows df_feat) as [|i] eqn:Hn; [done|].
  destruct (iloc_row df_feat i) as [row|] eqn:Hrow; [|done]. simpl.
  rewrite bool_decide_true by (apply lookup_col_is_Some; by rewrite Hd).
  destruct (iloc_row_get _ _ _ _ _ Hrow Hd) as (v & Hv & ->). simpl in *.
  rewrite list_lookup_fmap in Hv.
  destruct (days !! i) as [d|] eqn:Hi; [|done]. simpl in Hv. injection Hv as <-.
  simpl. destruct (mapM _ cols) as [x|] eqn:Hx; simpl; [|done].
  intros [= <-]. exists d. split; [|split; [done|]].
  - rewrite last_lookup. rewrite <-Hi. f_equal.
    apply lookup_col_elem_of in Hd. unfold frame_wf in Hwf.
    rewrite Forall_forall in Hwf. specialize (Hwf _ Hd). simpl in Hwf.
    rewrite length_fmap in Hwf. lia.
  - simpl. by eapply mapM_result_length.
Qed.

Lemma mapM_result_inv {A B} (f : A -> result B) l bs :
  mapM f l = Ok bs -> Forall2 (fun a b => f a = Ok b) l bs.
Proof.
  revert bs. induction l as [|a l IH]; intros bs; simpl.
  - intros [= <-]. constructor.
  - destruct (f a) as [b|] eqn:Hb; simpl; [|done].
    destruct (mapM f l) as [bs'|]; simpl; [|done].
    intros [= <-]. constructor; [done|]. by apply IH.
Qed.

(** A value read off a row is the value of its column at that position. *)
Lemma row_get_value_at df i row c v :
  iloc_row df i = Some row -> row_get row c = Ok v -> value_at df c i = Some v.
Proof.
  unfold value_at. revert row. induction df as [|[k0 s0] df IH]; intros row.
  - by intros [= <-].
  - rewrite iloc_row_cons. simpl.
    destruct (iloc s0 i) as [v0|] eqn:Hv0; simpl; [|done].
    destruct (iloc_row df i) as [row0|]; simpl; [|done].
    intros [= <-]. simpl. destruct (decide (k0 = c)) as [->|].
    + by intros [= <-].
    + by apply IH.
Qed.

(** The vector handed to the model: the last row's values, read as
    numbers, in the order of the schema. *)
Lemma pick_latest_row_features_vector df_feat cols ax :
  pick_latest_row_features df_feat cols = Ok ax ->
  Forall2 (fun c y => exists v, value_at df_feat c (nrows df_feat - 1) = Some v /\
                                to_float v = Ok y)
    cols ax.2.
Proof.
  unfold pick_latest_row_features. case_bool_decide as Hm; [done|].
  unfold iloc_last. destruct (nrows df_feat) as [|i] eqn:Hn; [done|].
  destruct (iloc_row df_feat i) as [row|] eqn:Hrow; [|done]. simpl.
  destruct (if bool_decide ("day" ∈ columns df_feat)
            then row_get row "day" ≫= date_of else Ok AsOfLatest) as [stamp|];
    simpl; [|done].
  destruct (mapM _ cols) as [x|] eqn:Hx; simpl; [|done].
  intros [= <-]. simpl. apply mapM_result_inv in Hx.
  rewrite Nat.sub_0_r.
  eapply Forall2_impl; [exact Hx|]. cbv beta. intros c y Hc.
  destruct (row_get row c) as [v|] eqn:Hv; simpl in Hc; [|done].
  exists v. split; [|done]. eapply row_get_value_at; [exact Hrow|exact Hv].
Qed.

(** X9.  A response of the prediction endpoint names the request's symbol
    in upper case and the base name of the model file it resolved and
    loaded.  Its as-of stamp is a date, never the literal "latest": the
    last and greatest day of the inference frame.  Its probability is the
    model's, rounded, on the vector [pick_latest_row_features] returns
    for the schema of the metadata: the values of the frame's last row,
    read as numbers, in schema order; and its label is 1 exactly when
    that probability, unrounded, is at least 0.5. *)
Theorem predict_response fs req resp :
  predict fs req = Ok resp ->
  resp_symbol resp = upper (req_symbol req) /\
  exists path m meta cols_json cols df df_feat days d x,
    model_path_for fs req (upper (req_symbol req)) = Ok path /\
    joblib_load fs path = Ok m /\
    model_file resp = basename path /\
    load_meta_for_model fs path = Ok meta /\
    meta_get meta "feature_columns" = Ok (Some cols_json) /\
    column_names cols_json = Ok cols /\
    fetch_bars (upper (req_symbol req)) (req_from_date req) (req_to_date req) = Ok df /\
    engineer_features df = Ok df_feat /\
    lookup_col df_feat "day" = Some (DateCol (Some <$> days)) /\
    StronglySorted Z.le days /\
    last days = Some d /\
    pick_latest_row_features df_feat cols = Ok (AsOfDate (Some d), x) /\
    Forall2 (fun c y => exists v, value_at df_feat c (nrows df_feat - 1) = Some v /\
                                  to_float v = Ok y)
      cols x /\
    resp_as_of resp = AsOfDate (Some d) /\
    prob_up resp = round6 (predict_proba_up m x) /\
    predicted resp = (if (0.5 <=? predict_proba_up m x)%float then 1 else 0).
Proof.
  intros (path & m & meta & cols_json & df & df_feat & cols & ax & Hpath & Hm & Hmeta
          & Hget & _ & Hdf & Hfeat & _ & Hcols & Hpick & ->)%predict_inv.
  split; [done|].
  destruct (engineer_features_day_column _ _ Hfeat) as (days & Hd & Hs).
  destruct (pick_latest_row_features_stamp _ _ _ _ (engineer_features_wf _ _ Hfeat)
              Hd Hpick) as (d & Hl & Hst & _).
  pose proof (pick_latest_row_features_vector _ _ _ Hpick) as Hvec.
  destruct ax as [stamp x]. simpl in *. subst stamp.
  exists path, m, meta, cols_json, cols, df, df_feat, days, d, x.
  by repeat split.
Qed.

(** *** Model and metadata paths *)

Lemma all_chars_app P a b : all_chars P (a +:+ b) = all_chars P a && all_chars P b.
Proof. induction a as [|c a IH]; simpl; [done|]. by rewrite IH, andb_assoc. Qed.

Lemma prefix_cons a s1 b s2 :
  String.prefix (String a s1) (String b s2)
  = if ascii_dec a b then String.prefix s1 s2 else false.
Proof. reflexivity. Qed.

Lemma prefix_l_false s : all_chars not_l s = true -> String.prefix "l" s = false.
Proof.
  destruct s as [|c s]; [done|]. cbn [all_chars]. intros [Hc _]%andb_true_iff.
  rewrite prefix_cons. destruct (ascii_dec "l" c) as [<-|]; [by vm_compute in Hc|done].
Qed.

Lemma ul_free_app_no_underscore a b :
  all_chars not_underscore a = true -> ul_free (a +:+ b) = ul_free b.
Proof.
  induction a as [|c a IH]; [done|]. cbn [all_chars]. intros [Hc Ha]%andb_true_iff.
  change (String c a +:+ b) with (String c (a +:+ b)). cbn [ul_free].
  rewrite IH by done. unfold not_underscore in Hc.
  apply negb_true_iff in Hc. by rewrite Hc.
Qed.

Lemma ul_free_app_no_l a b :
  all_chars not_l a = true -> String.prefix "l" b = false ->
  ul_free (a +:+ b) = ul_free b.
Proof.
  intros Ha Hb. induction a as [|c a IH]; [done|].
  cbn [all_chars] in Ha. apply andb_true_iff in Ha as [Hc Ha].
  change (String c a +:+ b) with (String c (a +:+ b)). cbn [ul_free].
  rewrite IH by done.
  assert (String.prefix "l" (a +:+ b) = false) as ->.
  { destruct a as [|c' a]; [exact Hb|].
    change (String c' a +:+ b) with (String c' (a +:+ b)). rewrite prefix_cons.
    cbn [all_chars] in Ha. apply andb_true_iff in Ha as [Hc' _].
    destruct (ascii_dec "l" c') as [<-|]; [by vm_compute in Hc'|done]. }
  by rewrite andb_false_r.
Qed.

Lemma ascii_upper_not_l c : not_l (ascii_upper c) = true.
Proof. destruct c as [[] [] [] [] [] [] [] []]; reflexivity. Qed.

Lemma upper_not_l s : all_chars not_l (upper s) = true.
Proof. induction s as [|c s IH]; simpl; [done|]. by rewrite ascii_upper_not_l. Qed.

Lemma pretty_N_char_not_l y : not_l (pretty_N_char y) = true.
Proof.
  destruct y as [|p]; [done|].
  repeat (destruct p as [p|p|]; try reflexivity).
Qed.

Lemma pretty_N_go_not_l x s :
  all_chars not_l s = true -> all_chars not_l (pretty_N_go x s) = true.
Proof.
  revert s. induction (N.lt_wf_0 x) as [x _ IH]. intros s Hs.
  destruct (decide (x = 0%N)) as [->|Hx]; [by rewrite pretty_N_go_0|].
  rewrite pretty_N_go_step by lia. apply IH.
  - apply N.div_lt; lia.
  - simpl. by rewrite pretty_N_char_not_l.
Qed.

Lemma pretty_nat_not_l (n : nat) : all_chars not_l (pretty n) = true.
Proof.
  unfold pretty, pretty_nat, pretty, pretty_N.
  destruct (decide (N.of_nat n = 0%N)); [done|]. by apply pretty_N_go_not_l.
Qed.

Lemma zeros_not_l k : all_chars not_l (String.concat "" (replicate k "0")) = true.
Proof.
  induction k as [|k IH]; [done|]. simpl replicate.
  destruct k as [|k]; [done|].
  change (String.concat "" ("0" :: replicate (S k) "0"))
    with ("0" +:+ "" +:+ String.concat "" (replicate (S k) "0")).
  by rewrite !all_chars_app, IH.
Qed.

Lemma zero_pad_not_l w n : all_chars not_l (zero_pad w n) = true.
Proof.
  unfold zero_pad. cbv zeta. by rewrite all_chars_app, zeros_not_l, pretty_nat_not_l.
Qed.

Lemma strftime_not_l t : all_chars not_l (strftime t) = true.
Proof. unfold strftime. by rewrite !all_chars_app, !zero_pad_not_l. Qed.

Lemma prefix_old_cons c r :
  String.prefix "_logreg.joblib" (String c r) = true ->
  c = "_"%char /\ String.prefix "l" r = true.
Proof.
  rewrite prefix_cons. destruct (ascii_dec "_" c) as [<-|]; [|done].
  destruct r as [|c' r]; [done|]. rewrite !prefix_cons.
  destruct (ascii_dec "l" c') as [<-|]; [|done].
  intros _. split; [done|]. by destruct r.
Qed.

(** The replacement [load_meta_for_model] makes, on a path whose stem
    holds no other occurrence of the model suffix. *)
Lemma replace_model_suffix p :
  ul_free (p +:+ "_") = true ->
  replace "_logreg.joblib" "_meta.json" (p +:+ "_logreg.joblib") = p +:+ "_meta.json".
Proof.
  unfold replace. induction p as [|c p IH]; [done|]. intros H.
  change (ul_free (String c (p +:+ "_")) = true) in H. simpl in H.
  apply andb_true_iff in H as [Hc Hp].
  change (String c p +:+ "_logreg.joblib") with (String c (p +:+ "_logreg.joblib")).
  cbn [replace_from].
  destruct (String.prefix "_logreg.joblib" (String c (p +:+ "_logreg.joblib"))) eqn:E.
  - exfalso. apply prefix_old_cons in E as [-> E].
    assert (String.prefix "l" (p +:+ "_") = true) as Hl.
    { destruct p as [|c' p]; [by vm_compute in E|].
      change (String c' p +:+ "_") with (String c' (p +:+ "_")).
      change (String c' p +:+ "_logreg.joblib")
        with (String c' (p +:+ "_logreg.joblib")) in E.
      rewrite prefix_cons in *. destruct (ascii_dec "l" c'); [|done].
      by destruct p. }
    by rewrite Hl in Hc.
  - change (String c p +:+ "_meta.json") with (String c (p +:+ "_meta.json")).
    f_equal. by apply IH.
Qed.

Lemma string_app_assoc (a b c : string) : (a +:+ b) +:+ c = a +:+ (b +:+ c).
Proof.
  induction a as [|x a IH]; [done|].
  change (String x ((a +:+ b) +:+ c) = String x (a +:+ (b +:+ c))). by rewrite IH.
Qed.

Lemma artifact_path_meta symbol t :
  replace "_logreg.joblib" "_meta.json" (artifact_path "ml/models/" symbol t)
  = "ml/models/" +:+ upper symbol +:+ "_" +:+ strftime t +:+ "_meta.json".
Proof.
  unfold artifact_path.
  rewrite <-!string_app_assoc, replace_model_suffix; [done|].
  rewrite !string_app_assoc.
  rewrite ul_free_app_no_underscore by reflexivity.
  rewrite ul_free_app_no_l; [| apply upper_not_l | reflexivity].
  change ("_" +:+ strftime t +:+ "_") with (String "_" (strftime t +:+ "_")).
  cbn [ul_free].
  rewrite prefix_l_false by (by rewrite all_chars_app, strftime_not_l).
  rewrite ul_free_app_no_l; [done | apply strftime_not_l | reflexivity].
Qed.

Lemma artifact_paths_differ symbol t :
  artifact_path "ml/models/" symbol t
  ≠ "ml/models/" +:+ upper symbol +:+ "_" +:+ strftime t +:+ "_meta.json".
Proof.
  unfold artifact_path. intros H. by repeat apply String.app_inj in H.
Qed.

(** *** The two files of an artifact *)

Lemma main_inv args t fs fs' :
  main args t fs = Ok fs' ->
  exists raw feat res,
    fetch_daily_bars (arg_symbol args) (from_date args) (to_date args) = Ok raw /\
    build_features raw = Ok feat /\
    train_timeseries_model feat FEATURE_COLS = Ok res /\
    fs' = save_artifact fs (arg_symbol args) (strftime t) (from_date args) (to_date args)
            FEATURE_COLS res.
Proof.
  unfold main. intros H.
  destruct (fetch_daily_bars _ _ _) as [raw|] eqn:Hraw; [|done].
  simpl in H.
  destruct (build_features raw) as [feat|] eqn:Hfeat; [|done]. simpl in H.
  destruct (train_timeseries_model _ _) as [res|] eqn:Hres;
    [|done].
  simpl in H. injection H as <-. by exists raw, feat, res.
Qed.

(** X12.  After a training run at clock [t], the model path of that second
    loads the fitted pipeline, and the metadata the serving side looks up
    for that path is the document the run wrote, with the symbol in upper
    case, the date range and the schema under "feature_cols"; every other
    file is as it was. *)
Theorem main_artifact_round_trip args t fs fs' :
  main args t fs = Ok fs' ->
  let path := artifact_path "ml/models/" (arg_symbol args) t in
  let meta_path := replace "_logreg.joblib" "_meta.json" path in
  exists m fields,
    joblib_load fs' path = Ok m /\
    load_meta_for_model fs' path = Ok (JObj fields) /\
    dict_get fields "symbol" = Some (JStr (upper (arg_symbol args))) /\
    dict_get fields "from" = Some (JStr (from_date args)) /\
    dict_get fields "to" = Some (JStr (to_date args)) /\
    dict_get fields "feature_cols" = Some (JArr (JStr <$> FEATURE_COLS)) /\
    forall p, p ≠ path -> p ≠ meta_path -> fs' !! p = fs !! p.
Proof.
  intros (raw & feat & res & _ & _ & _ & ->)%main_inv path meta_path.
  unfold meta_path, path, joblib_load, load_meta_for_model.
  rewrite artifact_path_meta. unfold save_artifact. cbv zeta.
  fold (artifact_path "ml/models/" (arg_symbol args) t).
  pose proof (artifact_paths_differ (arg_symbol args) t) as Hne.
  eexists _, _. rewrite lookup_insert_ne by done. rewrite !lookup_insert_eq.
  repeat split; try reflexivity.
  intros p Hp Hmeta. by rewrite !lookup_insert_ne.
Qed.

(** X13.  Two training runs of one symbol at the same second, whatever the
    case of the symbol, write the same two paths: the store holds the
    second run's artifact only. *)
Theorem save_artifact_same_second fs s1 s2 ts f1 t1 c1 r1 f2 t2 c2 r2 :
  upper s1 = upper s2 ->
  save_artifact (save_artifact fs s1 ts f1 t1 c1 r1) s2 ts f2 t2 c2 r2
  = save_artifact fs s2 ts f2 t2 c2 r2.
Proof.
  intros Hs. unfold save_artifact. cbv zeta. rewrite Hs.
  set (mp := "ml/models/" +:+ upper s2 +:+ "_" +:+ ts +:+ "_logreg.joblib").
  set (jp := "ml/models/" +:+ upper s2 +:+ "_" +:+ ts +:+ "_meta.json").
  assert (mp ≠ jp) as Hne.
  { unfold mp, jp. intros H. by repeat apply String.app_inj in H. }
  rewrite (insert_insert_ne _ mp jp) by done.
  by rewrite !insert_insert_eq.
Qed.

(** X10.  With a pinned model path the prediction endpoint reads two files
    of the store, the model and its metadata, and nothing else. *)
Theorem predict_pinned_reads_two_files fs1 fs2 req p :
  req_model_path req = Some p -> p ≠ "" ->
  fs1 !! p = fs2 !! p ->
  fs1 !! replace "_logreg.joblib" "_meta.json" p
  = fs2 !! replace "_logreg.joblib" "_meta.json" p ->
  predict fs1 req = predict fs2 req.
Proof.
  intros Hp Hne H1 H2.
  unfold predict, model_path_for. rewrite Hp.
  rewrite bool_decide_true by done. simpl.
  unfold joblib_load, load_meta_for_model. by rewrite H1, H2.
Qed.

(** X11.  A model whose metadata file is missing is answered with status
    500 and the "Meta file not found" cause; metadata that lacks
    "feature_columns", or holds an empty or null value there, is
    answered with status 500 and the missing-schema detail.  Both answers
    come before any bar is fetched. *)
Theorem predict_incomplete_artifact fs req path m :
  model_path_for fs req (upper (req_symbol req)) = Ok path ->
  joblib_load fs path = Ok m ->
  let meta_path := replace "_logreg.joblib" "_meta.json" path in
  (fs !! meta_path = None ->
   predict fs req
   = Raise (HTTPException 500
              (FailedToLoadModelMeta
                 (FileNotFoundError ("Meta file not found: " +:+ meta_path))))) /\
  (forall fields,
     fs !! meta_path = Some (JsonFile (JObj fields)) ->
     match dict_get fields "feature_columns" with
     | Some v => truthy v = false
     | None => True
     end ->
     predict fs req = Raise (HTTPException 500 MetaMissingFeatureColumns)).
Proof.
  intros Hpath Hm meta_path. split.
  - intros Hnone. unfold predict. rewrite Hpath. simpl. rewrite Hm. simpl.
    unfold load_meta_for_model. fold meta_path. by rewrite Hnone.
  - intros fields Hmeta Hf. unfold predict. rewrite Hpath. simpl.
    rewrite Hm. simpl.
    unfold load_meta_for_model. fold meta_path. rewrite Hmeta. simpl.
    destruct (dict_get fields "feature_columns") as [v|]; [|done]. by rewrite Hf.
Qed.

(** *** What training returns *)

Lemma cv_loop_app X y l1 l2 st :
  cv_loop X y (l1 ++ l2) st = cv_loop X y l1 st ≫= cv_loop X y l2.
Proof.
  revert st. induction l1 as [|[tr te] l1 IH]; intros st; [done|].
  simpl. destruct (fit _ _) as [p|]; simpl; [|done]. apply IH.
Qed.

Lemma cv_loop_total X y folds st :
  (forall X' y', exists p, fit X' y' = Ok p) ->
  exists st', cv_loop X y folds st = Ok st'.
Proof.
  intros Hfit. revert st. induction folds as [|[tr te] folds IH]; intros st; simpl.
  - by eexists.
  - destruct (Hfit (index_rows [] X tr) (index_rows 0 y tr)) as [p ->]. simpl.
    apply IH.
Qed.

(** What the loop leaves: each fold fitted on its training rows, the
    scores extended by the fold accuracies in order, and the report and
    the matrix of the last fold. *)
Lemma cv_loop_inv X y folds st st' :
  cv_loop X y folds st = Ok st' ->
  exists ps,
    Forall2 (fun fd p => fit (index_rows [] X fd.1) (index_rows 0 y fd.1) = Ok p)
      folds ps /\
    fold_scores st'
    = fold_scores st ++
      zip_with (fun fd p => accuracy_score (index_rows 0 y fd.2)
                              (predict_labels p (index_rows [] X fd.2)))
        folds ps /\
    (folds ≠ [] ->
     exists fd p,
       last folds = Some fd /\ last ps = Some p /\
       last_fold_report st'
       = Some (classification_report (index_rows 0 y fd.2)
                 (predict_labels p (index_rows [] X fd.2))) /\
       last_fold_cm st'
       = Some (confusion_matrix (index_rows 0 y fd.2)
                 (predict_labels p (index_rows [] X fd.2)))).
Proof.
  revert st'. induction folds as [|[tr te] folds IH] using rev_ind; intros st'.
  - simpl. intros [= <-]. exists []. split; [constructor|].
    split; [by rewrite app_nil_r|done].
  - rewrite cv_loop_app.
    destruct (cv_loop X y folds st) as [st0|] eqn:H0; [|done].
    destruct (IH st0 eq_refl) as (ps & Hps & Hsc & _).
    unfold mbind, result_bind. simpl.
    destruct (fit _ _) as [p|] eqn:Hp; simpl; [|done]. intros [= <-]. simpl.
    exists (ps ++ [p]). split; [|split].
    + apply Forall2_app; [done|]. by constructor.
    + rewrite Hsc, <-app_assoc. f_equal.
      rewrite zip_with_app by (by eapply Forall2_length). done.
    + intros _. exists (tr, te), p. by rewrite !last_snoc.
Qed.

(** X14.  When training returns, the frame had at least 6 rows and the
    splitter gave 5 folds.  Each fold was fitted on its training rows; the
    mean and the deviation returned are those of the 5 accuracies, in fold
    order, of each fold's pipeline on that fold's test rows.  The model
    returned is the pipeline fitted on all rows, not a fold's; and the
    report and the confusion matrix are those of the last fold, which
    fits on all rows but the last [n / 6] and tests on those. *)
Theorem train_timeseries_model_result df_feat feature_cols res :
  train_timeseries_model df_feat feature_cols = Ok res ->
  exists X y folds ps,
    values df_feat feature_cols = Ok X /\
    getitem df_feat "target_up_tomorrow" ≫= labels = Ok y /\
    (6 ≤ length X)%nat /\
    TimeSeriesSplit_split 5 (length X) = Ok folds /\
    length folds = 5%nat /\
    Forall2 (fun fd p => fit (index_rows [] X fd.1) (index_rows 0 y fd.1) = Ok p)
      folds ps /\
    let y_test (fd : fold) := index_rows 0 y fd.2 in
    let preds (fd : fold) p := predict_labels p (index_rows [] X fd.2) in
    let scores := zip_with (fun fd p => accuracy_score (y_test fd) (preds fd p))
                    folds ps in
    length scores = 5%nat /\
    cv_accuracy_mean res = np_mean scores /\
    cv_accuracy_std res = np_std scores /\
    fit X y = Ok (model res) /\
    let n := length X in
    let test_size := (n `div` 6)%nat in
    exists fd p,
      last folds = Some fd /\ last ps = Some p /\
      fd = (seq 0 (n - test_size), seq (n - test_size) test_size) /\
      last_report res = Some (classification_report (y_test fd) (preds fd p)) /\
      last_confusion_matrix res = Some (confusion_matrix (y_test fd) (preds fd p)).
Proof.
  unfold train_timeseries_model. intros H.
  destruct (values df_feat feature_cols) as [X|] eqn:HX; simpl in H; [|done].
  destruct (getitem df_feat "target_up_tomorrow" ≫= labels) as [y|] eqn:Hy;
    simpl in H; [|done].
  destruct (TimeSeriesSplit_split 5 (length X)) as [folds|] eqn:Hf; simpl in H; [|done].
  destruct (cv_loop X y folds _) as [st|] eqn:Hcv; simpl in H;
    [|done].
  destruct (fit X y) as [pl|] eqn:Hfit; simpl in H; [|done]. injection H as <-.
  pose proof (TimeSeriesSplit_split_inv _ _ _ Hf) as [Hn Hfolds].
  assert (Hlen : length folds = 5%nat) by (by rewrite Hfolds, length_fmap, length_seq).
  destruct (cv_loop_inv _ _ _ _ _ Hcv) as (ps & Hps & Hsc & Hlast).
  simpl in Hsc.
  destruct Hlast as (fd & p & Hfd & Hp & Hrep & Hcm); [by destruct folds|].
  assert (Hfd' : fd = (seq 0 (length X - length X `div` 6),
                       seq (length X - length X `div` 6) (length X `div` 6))).
  { assert (Hl : last folds
                 = Some (seq 0 (length X - length X `div` 6),
                         seq (length X - length X `div` 6) (length X `div` 6))).
    { rewrite Hfolds. change (seq 0 5) with ([0; 1; 2; 3] ++ [4])%nat.
      rewrite fmap_app, list_fmap_singleton, last_snoc.
      cbv beta zeta. change (5 + 1)%nat with 6%nat.
      pose proof (Nat.Div0.mul_div_le (length X) 6) as Hd.
      replace (length X - 5 * (length X `div` 6) + 4 * (length X `div` 6))%nat
        with (length X - length X `div` 6)%nat by lia.
      done. }
    congruence. }
  exists X, y, folds, ps. cbv zeta. cbn [model cv_accuracy_mean cv_accuracy_std
    last_report last_confusion_matrix]. rewrite Hsc.
  split; [done|]. split; [done|]. split; [exact Hn|]. split; [done|].
  split; [done|]. split; [done|]. split.
  { rewrite length_zip_with, <-(Forall2_length _ _ _ Hps), Nat.min_id. exact Hlen. }
  split; [done|]. split; [done|]. split; [done|].
  exists fd, p. by repeat split.
Qed.

Lemma train_too_few_rows df c v feat :
  numeric_col df "close" = Ok c -> numeric_col df "volume" = Ok v ->
  build_features df = Ok feat -> (nrows feat < 6)%nat ->
  train_timeseries_model feat FEATURE_COLS
  = Raise (ValueError
             ("Cannot have number of folds=6 greater than the number of samples="
              +:+ pretty (nrows feat) +:+ ".")).
Proof.
  intros Hc Hv Hb Hn. rewrite (build_features_eq _ _ _ Hc Hv) in Hb.
  injection Hb as <-. unfold train_timeseries_model.
  destruct (mapM_result_Forall2
              (fun k => getitem (dropna (setitem (feature_frame df c v)
                                           "target_up_tomorrow"
                                           (IntCol (up_tomorrow_values c)))) k
                        ≫= as_float)
              (fun _ _ => True) FEATURE_COLS) as (cs & Hcs & _).
  { apply Forall_forall. intros k Hk.
    destruct (getitem_dropna_derived df c v (IntCol (up_tomorrow_values c)) k)
      as [xs ->].
    - unfold FEATURE_COLS in Hk. unfold DERIVED.
      repeat (apply elem_of_cons in Hk as [->|Hk];
              [rewrite !elem_of_cons; repeat (first [by left | right])|]).
      by apply elem_of_nil in Hk.
    - simpl. by eexists. }
  destruct (values _ FEATURE_COLS) as [X|] eqn:HX.
  2: { unfold values in HX. by rewrite Hcs in HX. }
  apply values_length in HX. simpl.
  unfold getitem, dropna at 1. rewrite lookup_col_take_frame, lookup_col_setitem.
  rewrite decide_True by done. simpl.
  unfold TimeSeriesSplit_split. cbv zeta. rewrite HX.
  by rewrite decide_True by (simpl; lia).
Qed.

(** X15.  Bars short of what the rolling windows and the splitter need: on
    at most 15 bars the training entry point stops at the splitter, which
    finds fewer than 6 samples; on at most 10 bars the prediction endpoint,
    once it has loaded an artifact with a schema, answers that too few
    bars are left. *)
Theorem too_few_bars raw ds c v :
  lookup_col raw "day" = Some (DateCol ds) ->
  numeric_col raw "close" = Ok c ->
  numeric_col raw "volume" = Ok v ->
  (0 < nrows raw)%nat ->
  ((nrows raw ≤ 15)%nat ->
   forall args utcnow fs,
     status_code (platform (arg_symbol args) (from_date args) (to_date args)) = 200 ->
     data (platform (arg_symbol args) (from_date args) (to_date args)) = raw ->
     exists k, (k < 6)%nat /\
       main args utcnow fs
       = Raise (ValueError
                  ("Cannot have number of folds=6 greater than the number of samples="
                   +:+ pretty k +:+ "."))) /\
  ((nrows raw ≤ 10)%nat ->
   forall fs req model_path m meta cols_json,
     model_path_for fs req (upper (req_symbol req)) = Ok model_path ->
     joblib_load fs model_path = Ok m ->
     load_meta_for_model fs model_path = Ok meta ->
     meta_get meta "feature_columns" = Ok (Some cols_json) ->
     truthy cols_json = true ->
     status_code (platform (upper (req_symbol req)) (req_from_date req) (req_to_date req))
     = 200 ->
     data (platform (upper (req_symbol req)) (req_from_date req) (req_to_date req))
     = raw ->
     predict fs req = Raise (HTTPException 400 NotEnoughBars)).
Proof.
  intros Hd Hc Hv Hpos.
  assert (Hne : raw ≠ []) by (intros ->; simpl in Hpos; lia).
  set (df1 := take_frame (merge_sort (key_le (DateCol ds)) (seq 0 (nrows raw))) raw).
  assert (Hn1 : nrows df1 = nrows raw) by (unfold df1; by rewrite nrows_sorted).
  destruct (numeric_col_take_frame
              (merge_sort (key_le (DateCol ds)) (seq 0 (nrows raw))) _ _ _ Hc) as [c1 Hc1].
  destruct (numeric_col_take_frame
              (merge_sort (key_le (DateCol ds)) (seq 0 (nrows raw))) _ _ _ Hv) as [v1 Hv1].
  destruct (lookup_day_take_frame
              (merge_sort (key_le (DateCol ds)) (seq 0 (nrows raw))) _ _ Hd) as [ds1 Hd1].
  fold df1 in Hc1, Hv1, Hd1.
  split.
  - intros Hn args utcnow fs Hst Hdata. unfold main, fetch_daily_bars.
    cbv zeta.
    rewrite Hst, Hdata. rewrite bool_decide_false by (intros [? ?]; lia).
    unfold no_records. rewrite bool_decide_false by lia.
    rewrite (sort_by_day _ _ Hd). fold df1. simpl.
    destruct (build_features_total _ _ _ Hc1 Hv1) as [feat Hfeat].
    rewrite Hfeat. simpl.
    pose proof (build_features_rows _ _ (take_frame_wf _ _) Hfeat) as Hrows.
    fold df1 in Hrows. rewrite Hn1 in Hrows.
    exists (nrows feat). split; [lia|].
    rewrite (train_too_few_rows _ _ _ _ Hc1 Hv1 Hfeat); [done|]. lia.
  - intros Hn fs req model_path m meta cols_json Hpath Hm Hmeta Hget Htruthy Hst Hdata.
    unfold predict. rewrite Hpath. simpl. rewrite Hm. simpl. rewrite Hmeta.
    simpl. rewrite Hget. simpl. rewrite Htruthy.
    unfold fetch_bars. cbv zeta. rewrite upper_idemp, Hst, Hdata.
    rewrite bool_decide_false by (intros ?; lia).
    unfold no_records. rewrite bool_decide_false by lia.
    rewrite bool_decide_false.
    2: { intros Hnot. apply Hnot, lookup_col_is_Some.
         apply numeric_col_inv in Hc as (s & Hs & _). unfold getitem in Hs.
         destruct (lookup_col raw "close"); [eauto|done]. }
    rewrite bool_decide_true by (apply lookup_col_is_Some; eauto).
    rewrite (sort_by_day _ _ Hd). fold df1. simpl.
    destruct (engineer_features_total _ _ _ _ Hd1 Hc1 Hv1) as [out Hout].
    rewrite Hout. simpl.
    pose proof (engineer_features_rows _ _ Hout) as Hrows.
    rewrite Hn1 in Hrows. rewrite bool_decide_true by lia. done.
Qed.

(** *** Bars in any order *)

Lemma take_rows_take_rows a b s :
  Forall (fun i => i < length b)%nat a ->
  take_rows a (take_rows b s) = take_rows ((fun i => default 0%nat (b !! i)) <$> a) s.
Proof.
  intros H. destruct s as [xs|xs|xs]; simpl; f_equal; rewrite <-list_fmap_compose;
    apply Forall_fmap_ext; (eapply Forall_impl; [exact H|]); intros i Hi; simpl;
    rewrite list_lookup_fmap;
    destruct (lookup_lt_is_Some_2 b i Hi) as [r ->]; done.
Qed.

Lemma take_frame_take_frame a b df :
  Forall (fun i => i < length b)%nat a ->
  take_frame a (take_frame b df) = take_frame ((fun i => default 0%nat (b !! i)) <$> a) df.
Proof.
  intros H. unfold take_frame. rewrite <-list_fmap_compose.
  apply list_fmap_ext. intros _ [k s] _. unfold prod_map. simpl. f_equal.
  by apply take_rows_take_rows.
Qed.

(** [engineer_features] starts by sorting: on a frame and on its sorted
    rows, when sorting those again moves nothing, it gives the same. *)
Lemma engineer_features_sorts_first df ds ds1 :
  lookup_col df "day" = Some (DateCol ds) ->
  let df1 := take_frame (merge_sort (key_le (DateCol ds)) (seq 0 (nrows df))) df in
  lookup_col df1 "day" = Some (DateCol ds1) ->
  take_frame (merge_sort (key_le (DateCol ds1)) (seq 0 (nrows df1))) df1 = df1 ->
  engineer_features df = engineer_features df1.
Proof.
  intros Hd df1 Hd1 Hsort.
  unfold engineer_features, copy, reset_index, sort_values.
  rewrite (getitem_lookup _ _ _ Hd), (getitem_lookup _ _ _ Hd1). simpl.
  rewrite (setitem_same _ _ _ Hd), (getitem_lookup _ _ _ Hd).
  rewrite (setitem_same _ _ _ Hd1), (getitem_lookup _ _ _ Hd1). simpl.
  fold df1. by rewrite Hsort.
Qed.

Lemma StronglySorted_lt_of_le days :
  NoDup days -> StronglySorted Z.le days -> StronglySorted Z.lt days.
Proof.
  intros Hnd Hs. induction Hs as [|x l Hs IH Hall]; [constructor|].
  apply NoDup_cons in Hnd as [Hx Hnd]. constructor; [by apply IH|].
  apply Forall_forall. intros y Hy. rewrite Forall_forall in Hall.
  specialize (Hall y Hy). assert (x ≠ y) by (by intros ->). lia.
Qed.

(** The rows of a frame with distinct days, sorted by day. *)
Lemma sorted_rows_unique days (l : list nat) :
  NoDup days ->
  l ≡ₚ seq 0 (length days) ->
  StronglySorted (key_le (DateCol (Some <$> days))) l ->
  l = merge_sort (key_le (DateCol (Some <$> days))) (seq 0 (length days)).
Proof.
  intros Hnd Hperm Hs.
  apply StronglySorted_unique_strong with (R := key_le (DateCol (Some <$> days))).
  - intros i j Hi Hj Hij Hji.
    rewrite Hperm in Hi. apply elem_of_seq in Hi.
    rewrite merge_sort_Permutation in Hj. apply elem_of_seq in Hj.
    destruct (lookup_lt_is_Some_2 days i) as [x Hx]; [lia|].
    destruct (lookup_lt_is_Some_2 days j) as [y Hy]; [lia|].
    unfold key_le in Hij, Hji. simpl in Hij, Hji.
    rewrite !list_lookup_fmap, Hx, Hy in Hij, Hji. simpl in Hij, Hji.
    apply bool_decide_eq_true in Hij, Hji.
    assert (x = y) as -> by lia. by eapply NoDup_lookup.
  - done.
  - apply sorted_rows_by_day.
  - by rewrite merge_sort_Permutation.
Qed.

Lemma sorted_days_of_rows days :
  NoDup days ->
  exists sorted_days,
    (fun r => default None ((Some <$> days) !! r))
      <$> merge_sort (key_le (DateCol (Some <$> days))) (seq 0 (length days))
    = Some <$> sorted_days /\
    StronglySorted Z.lt sorted_days.
Proof.
  intros Hnd.
  set (sidx := merge_sort (key_le (DateCol (Some <$> days))) (seq 0 (length days))).
  assert (Hperm : sidx ≡ₚ seq 0 (length days)) by apply merge_sort_Permutation.
  exists ((fun r => default 0 (days !! r)) <$> sidx). split.
  - rewrite <-list_fmap_compose. apply Forall_fmap_ext, Forall_forall.
    intros r Hr. rewrite Hperm in Hr. apply elem_of_seq in Hr. simpl.
    rewrite list_lookup_fmap.
    destruct (lookup_lt_is_Some_2 days r) as [x ->]; [lia|]. done.
  - apply StronglySorted_lt_of_le.
    + apply NoDup_fmap_2_strong; [|rewrite Hperm; apply NoDup_seq].
      intros i j Hi Hj. rewrite Hperm in Hi, Hj.
      apply elem_of_seq in Hi, Hj.
      destruct (lookup_lt_is_Some_2 days i) as [x Hx]; [lia|].
      destruct (lookup_lt_is_Some_2 days j) as [y Hy]; [lia|].
      rewrite Hx, Hy. simpl. intros ->. by eapply NoDup_lookup.
    + apply StronglySorted_by_lookup. intros a b x y Ha Hb Hab.
      rewrite list_lookup_fmap in Ha, Hb.
      destruct (sidx !! a) as [ra|] eqn:Hra; [|done].
      destruct (sidx !! b) as [rb|] eqn:Hrb; [|done].
      simpl in Ha, Hb.
      pose proof (StronglySorted_lookup _ _ _ _ _ _
                    (sorted_rows_by_day (Some <$> days) (length days)) Hra Hrb Hab) as Hk.
      assert (ra ∈ sidx) as Hra' by (by eapply list_elem_of_lookup_2).
      assert (rb ∈ sidx) as Hrb' by (by eapply list_elem_of_lookup_2).
      rewrite Hperm in Hra', Hrb'. apply elem_of_seq in Hra', Hrb'.
      destruct (lookup_lt_is_Some_2 days ra) as [xa Hxa]; [lia|].
      destruct (lookup_lt_is_Some_2 days rb) as [xb Hxb]; [lia|].
      rewrite Hxa in Ha. rewrite Hxb in Hb. simpl in Ha, Hb. simplify_eq.
      unfold key_le in Hk. simpl in Hk. rewrite !list_lookup_fmap, Hxa, Hxb in Hk.
      simpl in Hk. by apply bool_decide_eq_true in Hk.
Qed.

(** What [engineer_features] works on: the rows sorted by day. *)
Lemma engineer_features_on_sorted df days :
  lookup_col df "day" = Some (DateCol (Some <$> days)) ->
  nrows df = length days ->
  NoDup days ->
  engineer_features df
  = engineer_features
      (take_frame (merge_sort (key_le (DateCol (Some <$> days))) (seq 0 (length days))) df).
Proof.
  intros Hd Hn Hnd.
  destruct (sorted_days_of_rows days Hnd) as (sd & Hsd & Hs).
  rewrite <-Hn.
  apply (engineer_features_sorts_first df (Some <$> days) (Some <$> sd) Hd).
  - rewrite lookup_col_take_frame, Hd, Hn. simpl. by rewrite Hsd.
  - apply sorted_frame_ascending; [apply take_frame_wf| |done].
    rewrite lookup_col_take_frame, Hd, Hn. simpl. by rewrite Hsd.
Qed.

(** X17.  The inference frame does not depend on the order in which the
    bars arrive: on a frame whose days are all present and distinct,
    [engineer_features] gives the same result on any rearrangement of the
    rows. *)
Theorem engineer_features_any_order df days idx :
  frame_wf df ->
  lookup_col df "day" = Some (DateCol (Some <$> days)) ->
  NoDup days ->
  idx ≡ₚ seq 0 (nrows df) ->
  engineer_features (take_frame idx df) = engineer_features df.
Proof.
  intros Hwf Hd Hnd Hperm.
  assert (Hn : nrows df = length days).
  { apply lookup_col_elem_of in Hd. unfold frame_wf in Hwf.
    rewrite Forall_forall in Hwf. specialize (Hwf _ Hd). simpl in Hwf.
    by rewrite length_fmap in Hwf. }
  assert (Hlen : length idx = length days).
  { by rewrite Hperm, length_seq. }
  assert (Hrange : forall i, i ∈ idx -> (i < length days)%nat).
  { intros i Hi. rewrite Hperm in Hi. apply elem_of_seq in Hi. lia. }
  set (pi := fun i => default 0%nat (idx !! i)).
  set (days' := (fun r => default 0 (days !! r)) <$> idx).
  assert (Hd' : lookup_col (take_frame idx df) "day" = Some (DateCol (Some <$> days'))).
  { rewrite lookup_col_take_frame, Hd. simpl. do 2 f_equal.
    unfold days'. rewrite <-list_fmap_compose. apply Forall_fmap_ext, Forall_forall.
    intros r Hr%Hrange. simpl. rewrite list_lookup_fmap.
    destruct (lookup_lt_is_Some_2 days r Hr) as [x ->]. done. }
  assert (Hlen' : length days' = length days).
  { unfold days'. by rewrite length_fmap. }
  assert (Hnd' : NoDup days').
  { unfold days'. apply NoDup_fmap_2_strong; [|rewrite Hperm; apply NoDup_seq].
    intros i j Hi%Hrange Hj%Hrange.
    destruct (lookup_lt_is_Some_2 days i Hi) as [x Hx].
    destruct (lookup_lt_is_Some_2 days j Hj) as [y Hy].
    rewrite Hx, Hy. simpl. intros ->. by eapply NoDup_lookup. }
  assert (Hday' : forall i x, days' !! i = Some x -> days !! pi i = Some x).
  { intros i x. unfold days', pi. rewrite list_lookup_fmap.
    destruct (idx !! i) as [r|] eqn:Hr; [|done]. simpl. intros [= <-].
    apply list_elem_of_lookup_2, Hrange in Hr.
    destruct (lookup_lt_is_Some_2 days r Hr) as [x ->]. done. }
  rewrite (engineer_features_on_sorted (take_frame idx df) days' Hd'); [|
    rewrite nrows_take_frame_cons by (intros E; rewrite E in Hd; discriminate Hd); lia | done].
  rewrite (engineer_features_on_sorted df days Hd Hn Hnd).
  f_equal.
  set (sidx' := merge_sort (key_le (DateCol (Some <$> days'))) (seq 0 (length days'))).
  assert (Hperm' : sidx' ≡ₚ seq 0 (length days)).
  { unfold sidx'. by rewrite merge_sort_Permutation, Hlen'. }
  rewrite take_frame_take_frame.
  2: { apply Forall_forall. intros i Hi. rewrite Hperm' in Hi.
       apply elem_of_seq in Hi. lia. }
  f_equal. apply sorted_rows_unique; [done| |].
  - rewrite Hperm'. rewrite <-Hlen at 1. unfold pi.
    by rewrite fmap_lookup_seq, Hperm, Hn.
  - apply StronglySorted_by_lookup. intros a b ra rb Ha Hb Hab.
    rewrite list_lookup_fmap in Ha, Hb.
    destruct (sidx' !! a) as [ia|] eqn:Hia; [|done].
    destruct (sidx' !! b) as [ib|] eqn:Hib; [|done].
    simpl in Ha, Hb. injection Ha as <-. injection Hb as <-.
    pose proof (StronglySorted_lookup _ _ _ _ _ _
                  (sorted_rows_by_day (Some <$> days') (length days')) Hia Hib Hab) as Hk.
    assert (ia < length days')%nat as Hia'.
    { apply list_elem_of_lookup_2 in Hia. rewrite Hperm' in Hia.
      apply elem_of_seq in Hia. lia. }
    assert (ib < length days')%nat as Hib'.
    { apply list_elem_of_lookup_2 in Hib. rewrite Hperm' in Hib.
      apply elem_of_seq in Hib. lia. }
    destruct (lookup_lt_is_Some_2 days' ia Hia') as [xa Hxa].
    destruct (lookup_lt_is_Some_2 days' ib Hib') as [xb Hxb].
    unfold key_le in *. simpl in *.
    rewrite !list_lookup_fmap in *. rewrite Hxa, Hxb in Hk.
    fold (pi ia). fold (pi ib).
    by rewrite (Hday' _ _ Hxa), (Hday' _ _ Hxb).
Qed.

End Service.

(** ** The statements at sample inputs *)

Lemma feature_builders_agree_witness :
  exists out_b out_e,
    build_features (rising_bars 12) = Ok out_b /\
    engineer_features (rising_bars 12) = Ok out_e /\
    (forall i j,
        is_Some (value_at out_b "day" i) ->
        value_at out_b "day" i = value_at out_e "day" j ->
        forall k, k ∈ DERIVED -> value_at out_b k i = value_at out_e k j) /\
    (forall j, (j < nrows out_e)%nat ->
        exists i, (i < nrows out_b)%nat /\
                  value_at out_b "day" i = value_at out_e "day" j).
Proof.
  eapply (feature_builders_agree (rising_bars 12) (Z.of_nat <$> seq 0 12)).
  - repeat constructor.
  - reflexivity.
  - repeat constructor.
  - reflexivity.
  - reflexivity.
Defined.


Abbreviation toy_train :=
  (train_timeseries_model unit toy_fit toy_predict_labels toy_report
     toy_confusion_matrix).
Abbreviation toy_main n :=
  (main unit toy_fit toy_predict_labels toy_report toy_confusion_matrix
     (rising_platform n)).
Abbreviation toy_predict n :=
  (predict unit toy_predict_proba_up (fun x => x) toy_fnmatch "models"
     (rising_platform n)).
Abbreviation toy_latest :=
  (latest_model_for_symbol unit toy_fnmatch "models").
Abbreviation toy_glob := (glob unit toy_fnmatch).

Abbreviation aapl_request :=
  {| req_symbol := "aapl"; req_from_date := "2025-01-01";
     req_to_date := "2025-01-08"; req_model_path := None |}.
Abbreviation aapl_args :=
  {| base_url := "http://localhost:8080"; arg_symbol := "aapl";
     from_date := "2025-01-01"; to_date := "2025-01-08" |}.
Abbreviation a_clock :=
  {| year := 2025; month := 1; day := 2; hour := 3; minute := 4; second := 5 |}.

Lemma folds_leakage_free_witness :
  exists X folds,
    values (rising_features 17) FEATURE_COLS = Ok X /\
    TimeSeriesSplit_split 5 (length X) = Ok folds /\
    length folds = 5%nat /\
    forall train_idx test_idx, (train_idx, test_idx) ∈ folds ->
      forall i j, i ∈ train_idx -> j ∈ test_idx -> (i < j)%nat.
Proof.
  eapply (folds_leakage_free unit toy_fit toy_predict_labels toy_report
            toy_confusion_matrix (rising_features 17) FEATURE_COLS).
  vm_compute. reflexivity.
Defined.

(** Scenario D, and the latest row of a training frame. *)
Lemma pick_latest_row_features_witness :
  pick_latest_row_features
    [("day", DateCol [Some 10]); ("ret_1d", FloatCol [0.5%float])]
    ["ret_1d"; "ma_5"]
  = Raise (HTTPException 500 (FeatureMismatch ["ma_5"])) /\
  exists stamp x,
    pick_latest_row_features (rising_features 12) ["ret_1d"; "ma_5"] = Ok (stamp, x) /\
    stamp = AsOfDate (Some 11) /\ length x = 2%nat.
Proof.
  split.
  - apply (proj1 (pick_latest_row_features_spec
                    [("day", DateCol [Some 10]); ("ret_1d", FloatCol [0.5%float])]
                    ["ret_1d"; "ma_5"])).
    vm_compute. discriminate.
  - destruct (proj2 (proj2 (pick_latest_row_features_spec
                              (rising_features 12) ["ret_1d"; "ma_5"])))
      as (stamp & x & Hpick & Hday & _ & Hx).
    + reflexivity.
    + vm_compute. repeat constructor.
    + vm_compute. lia.
    + intros c s Hc Hs.
      apply elem_of_cons in Hc as [->|Hc]; [vm_compute in Hs; by simplify_eq|].
      apply elem_of_cons in Hc as [->|Hc]; [vm_compute in Hs; by simplify_eq|].
      by apply elem_of_nil in Hc.
    + intros s Hs. vm_compute in Hs. simplify_eq. eauto.
    + exists stamp, x. split; [exact Hpick|]. split.
      * destruct (Hday _ eq_refl) as (d & Hd & ->). vm_compute in Hd. by simplify_eq.
      * apply Forall2_length in Hx. by rewrite <-Hx.
Defined.

Lemma five_bars_insufficient_witness :
  toy_main 5 aapl_args a_clock ∅
  = Raise (ValueError
             "Cannot have number of folds=6 greater than the number of samples=0.") /\
  toy_predict 5 toy_store aapl_request = Raise (HTTPException 400 NotEnoughBars).
Proof.
  destruct (five_bars_insufficient unit toy_fit toy_predict_labels
              toy_predict_proba_up toy_report toy_confusion_matrix (fun x => x)
              toy_fnmatch "models" (rising_platform 5) (rising_bars 5)
              ((fun i => Some (Z.of_nat i)) <$> seq 0 5)
              ((fun i => float_of_Z (100 + Z.of_nat i)) <$> seq 0 5)
              (float_of_Z <$> ((fun i => 1000 + 10 * Z.of_nat i) <$> seq 0 5))
              eq_refl eq_refl eq_refl eq_refl) as [Htrain Hpredict].
  split.
  - apply Htrain; reflexivity.
  - eapply Hpredict; vm_compute; reflexivity.
Defined.

(** With an empty models directory the same 5 bars are never fetched: the
    request fails on the missing artifact, not on the missing rows. *)
Lemma five_bars_without_artifact :
  nrows (data (rising_platform 5 "AAPL" "2025-01-01" "2025-01-08")) = 5%nat /\
  toy_predict 5 ∅ aapl_request
  = Raise (FileNotFoundError
             "No model found for AAPL. Expected something like: models/AAPL_*_logreg.joblib") /\
  toy_predict 5 ∅ aapl_request ≠ Raise (HTTPException 400 NotEnoughBars).
Proof.
  assert (H : toy_predict 5 ∅ aapl_request
              = Raise (FileNotFoundError
                         "No model found for AAPL. Expected something like: models/AAPL_*_logreg.joblib"))
    by (vm_compute; reflexivity).
  split; [reflexivity|]. split; [exact H|]. rewrite H. discriminate.
Qed.

(** *** Symbols that extend one another *)

(** C8.  After training saved an artifact of AAPL_X and nothing else, the
    directory holds no artifact of AAPL.  Still the lookup for aapl raises
    nothing: it returns the model file of AAPL_X, and the request for aapl
    that pins no model path is answered with the "Meta JSON missing" error
    of that artifact, not with "No model found".  Had the metadata named
    its schema under "feature_columns", the request would be answered with
    a prediction for AAPL made by the model of AAPL_X. *)
Theorem predict_finds_other_symbol (Pipeline : Type)
    (predict_proba_up : Pipeline -> list float -> float) (round6 : float -> float)
    (platform : string -> string -> string -> response)
    from_ to_ S (res : train_result Pipeline) :
  let fs := save_artifact Pipeline ∅ "aapl_x" "20200101_000000" from_ to_ S res in
  let req := {| req_symbol := "aapl"; req_from_date := from_; req_to_date := to_;
                req_model_path := None |} in
  let model_path := "ml/models/AAPL_X_20200101_000000_logreg.joblib" in
  let meta_path := "ml/models/AAPL_X_20200101_000000_meta.json" in
  (forall p, is_Some (fs !! p) -> p = model_path \/ p = meta_path) /\
  (forall t, datetime_wf t -> fs !! artifact_path "ml/models/" "aapl" t = None) /\
  latest_model_for_symbol Pipeline toy_fnmatch "ml/models" fs "aapl" = Ok model_path /\
  predict Pipeline predict_proba_up round6 toy_fnmatch "ml/models" platform fs req
  = Raise (HTTPException 500 MetaMissingFeatureColumns) /\
  let fs' := <[meta_path := JsonFile (JObj [("feature_columns", JArr [JStr "ret_1d"])])]> fs in
  exists resp,
    predict Pipeline predict_proba_up round6 toy_fnmatch "ml/models"
      (rising_platform 12) fs' req = Ok resp /\
    resp_symbol resp = "AAPL" /\
    model_file resp = "AAPL_X_20200101_000000_logreg.joblib".
Proof.
  intros fs req model_path meta_path.
  assert (Hfiles : forall p, is_Some (fs !! p) -> p = model_path \/ p = meta_path).
  { intros p. unfold fs, save_artifact. cbv zeta.
    destruct (decide (p = meta_path)) as [->|Hm]; [by right|].
    destruct (decide (p = model_path)) as [->|Hp]; [by left|].
    rewrite lookup_insert_ne by (intros <-; by destruct Hm).
    rewrite lookup_insert_ne by (intros <-; by destruct Hp).
    rewrite lookup_empty. by intros [? ?]. }
  split; [exact Hfiles|]. split.
  { intros t Ht. destruct (fs !! artifact_path "ml/models/" "aapl" t) eqn:E; [|done].
    exfalso. destruct (Hfiles (artifact_path "ml/models/" "aapl" t)) as [H|H];
      [by rewrite E| |];
      apply (f_equal String.length) in H; unfold artifact_path in H;
      rewrite !string_length_app, (strftime_length t Ht) in H; simpl in H; lia. }
  split; [vm_compute; reflexivity|].
  split; [vm_compute; reflexivity|].
  intros fs'. eexists. split; [vm_compute; reflexivity|]. split; reflexivity.
Qed.

(** C9.  With an artifact of AAPL_X saved in 2020 and an artifact of AAPL
    saved in 2025, the lookup for aapl returns the model file of AAPL_X.
    Both model files match AAPL_*_logreg.joblib, and sorted the path of
    AAPL_X comes last; it is no artifact of AAPL at any time of saving,
    and the one artifact of AAPL, saved later, is passed over. *)
Theorem latest_model_of_other_symbol (Pipeline : Type) from_ to_ S
    (res_x res : train_result Pipeline) :
  let t_x := {| year := 2020; month := 1; day := 1;
                hour := 0; minute := 0; second := 0 |} in
  let t := {| year := 2025; month := 1; day := 2;
              hour := 3; minute := 4; second := 5 |} in
  let fs_x := save_artifact Pipeline ∅ "aapl_x" (strftime t_x) from_ to_ S res_x in
  let fs := save_artifact Pipeline fs_x "aapl" (strftime t) from_ to_ S res in
  let path_x := artifact_path "ml/models/" "aapl_x" t_x in
  let path := artifact_path "ml/models/" "aapl" t in
  datetime_lt t_x t /\
  fs !! path = Some (JoblibFile (model Pipeline res)) /\
  fs !! path_x = Some (JoblibFile (model Pipeline res_x)) /\
  sorted (glob Pipeline toy_fnmatch fs (model_pattern "ml/models" "aapl"))
  = [path; path_x] /\
  latest_model_for_symbol Pipeline toy_fnmatch "ml/models" fs "aapl" = Ok path_x /\
  (forall t', datetime_wf t' -> path_x ≠ artifact_path "ml/models/" "aapl" t').
Proof.
  intros t_x t fs_x fs path_x path.
  split; [vm_compute; lia|].
  split; [vm_compute; reflexivity|].
  split; [vm_compute; reflexivity|].
  split; [vm_compute; reflexivity|].
  split; [vm_compute; reflexivity|].
  intros t' Ht' H. apply (f_equal String.length) in H.
  unfold path_x, artifact_path in H.
  rewrite !string_length_app, (strftime_length t' Ht') in H.
  vm_compute in H. discriminate.
Qed.

(** The two artifacts of the sample directory, by creation time. *)
Lemma latest_model_is_most_recent_witness :
  let times := [ {| year := 2025; month := 1; day := 2;
                    hour := 3; minute := 4; second := 5 |};
                 {| year := 2024; month := 1; day := 1;
                    hour := 0; minute := 0; second := 0 |} ] in
  exists t, t ∈ times /\
            "models/AAPL_20250102_030405_logreg.joblib" = artifact_path "models/" "aapl" t /\
            forall t', t' ∈ times -> ¬ datetime_lt t t'.
Proof.
  intros times.
  apply (latest_model_is_most_recent unit toy_fnmatch "models" toy_store "aapl").
  - apply Forall_cons_2; [|apply Forall_cons_2; [|apply Forall_nil_2]];
      unfold datetime_wf; cbn [year month day hour minute second];
      repeat split;
      first [ apply Nat.leb_le; reflexivity | apply Nat.ltb_lt; reflexivity ].
  - intros q.
    replace (toy_glob toy_store (model_pattern "models" "aapl"))
      with (artifact_path "models/" "aapl" <$> times); [done|].
    vm_compute. reflexivity.
  - vm_compute. reflexivity.
Defined.

Lemma feature_builders_leave_input_witness :
  (Store.run (Store.build_features 0%nat) [rising_bars 11]).2 !! 0%nat
  = Some (rising_bars 11) /\
  (Store.run (Store.engineer_features 0%nat) [rising_bars 11]).2 !! 0%nat
  = Some (rising_bars 11) /\
  [rising_bars 11] `prefix_of` (Store.run (Store.build_features 0%nat) [rising_bars 11]).2 /\
  [rising_bars 11] `prefix_of` (Store.run (Store.engineer_features 0%nat) [rising_bars 11]).2.
Proof.
  apply (feature_builders_leave_input [rising_bars 11] 0%nat (rising_bars 11)).
  reflexivity.
Defined.

(** ** The further properties at sample inputs *)

Abbreviation zigzag_train :=
  (train_timeseries_model unit two_class_fit toy_predict_labels toy_report
     toy_confusion_matrix).

Abbreviation pinned_request :=
  {| req_symbol := "aapl"; req_from_date := "2025-01-01";
     req_to_date := "2025-01-08";
     req_model_path := Some "models/AAPL_20240101_000000_logreg.joblib" |}.

Lemma features_have_no_missing_value_witness :
  nrows (rising_features 14) = 4%nat /\
  forall k s i, (k, s) ∈ rising_features 14 -> (i < nrows (rising_features 14))%nat ->
                notna_at s i = true.
Proof.
  split; [reflexivity|].
  apply (features_have_no_missing_value (rising_bars 14) (rising_features 14)).
  left. vm_compute. reflexivity.
Defined.

Lemma build_features_keeps_input_columns_witness :
  columns (rising_features 12)
  = (columns (rising_bars 12)
     ++ filter (fun k => k ∉ columns (rising_bars 12))
          (DERIVED ++ ["target_up_tomorrow"]))%list /\
  exists idx,
    StronglySorted lt idx /\
    forall k, k ∉ DERIVED -> k ≠ "target_up_tomorrow" ->
      lookup_col (rising_features 12) k = take_rows idx <$> lookup_col (rising_bars 12) k.
Proof.
  apply (build_features_keeps_input_columns (rising_bars 12) (rising_features 12)).
  vm_compute. reflexivity.
Defined.

Lemma engineer_features_days_ascending_witness :
  exists out,
    engineer_features (falling_days_bars 12) = Ok out /\
    lookup_col out "day" = Some (DateCol [Some 11; Some 12]) /\
    columns out = (columns (falling_days_bars 12) ++ filter (fun k => k ∉ columns (falling_days_bars 12)) DERIVED)%list /\
    exists days,
      lookup_col out "day" = Some (DateCol (Some <$> days)) /\
      StronglySorted Z.le days.
Proof.
  eexists. split; [vm_compute; reflexivity|]. split; [vm_compute; reflexivity|].
  apply (engineer_features_days_ascending (falling_days_bars 12)).
  vm_compute. reflexivity.
Defined.

Lemma build_features_labels_witness :
  exists idx,
    StronglySorted lt idx /\
    forall j, (j < nrows (rising_features 12))%nat ->
      exists r x, idx !! j = Some r /\
        ((fun i => float_of_Z (100 + Z.of_nat i)) <$> seq 0 12) !! r = Some x /\
        value_at (rising_features 12) "target_up_tomorrow" j
        = Some (CInt (label_of ((fun i => float_of_Z (100 + Z.of_nat i)) <$> seq 0 12) r x)) /\
        forall k, k ∉ DERIVED -> k ≠ "target_up_tomorrow" ->
          value_at (rising_features 12) k j = value_at (rising_bars 12) k r.
Proof.
  apply (build_features_labels (rising_bars 12)); vm_compute; reflexivity.
Defined.

Lemma engineer_features_prefix_witness :
  exists out out_n,
    engineer_features (rising_bars 14) = Ok out /\
    engineer_features (frame_head 12 (rising_bars 14)) = Ok out_n /\
    nrows out = 4%nat /\ nrows out_n = 2%nat /\
    out_n = frame_head (nrows out_n) out.
Proof.
  destruct (engineer_features (rising_bars 14)) as [out|] eqn:E;
    [|by vm_compute in E].
  destruct (engineer_features_prefix (rising_bars 14)
              (Z.of_nat <$> seq 0 14) 12 out) as (out_n & Hn & Heq).
  - apply take_frame_wf with (idx := seq 0 14) (df := rising_bars 14).
  - reflexivity.
  - apply StronglySorted_fmap with (R1 := lt); [lia|].
    apply StronglySorted_seq. auto.
  - exact E.
  - exists out, out_n. split; [done|]. split; [done|].
    vm_compute in E. injection E as <-. vm_compute in Hn. injection Hn as <-.
    split; [reflexivity|]. split; [reflexivity|]. exact Heq.
Defined.

Lemma feature_rows_bound_witness :
  (nrows (rising_features 14) ≤ nrows (rising_bars 14) - 10)%nat.
Proof.
  apply (feature_rows_bound (rising_bars 14) (rising_features 14)).
  - apply take_frame_wf with (idx := seq 0 14) (df := rising_bars 14).
  - left. vm_compute. reflexivity.
Defined.

Lemma fetch_daily_bars_sorted_witness :
  exists df,
    fetch_daily_bars (rising_platform 12) "AAPL" "2025-01-01" "2025-01-08" = Ok df /\
    let r := rising_platform 12 "AAPL" "2025-01-01" "2025-01-08" in
    ¬ (400 ≤ status_code r < 600) /\
    columns df = columns (data r) /\
    nrows df = nrows (data r) /\ (0 < nrows df)%nat /\
    exists ds, lookup_col df "day" = Some (DateCol ds) /\ StronglySorted day_le ds.
Proof.
  eexists. split; [vm_compute; reflexivity|].
  apply (fetch_daily_bars_sorted (rising_platform 12)). vm_compute. reflexivity.
Defined.

Lemma fetch_bars_sorted_witness :
  exists df,
    fetch_bars (rising_platform 12) "aapl" "2025-01-01" "2025-01-08" = Ok df /\
    let r := rising_platform 12 (upper "aapl") "2025-01-01" "2025-01-08" in
    status_code r = 200 /\
    columns df = columns (data r) /\
    nrows df = nrows (data r) /\ (0 < nrows df)%nat /\
    "close" ∈ columns df /\
    ((("day" ∉ columns (data r)) /\ df = data r) \/
     (exists ds, lookup_col df "day" = Some (DateCol ds) /\ StronglySorted day_le ds)).
Proof.
  eexists. split; [vm_compute; reflexivity|].
  apply (fetch_bars_sorted (rising_platform 12)). vm_compute. reflexivity.
Defined.

Lemma predict_response_witness :
  exists resp,
    toy_predict 12 toy_store aapl_request = Ok resp /\
    model_file resp = "AAPL_20250102_030405_logreg.joblib" /\
    resp_as_of resp = AsOfDate (Some 11) /\
    predicted resp = 1 /\
    resp_symbol resp = upper "aapl" /\
    exists path m meta cols_json cols df df_feat days d x,
      toy_latest toy_store (upper "aapl") = Ok path /\
      joblib_load unit toy_store path = Ok m /\
      model_file resp = basename path /\
      load_meta_for_model unit toy_store path = Ok meta /\
      meta_get meta "feature_columns" = Ok (Some cols_json) /\
      column_names cols_json = Ok cols /\
      fetch_bars (rising_platform 12) (upper "aapl") "2025-01-01" "2025-01-08" = Ok df /\
      engineer_features df = Ok df_feat /\
      lookup_col df_feat "day" = Some (DateCol (Some <$> days)) /\
      StronglySorted Z.le days /\
      last days = Some d /\
      pick_latest_row_features df_feat cols = Ok (AsOfDate (Some d), x) /\
      Forall2 (fun c y => exists v, value_at df_feat c (nrows df_feat - 1) = Some v /\
                                    to_float v = Ok y)
        cols x /\
      resp_as_of resp = AsOfDate (Some d) /\
      prob_up resp = toy_predict_proba_up m x /\
      predicted resp = (if (0.5 <=? toy_predict_proba_up m x)%float then 1 else 0).
Proof.
  destruct (toy_predict 12 toy_store aapl_request) as [resp|] eqn:E;
    [|by vm_compute in E].
  exists resp. split; [done|].
  destruct (predict_response unit toy_predict_proba_up (fun x => x) toy_fnmatch
              "models" (rising_platform 12) toy_store aapl_request resp E)
    as (Hsym & Hrest).
  vm_compute in E. injection E as <-.
  split; [reflexivity|]. split; [reflexivity|]. split; [reflexivity|].
  split; [exact Hsym|exact Hrest].
Defined.

Lemma main_artifact_round_trip_witness :
  exists fs' m fields,
    toy_main 16 aapl_args a_clock ∅ = Ok fs' /\
    joblib_load unit fs' "ml/models/AAPL_20250102_030405_logreg.joblib" = Ok m /\
    load_meta_for_model unit fs' "ml/models/AAPL_20250102_030405_logreg.joblib"
    = Ok (JObj fields) /\
    dict_get fields "symbol" = Some (JStr "AAPL") /\
    dict_get fields "feature_cols" = Some (JArr (JStr <$> FEATURE_COLS)).
Proof.
  assert (Hok : match toy_main 16 aapl_args a_clock ∅ with
                | Ok _ => true
                | Raise _ => false
                end = true) by (vm_compute; reflexivity).
  destruct (toy_main 16 aapl_args a_clock ∅) as [fs'|e] eqn:E; [|discriminate Hok].
  destruct (main_artifact_round_trip unit toy_fit toy_predict_labels toy_report
              toy_confusion_matrix (rising_platform 16) aapl_args a_clock ∅ fs' E)
    as (m & fields & Hm & Hmeta & Hsym & _ & _ & Hcols & _).
  exists fs', m, fields. split; [reflexivity|]. split; [exact Hm|].
  split; [exact Hmeta|]. split; [exact Hsym|exact Hcols].
Defined.

Lemma save_artifact_same_second_witness :
  let r1 := {| model := tt; cv_accuracy_mean := 0.5%float; cv_accuracy_std := 0%float;
               last_report := None; last_confusion_matrix := None |} in
  let r2 := {| model := tt; cv_accuracy_mean := 0.75%float; cv_accuracy_std := 0%float;
               last_report := None; last_confusion_matrix := None |} in
  save_artifact unit
    (save_artifact unit ∅ "aapl" "20250102_030405" "a" "b" FEATURE_COLS r1)
    "AAPL" "20250102_030405" "c" "d" ["ret_1d"] r2
  = save_artifact unit ∅ "AAPL" "20250102_030405" "c" "d" ["ret_1d"] r2.
Proof.
  intros r1 r2. apply (save_artifact_same_second unit). reflexivity.
Defined.

Lemma predict_pinned_reads_two_files_witness :
  toy_predict 12 toy_store pinned_request
  = toy_predict 12 (<["models/other.bin" := JoblibFile tt]> toy_store) pinned_request.
Proof.
  apply (predict_pinned_reads_two_files unit toy_predict_proba_up (fun x => x)
           toy_fnmatch "models" (rising_platform 12) _ _ pinned_request
           "models/AAPL_20240101_000000_logreg.joblib").
  - reflexivity.
  - discriminate.
  - vm_compute. reflexivity.
  - vm_compute. reflexivity.
Defined.

Lemma predict_incomplete_artifact_witness :
  toy_predict 12 toy_store pinned_request
  = Raise (HTTPException 500
             (FailedToLoadModelMeta
                (FileNotFoundError
                   "Meta file not found: models/AAPL_20240101_000000_meta.json"))) /\
  toy_predict 12 bare_store aapl_request
  = Raise (HTTPException 500 MetaMissingFeatureColumns).
Proof.
  split.
  - apply (predict_incomplete_artifact unit toy_predict_proba_up (fun x => x)
             toy_fnmatch "models" (rising_platform 12) toy_store pinned_request
             "models/AAPL_20240101_000000_logreg.joblib" tt);
      vm_compute; reflexivity.
  - eapply (proj2 (predict_incomplete_artifact unit toy_predict_proba_up (fun x => x)
             toy_fnmatch "models" (rising_platform 12) bare_store aapl_request
             "models/AAPL_20250102_030405_logreg.joblib" tt _ _)).
    + vm_compute. reflexivity.
    + vm_compute. reflexivity.
  Unshelve. all: vm_compute; reflexivity.
Defined.

Lemma train_timeseries_model_result_witness :
  exists res X y folds ps,
    zigzag_train (zigzag_features 23) FEATURE_COLS = Ok res /\
    values (zigzag_features 23) FEATURE_COLS = Ok X /\
    getitem (zigzag_features 23) "target_up_tomorrow" ≫= labels = Ok y /\
    (6 ≤ length X)%nat /\
    TimeSeriesSplit_split 5 (length X) = Ok folds /\
    length folds = 5%nat /\
    Forall2 (fun fd p => two_class_fit (index_rows [] X fd.1) (index_rows 0 y fd.1)
                         = Ok p)
      folds ps /\
    let y_test (fd : fold) := index_rows 0 y fd.2 in
    let preds (fd : fold) p := toy_predict_labels p (index_rows [] X fd.2) in
    let scores := zip_with (fun fd p => accuracy_score (y_test fd) (preds fd p))
                    folds ps in
    length scores = 5%nat /\
    cv_accuracy_mean unit res = np_mean scores /\
    cv_accuracy_std unit res = np_std scores /\
    two_class_fit X y = Ok (model unit res) /\
    let n := length X in
    let test_size := (n `div` 6)%nat in
    exists fd p,
      last folds = Some fd /\ last ps = Some p /\
      fd = (seq 0 (n - test_size), seq (n - test_size) test_size) /\
      last_report unit res = Some (toy_report (y_test fd) (preds fd p)) /\
      last_confusion_matrix unit res
      = Some (toy_confusion_matrix (y_test fd) (preds fd p)).
Proof.
  assert (Hok : match zigzag_train (zigzag_features 23) FEATURE_COLS with
                | Ok _ => true
                | Raise _ => false
                end = true) by (vm_compute; reflexivity).
  destruct (zigzag_train (zigzag_features 23) FEATURE_COLS) as [res|e] eqn:E;
    [|discriminate Hok].
  destruct (train_timeseries_model_result unit two_class_fit toy_predict_labels
              toy_report toy_confusion_matrix (zigzag_features 23) FEATURE_COLS res E)
    as (X & y & folds & ps & H).
  exists res, X, y, folds, ps. split; [reflexivity|exact H].
Defined.

Lemma too_few_bars_witness :
  (exists k, (k < 6)%nat /\
     toy_main 15 aapl_args a_clock ∅
     = Raise (ValueError
                ("Cannot have number of folds=6 greater than the number of samples="
                 +:+ pretty k +:+ "."))) /\
  toy_predict 10 toy_store aapl_request = Raise (HTTPException 400 NotEnoughBars).
Proof.
  split.
  - destruct (too_few_bars unit toy_fit toy_predict_labels
              toy_predict_proba_up toy_report toy_confusion_matrix (fun x => x)
              toy_fnmatch "models" (rising_platform 15) (rising_bars 15)
              ((fun i => Some (Z.of_nat i)) <$> seq 0 15)
              ((fun i => float_of_Z (100 + Z.of_nat i)) <$> seq 0 15)
              (float_of_Z <$> ((fun i => 1000 + 10 * Z.of_nat i) <$> seq 0 15))
              eq_refl eq_refl eq_refl) as [Htrain _]; [simpl; lia|].
    apply Htrain; [simpl; lia|reflexivity..].
  - destruct (too_few_bars unit toy_fit toy_predict_labels
              toy_predict_proba_up toy_report toy_confusion_matrix (fun x => x)
              toy_fnmatch "models" (rising_platform 10) (rising_bars 10)
              ((fun i => Some (Z.of_nat i)) <$> seq 0 10)
              ((fun i => float_of_Z (100 + Z.of_nat i)) <$> seq 0 10)
              (float_of_Z <$> ((fun i => 1000 + 10 * Z.of_nat i) <$> seq 0 10))
              eq_refl eq_refl eq_refl) as [_ Hpredict]; [simpl; lia|].
    eapply Hpredict; [simpl; lia|vm_compute; reflexivity..].
Defined.

Lemma engineer_features_any_order_witness :
  engineer_features (take_frame (reverse (seq 0 12)) (rising_bars 12))
  = engineer_features (rising_bars 12).
Proof.
  apply (engineer_features_any_order (rising_bars 12) (Z.of_nat <$> seq 0 12)).
  - apply take_frame_wf with (idx := seq 0 12) (df := rising_bars 12).
  - reflexivity.
  - apply (NoDup_fmap_2 Z.of_nat), NoDup_seq.
  - apply reverse_Permutation.
Defined.
